(** * Veggie Muse: the history ledger, the generation flows and the forms

    A shallow embedding of the TypeScript sources of the application:
    - [src/contexts/app-context.tsx]: the React context that keeps the API
      key, the human-verification flag and the four "seen item" lists in
      browser storage;
    - the CAPTCHA flow ([generateMathProblem], [generateCaptcha]);
    - the recipe flow ([generateRecipe]), the culinary-passport flow
      ([generateCulinaryPassport]), the weekly-plan flow
      ([generateWeeklyPlan]), the chat ([chatWithChef]) and the recipe
      finder ([findRecipesInBigQuery]);
    - the forms and dialogs that call them ([onSubmit], [handleSend],
      [handleSaveKey], [handleVerification], [handleDownloadShoppingList]).

    A JavaScript string is the Rocq string of its UTF-8 bytes, arrays are
    lists, [null] and [undefined] are [None], browser storage is a finite
    map from keys to strings, and a promise is the value it settles to. *)

From Stdlib Require Import String Ascii List ZArith QArith Qround Lia Bool.
From Stdlib Require Import DecimalString.
From stdpp Require Import gmap strings list.

Local Open Scope string_scope.
Local Open Scope list_scope.

(** ** JavaScript values and helpers *)

(** A value read back by [JSON.parse]. Numbers keep their literal. *)
Local Unset Elimination Schemes.
Inductive json : Type :=
| JNull
| JBool (b : bool)
| JNum (literal : string)
| JStr (s : string)
| JArr (items : list json)
| JObj (fields : list (string * json)).
Local Set Elimination Schemes.

(** What an awaited call settles to: a value, or a thrown error. *)
Record JsError : Type := mkError { message : option string }.

Inductive Settled (A : Type) : Type :=
| Fulfilled (a : A)
| Rejected (e : JsError).
Arguments Fulfilled {A} a.
Arguments Rejected {A} e.

(** [new Error(msg)] *)
Definition Error (msg : string) : JsError := mkError (Some msg).
(** The [TypeError] of reading a property of [undefined]. *)
Definition TypeError : JsError := mkError (Some "Cannot read properties of undefined").

(** Truthiness of a string: only the empty string is falsy. *)
Definition truthy (s : string) : bool :=
  match s with EmptyString => false | String _ _ => true end.

(** Truthiness of a [string | null]. *)
Definition truthy_opt (o : option string) : bool :=
  match o with Some s => truthy s | None => false end.

(** [String(b)] for a boolean. *)
Definition String_of_bool (b : bool) : string := if b then "true" else "false".

(** [String(n)] for an integer-valued number. *)
Definition String_of_number (n : Z) : string := NilZero.string_of_int (Z.to_int n).

(** [haystack.includes(needle)] *)
Definition includes (haystack needle : string) : bool :=
  match String.index 0 needle haystack with Some _ => true | None => false end.

(** The bytes of a string. *)
Definition code (c : ascii) : nat := nat_of_ascii c.

(** The white space that [trim] removes: the WhiteSpace and LineTerminator
    code points of ECMAScript, as they are encoded in the string.

    In one byte: TAB, LF, VT, FF, CR and SPACE. *)
Definition whitespace1 (c : ascii) : bool :=
  (Nat.leb 9 (code c) && Nat.leb (code c) 13) || Nat.eqb (code c) 32.

(** In two bytes: U+00A0, the no-break space. *)
Definition whitespace2 (c1 c2 : ascii) : bool :=
  Nat.eqb (code c1) 194 && Nat.eqb (code c2) 160.

(** In three bytes: U+1680; U+2000 to U+200A, U+2028, U+2029 and U+202F;
    U+205F; U+3000; U+FEFF. *)
Definition whitespace3 (c1 c2 c3 : ascii) : bool :=
  (Nat.eqb (code c1) 225 && Nat.eqb (code c2) 154 && Nat.eqb (code c3) 128)
  || (Nat.eqb (code c1) 226 && Nat.eqb (code c2) 128
      && ((Nat.leb 128 (code c3) && Nat.leb (code c3) 138)
          || Nat.eqb (code c3) 168 || Nat.eqb (code c3) 169 || Nat.eqb (code c3) 175))
  || (Nat.eqb (code c1) 226 && Nat.eqb (code c2) 129 && Nat.eqb (code c3) 159)
  || (Nat.eqb (code c1) 227 && Nat.eqb (code c2) 128 && Nat.eqb (code c3) 128)
  || (Nat.eqb (code c1) 239 && Nat.eqb (code c2) 187 && Nat.eqb (code c3) 191).

(** Removes from the head of a list of bytes the code points of one, two
    and three bytes that [w1], [w2] and [w3] recognise. *)
Fixpoint dropLeading (w1 : ascii -> bool) (w2 : ascii -> ascii -> bool)
    (w3 : ascii -> ascii -> ascii -> bool) (l : list ascii) : list ascii :=
  match l with
  | [] => []
  | c1 :: r1 =>
      if w1 c1 then dropLeading w1 w2 w3 r1
      else
        match r1 with
        | [] => l
        | c2 :: r2 =>
            if w2 c1 c2 then dropLeading w1 w2 w3 r2
            else
              match r2 with
              | [] => l
              | c3 :: r3 => if w3 c1 c2 c3 then dropLeading w1 w2 w3 r3 else l
              end
        end
  end.

(** The white space at the head of a list of bytes is removed. *)
Definition dropWhite : list ascii -> list ascii :=
  dropLeading whitespace1 whitespace2 whitespace3.

(** The same for the white space at the end, on the reversed list: there
    the bytes of a code point come last byte first. *)
Definition dropWhiteReversed : list ascii -> list ascii :=
  dropLeading whitespace1 (fun c2 c1 => whitespace2 c1 c2)
    (fun c3 c2 c1 => whitespace3 c1 c2 c3).

(** [s.trim()]: the white space is removed from both ends. *)
Definition trim (s : string) : string :=
  string_of_list_ascii
    (rev (dropWhiteReversed (rev (dropWhite (list_ascii_of_string s))))).

(** The string of the given bytes. *)
Definition bytes (l : list nat) : string := string_of_list_ascii (map ascii_of_nat l).

(** The code points that are white space, each as a string. *)
Definition WHITE_SPACE : list string :=
  [ bytes [9]; bytes [10]; bytes [11]; bytes [12]; bytes [13]; bytes [32];
    bytes [194; 160];                                   (* U+00A0 *)
    bytes [225; 154; 128];                              (* U+1680 *)
    bytes [226; 128; 128]; bytes [226; 128; 129]; bytes [226; 128; 130];
    bytes [226; 128; 131]; bytes [226; 128; 132]; bytes [226; 128; 133];
    bytes [226; 128; 134]; bytes [226; 128; 135]; bytes [226; 128; 136];
    bytes [226; 128; 137]; bytes [226; 128; 138];       (* U+2000 to U+200A *)
    bytes [226; 128; 168]; bytes [226; 128; 169];       (* U+2028, U+2029 *)
    bytes [226; 128; 175];                              (* U+202F *)
    bytes [226; 129; 159];                              (* U+205F *)
    bytes [227; 128; 128];                              (* U+3000 *)
    bytes [239; 187; 191] ].                            (* U+FEFF *)

(** A string made of white space only: a sequence of such code points. *)
Definition only_white_space (s : string) : Prop :=
  exists l, Forall (fun w => In w WHITE_SPACE) l /\ s = String.concat "" l.

(** [s.split(sep)] for a one-character separator. *)
Fixpoint split (sep : ascii) (s : string) : list string :=
  match s with
  | EmptyString => [EmptyString]
  | String c r =>
      if Ascii.eqb c sep then EmptyString :: split sep r
      else match split sep r with
           | [] => [String c EmptyString]
           | w :: ws => String c w :: ws
           end
  end.

(** [arr.join(sep)] on an array of strings. *)
Definition join (sep : string) (arr : list string) : string := String.concat sep arr.

(** [a || b] on strings. *)
Definition or_else (a b : string) : string := if truthy a then a else b.

(** ** The application context ([src/contexts/app-context.tsx]) *)

Module AppContext.

Definition API_KEY_STORAGE_KEY := "google-ai-api-key".
Definition HUMAN_VERIFIED_SESSION_KEY := "human-verified-session".
Definition SEEN_QUOTES_STORAGE_KEY := "seen-recipe-quotes".
Definition SEEN_RECIPES_STORAGE_KEY := "seen-recipe-titles".
Definition SEEN_PASSPORT_DISHES_KEY := "seen-passport-dishes".
Definition SEEN_WEEKLY_PLANS_KEY := "seen-weekly-plan-titles".
Definition MAX_SEEN_ITEMS : nat := 100.

(** The structural type [{ dishNameEnglish: string }] of the dishes handed
    to [addSeenPassportDishes]. *)
Class HasDishName (D : Type) := dishNameEnglish : D -> string.

(** The provider's state: the six [useState] cells and the two browser
    stores. The seen lists hold whatever [JSON.parse] returned. *)
Record State : Type := mkState {
  apiKey : option string;
  isVerifiedHuman : bool;
  seenQuotes : list json;
  seenRecipeTitles : list json;
  seenPassportDishes : list json;
  seenWeeklyPlanTitles : list json;
  localStorage : gmap string string;
  sessionStorage : gmap string string
}.

Definition setApiKeyState (v : option string) (st : State) : State :=
  mkState v (isVerifiedHuman st) (seenQuotes st) (seenRecipeTitles st)
    (seenPassportDishes st) (seenWeeklyPlanTitles st) (localStorage st) (sessionStorage st).
Definition setVerifiedHumanState (v : bool) (st : State) : State :=
  mkState (apiKey st) v (seenQuotes st) (seenRecipeTitles st)
    (seenPassportDishes st) (seenWeeklyPlanTitles st) (localStorage st) (sessionStorage st).
Definition setSeenQuotesState (v : list json) (st : State) : State :=
  mkState (apiKey st) (isVerifiedHuman st) v (seenRecipeTitles st)
    (seenPassportDishes st) (seenWeeklyPlanTitles st) (localStorage st) (sessionStorage st).
Definition setSeenRecipeTitlesState (v : list json) (st : State) : State :=
  mkState (apiKey st) (isVerifiedHuman st) (seenQuotes st) v
    (seenPassportDishes st) (seenWeeklyPlanTitles st) (localStorage st) (sessionStorage st).
Definition setSeenPassportDishesState (v : list json) (st : State) : State :=
  mkState (apiKey st) (isVerifiedHuman st) (seenQuotes st) (seenRecipeTitles st)
    v (seenWeeklyPlanTitles st) (localStorage st) (sessionStorage st).
Definition setSeenWeeklyPlanTitlesState (v : list json) (st : State) : State :=
  mkState (apiKey st) (isVerifiedHuman st) (seenQuotes st) (seenRecipeTitles st)
    (seenPassportDishes st) v (localStorage st) (sessionStorage st).
Definition withLocalStorage (f : gmap string string -> gmap string string) (st : State) : State :=
  mkState (apiKey st) (isVerifiedHuman st) (seenQuotes st) (seenRecipeTitles st)
    (seenPassportDishes st) (seenWeeklyPlanTitles st) (f (localStorage st)) (sessionStorage st).
Definition withSessionStorage (f : gmap string string -> gmap string string) (st : State) : State :=
  mkState (apiKey st) (isVerifiedHuman st) (seenQuotes st) (seenRecipeTitles st)
    (seenPassportDishes st) (seenWeeklyPlanTitles st) (localStorage st) (f (sessionStorage st)).

Definition setVerifiedHuman (isVerified : bool) (st : State) : State :=
  withSessionStorage (insert HUMAN_VERIFIED_SESSION_KEY (String_of_bool isVerified))
    (setVerifiedHumanState isVerified st).

Definition setApiKey (key : option string) (st : State) : State :=
  let st := setApiKeyState key st in
  match key with
  | Some k =>
      if truthy k then withLocalStorage (insert API_KEY_STORAGE_KEY k) st
      else setVerifiedHuman false (withLocalStorage (delete API_KEY_STORAGE_KEY) st)
  | None => setVerifiedHuman false (withLocalStorage (delete API_KEY_STORAGE_KEY) st)
  end.

(** [const isApiKeySet = !!apiKey] *)
Definition isApiKeySet (st : State) : bool := truthy_opt (apiKey st).

Section Ledger.

(** The browser's JSON codec: [JSON_parse] is [None] where [JSON.parse]
    throws a [SyntaxError]. *)
Variable JSON_parse : string -> option json.
Variable JSON_stringify : json -> string.

(** [storedItemsRaw ? JSON.parse(storedItemsRaw) : []], with [None] for the
    exception. *)
Definition readStoredItems (storedItemsRaw : option string) : option json :=
  match storedItemsRaw with
  | Some raw => if truthy raw then JSON_parse raw else Some (JArr [])
  | None => Some (JArr [])
  end.

(** Returns the new list and the updated local storage. *)
Definition addSeenItem (key item : string) (ls : gmap string string)
  : list json * gmap string string :=
  match readStoredItems (ls !! key) with
  | Some (JArr storedItems) =>
      let newItems := take MAX_SEEN_ITEMS (JStr item :: storedItems) in
      (newItems, <[key := JSON_stringify (JArr newItems)]> ls)
  | Some _ =>
      (* If data is corrupted, start fresh *)
      let newItems := [JStr item] in
      (newItems, <[key := JSON_stringify (JArr newItems)]> ls)
  | None =>
      let newItems := [JStr item] in
      (newItems, <[key := JSON_stringify (JArr newItems)]> ls)
  end.

Definition addSeenQuote (quote : string) (st : State) : State :=
  let '(newSeenQuotes, ls) := addSeenItem SEEN_QUOTES_STORAGE_KEY quote (localStorage st) in
  setSeenQuotesState newSeenQuotes (withLocalStorage (fun _ => ls) st).

Definition addSeenRecipeTitle (title : string) (st : State) : State :=
  let '(newSeenRecipeTitles, ls) := addSeenItem SEEN_RECIPES_STORAGE_KEY title (localStorage st) in
  setSeenRecipeTitlesState newSeenRecipeTitles (withLocalStorage (fun _ => ls) st).

Definition addSeenWeeklyPlanTitle (title : string) (st : State) : State :=
  let '(newSeenWeeklyPlanTitles, ls) := addSeenItem SEEN_WEEKLY_PLANS_KEY title (localStorage st) in
  setSeenWeeklyPlanTitlesState newSeenWeeklyPlanTitles (withLocalStorage (fun _ => ls) st).

(** [newDishes.includes(d)] for an element [d] of the parsed array: only a
    string can be equal to one of the new keys. *)
Definition includes_value (newDishes : list string) (d : json) : bool :=
  match d with
  | JStr s => existsb (String.eqb s) newDishes
  | _ => false
  end.

Definition addSeenPassportDishes {D} `{HasDishName D}
    (dishes : list D) (destination : string) (st : State) : State :=
  let newDishes := map (fun dish => destination +:+ "|" +:+ dishNameEnglish dish) dishes in
  let store (l : list json) :=
    withLocalStorage (insert SEEN_PASSPORT_DISHES_KEY (JSON_stringify (JArr l)))
      (setSeenPassportDishesState l st) in
  match readStoredItems (localStorage st !! SEEN_PASSPORT_DISHES_KEY) with
  | Some (JArr storedItems) =>
      let currentDishes := List.filter (fun d => negb (includes_value newDishes d)) storedItems in
      let newSeenDishes := take MAX_SEEN_ITEMS (map JStr newDishes ++ currentDishes) in
      store newSeenDishes
  | Some _ => store (map JStr newDishes)
  | None => store (map JStr newDishes)
  end.

(** What a category's list looks like after the keys [news] were recorded
    under [key]: capped, newest first, and persisted. *)
Definition recorded (key : string) (news : list json) (l : list json)
    (ls : gmap string string) : Prop :=
  length l <= MAX_SEEN_ITEMS
  /\ news `prefix_of` l
  /\ ls !! key = Some (JSON_stringify (JArr l)).

End Ledger.

(** The statement that a non-null key is stored and leaves the verification
    flag alone, at one key and one state. *)
Definition nonNullKeyKept (k : string) (st : State) : Prop :=
  localStorage (setApiKey (Some k) st) !! API_KEY_STORAGE_KEY = Some k
  /\ isVerifiedHuman (setApiKey (Some k) st) = isVerifiedHuman st.

(** The seen lists, in the state and in local storage. *)
Definition sameSeenItems (st st' : State) : Prop :=
  seenQuotes st' = seenQuotes st
  /\ seenRecipeTitles st' = seenRecipeTitles st
  /\ seenPassportDishes st' = seenPassportDishes st
  /\ seenWeeklyPlanTitles st' = seenWeeklyPlanTitles st
  /\ (forall key, key <> API_KEY_STORAGE_KEY ->
        localStorage st' !! key = localStorage st !! key).

(** A codec for the examples: it knows the one list they write. *)
Definition sampleStringify (v : json) : string :=
  match v with
  | JArr [JStr "Stay hungry"] => "[Stay hungry]"
  | _ => "[]"
  end.

Definition sampleParse (raw : string) : option json :=
  if String.eqb raw "[Stay hungry]" then Some (JArr [JStr "Stay hungry"])
  else if String.eqb raw "[]" then Some (JArr [])
  else None.

(** The state before anything was stored. *)
Definition initialState : State := mkState None false [] [] [] [] ∅ ∅.

(** A state in which a key is stored and the user is verified. *)
Definition verifiedState : State :=
  mkState (Some "key-1") true [] [] [] []
    {[ API_KEY_STORAGE_KEY := "key-1" ]} {[ HUMAN_VERIFIED_SESSION_KEY := "true" ]}.

(** *** The initial load (the [useEffect] of lines 54 to 87)

    What the provider reads from the two stores when it mounts. The seen
    lists are set to whatever [JSON.parse] returns: there is no
    [Array.isArray] check here, so the cells hold a [json]. *)

Record Loaded : Type := mkLoaded {
  loadedApiKey : option string;
  loadedVerifiedHuman : bool;
  loadedQuotes : json;
  loadedRecipeTitles : json;
  loadedPassportDishes : json;
  loadedWeeklyPlanTitles : json
}.

(** [if (storedKey) setApiKeyState(storedKey)], from the initial [null]. *)
Definition loadApiKey (ls : gmap string string) : option string :=
  match ls !! API_KEY_STORAGE_KEY with
  | Some storedKey => if truthy storedKey then Some storedKey else None
  | None => None
  end.

(** [verifiedStatus === 'true'] *)
Definition loadVerifiedHuman (ss : gmap string string) : bool :=
  match ss !! HUMAN_VERIFIED_SESSION_KEY with
  | Some verifiedStatus => String.eqb verifiedStatus "true"
  | None => false
  end.

Section Loading.

Variable JSON_parse : string -> option json.

(** The [try] sets the four cells one after the other, and the [catch]
    resets all four. *)
Definition initialLoad (ls ss : gmap string string) : Loaded :=
  let read key := readStoredItems JSON_parse (ls !! key) in
  match read SEEN_QUOTES_STORAGE_KEY, read SEEN_RECIPES_STORAGE_KEY,
        read SEEN_PASSPORT_DISHES_KEY, read SEEN_WEEKLY_PLANS_KEY with
  | Some quotes, Some titles, Some dishes, Some plans =>
      mkLoaded (loadApiKey ls) (loadVerifiedHuman ss) quotes titles dishes plans
  | _, _, _, _ =>
      (* Reset corrupted keys *)
      mkLoaded (loadApiKey ls) (loadVerifiedHuman ss) (JArr []) (JArr []) (JArr []) (JArr [])
  end.

End Loading.

(** The four keys of the seen lists. *)
Definition SEEN_KEYS : list string :=
  [SEEN_QUOTES_STORAGE_KEY; SEEN_RECIPES_STORAGE_KEY;
   SEEN_PASSPORT_DISHES_KEY; SEEN_WEEKLY_PLANS_KEY].

(** The JSON codec reads back the array [l] that it wrote. *)
Definition roundTrips (JSON_parse : string -> option json) (JSON_stringify : json -> string)
    (l : list json) : Prop :=
  truthy (JSON_stringify (JArr l)) = true
  /\ JSON_parse (JSON_stringify (JArr l)) = Some (JArr l).

(** The entries of the seen lists can all be parsed. *)
Definition seenEntriesParse (JSON_parse : string -> option json)
    (ls : gmap string string) : Prop :=
  forall k, In k SEEN_KEYS -> is_Some (readStoredItems JSON_parse (ls !! k)).

(** Everything that is not a seen list: the key, the flag, session storage,
    and the entries of local storage under the keys other than [key]. *)
Definition sameOutside (key : string) (st st' : State) : Prop :=
  apiKey st' = apiKey st
  /\ isVerifiedHuman st' = isVerifiedHuman st
  /\ sessionStorage st' = sessionStorage st
  /\ (forall k, k <> key -> localStorage st' !! k = localStorage st !! k).

(** [handleTimeout], run by the inactivity timer after 15 minutes. *)
Definition handleTimeout (st : State) : State := setVerifiedHuman false st.

End AppContext.

(** ** The CAPTCHA flow ([generateMathProblem], [generateCaptcha];
    [src/ai/flows/chat.ts], lines 95 to 148) *)

Module Captcha.

Record GenerateCaptchaOutput : Type := mkCaptcha {
  question : string;
  answer : string
}.

(** [Math.floor(x)] *)
Definition Math_floor (x : Q) : Z := Qfloor x.

Definition operations : list string := ["+"; "-"; "*"].

(** [String(x)] where [x] may be [undefined]. *)
Definition String_of_opt (o : option string) : string :=
  match o with Some s => s | None => "undefined" end.

(** The three arguments are the successive values of [Math.random()], each
    in the interval from 0 (included) to 1 (excluded). The products are
    exact here; in double precision the product of such a number with 10
    (or 3) rounds to a number below 10 (or 3), so that the integers drawn
    are the same ones. *)
Definition generateMathProblem (random1 random2 random3 : Q) : GenerateCaptchaOutput :=
  let num1 := (Math_floor (random1 * 10) + 1)%Z in
  let num2 := (Math_floor (random2 * 10) + 1)%Z in
  let operation :=
    operations !! Z.to_nat (Math_floor (random3 * inject_Z (Z.of_nat (length operations)))) in
  let question :=
    "What is " +:+ String_of_number num1 +:+ " " +:+ String_of_opt operation +:+ " "
      +:+ String_of_number num2 +:+ "?" in
  let '(question, answer) :=
    match operation with
    | Some "+" => (question, Some (num1 + num2)%Z)
    | Some "-" =>
        (* Ensure the result is not negative for simplicity *)
        if (num1 <? num2)%Z
        then ("What is " +:+ String_of_number num2 +:+ " - " +:+ String_of_number num1 +:+ "?",
              Some (num2 - num1)%Z)
        else (question, Some (num1 - num2)%Z)
    | Some "*" => (question, Some (num1 * num2)%Z)
    | _ => (question, None)
    end in
  mkCaptcha question (String_of_opt (option_map String_of_number answer)).

Definition generateCaptcha (apiKey : string) (random1 random2 random3 : Q)
  : Settled (option GenerateCaptchaOutput) :=
  if negb (truthy apiKey) then Rejected (Error "API Key is required for this operation.")
  else
    let problem := generateMathProblem random1 random2 random3 in
    Fulfilled (Some (mkCaptcha (question problem) (answer problem))).

(** *** Reading a question

    How the person answering reads the question: the words [What is], a
    decimal number, an operator, a decimal number and a question mark. *)

Definition number_of_string (s : string) : option Z :=
  option_map Z.of_int (NilZero.int_of_string s).

Definition strip_suffix_char (c : ascii) (s : string) : option string :=
  match rev (list_ascii_of_string s) with
  | c' :: r => if Ascii.eqb c c' then Some (string_of_list_ascii (rev r)) else None
  | [] => None
  end.

Definition apply_operation (op : string) (a b : Z) : option Z :=
  if String.eqb op "+" then Some (a + b)%Z
  else if String.eqb op "-" then Some (a - b)%Z
  else if String.eqb op "*" then Some (a * b)%Z
  else None.

(** The two operands and the operator that a question states. *)
Definition read_question (question : string) : option (Z * string * Z) :=
  match split " " question with
  | [w1; w2; a; op; b] =>
      if String.eqb w1 "What" && String.eqb w2 "is" then
        match number_of_string a, strip_suffix_char "?" b with
        | Some x, Some b' =>
            match number_of_string b' with
            | Some y => Some (x, op, y)
            | None => None
            end
        | _, _ => None
        end
      else None
  | _ => None
  end.

Definition expression_value (question : string) : option Z :=
  match read_question question with
  | Some (x, op, y) => apply_operation op x y
  | None => None
  end.

(** The integers drawn: [Math.floor(Math.random() * n)]. *)
Definition draw (random : Q) (n : Z) : Z := Math_floor (random * inject_Z n).

(** A challenge is well formed: its question reads as two operands between
    1 and 10 and an operator, its answer is the decimal writing of the
    value of that expression, and the value is not negative. *)
Definition well_formed (c : GenerateCaptchaOutput) : bool :=
  match read_question (question c) with
  | Some (x, op, y) =>
      match apply_operation op x y with
      | Some v =>
          String.eqb (answer c) (String_of_number v) && (0 <=? v)%Z
          && (1 <=? x)%Z && (x <=? 10)%Z && (1 <=? y)%Z && (y <=? 10)%Z
      | None => false
      end
  | None => false
  end.

(** The random numbers that make the three draws [d1], [d2] and [d3]. *)
Definition randoms_of_draws (d1 d2 d3 : Z) : Q * Q * Q :=
  (d1 # 10, d2 # 10, d3 # 3).

Definition digits (n : nat) : list Z := map Z.of_nat (seq 0 n).

(** All 300 outcomes of the three draws. *)
Definition all_problems : list GenerateCaptchaOutput :=
  d1 ← digits 10; d2 ← digits 10; d3 ← digits 3;
  let '(r1, r2, r3) := randoms_of_draws d1 d2 d3 in
  [generateMathProblem r1 r2 r3].

End Captcha.

(** ** The generative-AI provider

    The calls that leave the program. Each is given by what it settles to.
    A call that a loop repeats takes the number of the attempt (from 1), so
    that successive attempts of one request may settle differently. *)

Record Media : Type := mkMedia { url : string }.

Record GenerateRequest : Type := mkRequest {
  model : string;
  prompt : string
}.

(** [media?.url || ''] *)
Definition url_or_empty (media : option Media) : string :=
  match media with Some m => or_else (url m) "" | None => "" end.

(** An attempt that leaves the loop variable [media] unset: the call threw,
    or its result carries no media. *)
Definition failed (attempt : Settled (option Media)) : bool :=
  match attempt with
  | Fulfilled (Some _) => false
  | Fulfilled None => true
  | Rejected _ => true
  end.

(** The statement that an image is given up only after three attempts: when
    [media] is left unset, the attempts 1 to 3 of the request all failed. *)
Definition givenUpAfterThreeAttempts (attempts : nat -> Settled (option Media))
    (media : option Media) : Prop :=
  media = None -> forall k, 1 <= k <= 3 -> failed (attempts k) = true.

(** ** The recipe flow ([generateRecipe]; [src/ai/schemas/captcha-schemas.ts],
    lines 79 to 252) *)

Module Recipe.

Record RecipeOption : Type := mkRecipeOption {
  recipeName : string;
  description : string;
  instructions : string;
  ingredientList : list string;
  missingIngredients : list string;
  nutritionalInformation : string
}.

Record QuoteOption : Type := mkQuoteOption {
  quote : string;
  quoteAuthor : string
}.

Record GenerateRecipeOptionsOutput : Type := mkOptions {
  recipeOptions : list RecipeOption;
  quoteOptions : list QuoteOption
}.

Record GenerateRecipeInput : Type := mkInput {
  mood : option string;
  vegetarian : bool;
  duration : option string;
  dislikedIngredients : list string;
  availableIngredients : list string;
  additionalIngredients : list string;
  photoDataUri : option string;
  seenRecipeTitles : option (list string);
  seenQuotes : option (list string)
}.

Module SelectInput.
Record t : Type := mk {
  recipeOptions : list RecipeOption;
  quoteOptions : list QuoteOption;
  seenRecipeTitles : option (list string);
  seenQuotes : option (list string)
}.
End SelectInput.
Definition ValidateAndSelectInput : Type := SelectInput.t.

Record ValidateAndSelectOutput : Type := mkSelection {
  selectedRecipe : RecipeOption;
  selectedQuote : QuoteOption
}.

Module Output.
Record t : Type := mk {
  recipeName : string;
  description : string;
  instructions : string;
  ingredientList : list string;
  missingIngredients : list string;
  nutritionalInformation : string;
  quote : string;
  quoteAuthor : string;
  photoDataUri : string
}.
End Output.
Definition GenerateRecipeOutput : Type := Output.t.

Record Services : Type := mkServices {
  generateOptionsPrompt : GenerateRecipeInput -> Settled (option GenerateRecipeOptionsOutput);
  validateAndSelectPrompt : ValidateAndSelectInput -> Settled (option ValidateAndSelectOutput);
  generate : GenerateRequest -> nat -> Settled (option Media)
}.

Definition IMAGE_MODEL := "googleai/gemini-2.0-flash-preview-image-generation".

(** The request of step 3 for a recipe name. *)
Definition imageRequest (name : string) : GenerateRequest :=
  mkRequest IMAGE_MODEL ("Generate a photorealistic image of " +:+ name).

(** The argument of the stage-2 call. *)
Definition selectInput (optionsOutput : GenerateRecipeOptionsOutput)
    (flowInput : GenerateRecipeInput) : ValidateAndSelectInput :=
  SelectInput.mk (recipeOptions optionsOutput) (quoteOptions optionsOutput)
    (seenRecipeTitles flowInput) (seenQuotes flowInput).

(** Step 2. The outer option is [finalSelection] being null; the inner ones
    are the two fields, undefined when the fallback indexes an empty
    array. *)
Definition selectStep (ai : Services) (optionsOutput : GenerateRecipeOptionsOutput)
    (flowInput : GenerateRecipeInput)
  : option (option RecipeOption * option QuoteOption) :=
  match validateAndSelectPrompt ai (selectInput optionsOutput flowInput) with
  | Fulfilled output =>
      option_map (fun o => (Some (selectedRecipe o), Some (selectedQuote o))) output
  | Rejected _ =>
      (* Fallback: if validation fails, just pick the first option to not
         fail the whole process *)
      Some (recipeOptions optionsOutput !! 0%nat, quoteOptions optionsOutput !! 0%nat)
  end.

(** Step 3: one call inside [try]; the [catch] only logs. Reading
    [recipeName] of an undefined selection throws inside the [try] as
    well. *)
Definition imageStep (ai : Services) (selected : option RecipeOption) : option Media :=
  match selected with
  | Some r =>
      match generate ai (imageRequest (recipeName r)) 1 with
      | Fulfilled media => media
      | Rejected _ => None
      end
  | None => None
  end.

Definition generateRecipeFlow (ai : Services) (flowInput : GenerateRecipeInput)
  : Settled (option GenerateRecipeOutput) :=
  match generateOptionsPrompt ai flowInput with
  | Rejected e =>
      match message e with
      | Some m =>
          if includes m "SAFETY" then Rejected (Error "SAFETY_BLOCK") else Fulfilled None
      | None => Rejected TypeError
      end
  | Fulfilled None => Fulfilled None
  | Fulfilled (Some optionsOutput) =>
      match selectStep ai optionsOutput flowInput with
      | None => Fulfilled None
      | Some (selected_recipe, selected_quote) =>
          let media := imageStep ai selected_recipe in
          match selected_recipe, selected_quote with
          | Some r, Some q =>
              Fulfilled (Some (Output.mk (recipeName r) (description r) (instructions r)
                (ingredientList r) (missingIngredients r) (nutritionalInformation r)
                (quote q) (quoteAuthor q) (url_or_empty media)))
          | _, _ => Rejected TypeError
          end
      end
  end.

Definition generateRecipe (ai : Services) (input : GenerateRecipeInput) (apiKey : string)
  : Settled (option GenerateRecipeOutput) :=
  if negb (truthy apiKey) then Rejected (Error "API Key is required for this operation.")
  else generateRecipeFlow ai input.

(** *** What the stage-2 prompt asks for

    The text of [validateAndSelectPrompt]: the first option whose title is
    semantically different from every seen title, and the first option when
    all of them are similar to seen titles. The judgment of similarity is
    the model's. *)
Section PromptRule.

Variable similar : string -> string -> bool.

Definition collides (seen : list string) (title : string) : bool :=
  existsb (similar title) seen.

Definition firstUnseen {A} (key : A -> string) (options : list A) (seen : list string)
  : option A :=
  match List.find (fun o => negb (collides seen (key o))) options with
  | Some o => Some o
  | None => options !! 0%nat
  end.

Definition seen_list (o : option (list string)) : list string :=
  match o with Some l => l | None => [] end.

(** The stage-2 call answered as its prompt asks. *)
Definition followsPrompt (inp : ValidateAndSelectInput) (out : ValidateAndSelectOutput) : Prop :=
  firstUnseen recipeName (SelectInput.recipeOptions inp)
    (seen_list (SelectInput.seenRecipeTitles inp)) = Some (selectedRecipe out).

(** The stage-2 call answers with a selection that follows its prompt
    whenever it answers with one. *)
Definition stage2FollowsPrompt (ai : Services) (inp : ValidateAndSelectInput) : Prop :=
  forall out, validateAndSelectPrompt ai inp = Fulfilled (Some out) -> followsPrompt inp out.

End PromptRule.

(** The output carries the fields of recipe [r]. *)
Definition isRecipe (out : GenerateRecipeOutput) (r : RecipeOption) : Prop :=
  Output.recipeName out = recipeName r
  /\ Output.description out = description r
  /\ Output.instructions out = instructions r
  /\ Output.ingredientList out = ingredientList r
  /\ Output.missingIngredients out = missingIngredients r
  /\ Output.nutritionalInformation out = nutritionalInformation r.

(** The output carries the fields of quote [q]. *)
Definition isQuote (out : GenerateRecipeOutput) (q : QuoteOption) : Prop :=
  Output.quote out = quote q /\ Output.quoteAuthor out = quoteAuthor q.

(** A stage-2 call that gives no selection: it threw, or it answered
    without output. *)
Definition withoutSelection (attempt : Settled (option ValidateAndSelectOutput)) : bool :=
  match attempt with
  | Fulfilled (Some _) => false
  | Fulfilled None => true
  | Rejected _ => true
  end.

(** The statement about a failing stage 2, for one provider and one
    request: after a stage 1 with five recipe and five quote candidates, a
    stage-2 call that gives no selection makes the operation return the
    candidates at index 0. *)
Definition fallsBackWhenStage2Fails (ai : Services) (input : GenerateRecipeInput)
    (apiKey : string) : Prop :=
  forall optionsOutput,
    generateOptionsPrompt ai input = Fulfilled (Some optionsOutput) ->
    length (recipeOptions optionsOutput) = 5 ->
    length (quoteOptions optionsOutput) = 5 ->
    withoutSelection (validateAndSelectPrompt ai (selectInput optionsOutput input)) = true ->
    exists r q out,
      recipeOptions optionsOutput !! 0%nat = Some r
      /\ quoteOptions optionsOutput !! 0%nat = Some q
      /\ generateRecipe ai input apiKey = Fulfilled (Some out)
      /\ isRecipe out r /\ isQuote out q.

(** The statement about the selection, for one provider and one request:
    with the exact title of the first of five candidates in the ledger, and
    a stage-2 call that answers with a selection, the recipe returned is the
    first candidate only if every candidate collides with the ledger. *)
Definition firstAvoidedWhenSeen (similar : string -> string -> bool)
    (ai : Services) (input : GenerateRecipeInput) (apiKey : string) : Prop :=
  forall optionsOutput first selection out,
    generateOptionsPrompt ai input = Fulfilled (Some optionsOutput) ->
    length (recipeOptions optionsOutput) = 5 ->
    recipeOptions optionsOutput !! 0%nat = Some first ->
    In (recipeName first) (seen_list (seenRecipeTitles input)) ->
    validateAndSelectPrompt ai (selectInput optionsOutput input)
      = Fulfilled (Some selection) ->
    generateRecipe ai input apiKey = Fulfilled (Some out) ->
    isRecipe out first ->
    forall c, In c (recipeOptions optionsOutput) ->
      collides similar (seen_list (seenRecipeTitles input)) (recipeName c) = true.

(** *** Sample data *)

Definition sampleRecipe (name : string) : RecipeOption :=
  mkRecipeOption name "A warm bowl." "Simmer and serve." ["Rice"; "Spinach"; "Garlic"]
    ["Garlic"] "320 kcal".

Definition sampleQuote (text : string) : QuoteOption := mkQuoteOption text "A film".

Definition sampleOptions : GenerateRecipeOptionsOutput :=
  mkOptions
    (map sampleRecipe ["Spinach Rice"; "Rice Soup"; "Green Pilaf"; "Fried Rice"; "Congee"])
    (map sampleQuote ["one"; "two"; "three"; "four"; "five"]).

(** A request whose ledger holds the title of the first sample recipe. *)
Definition sampleInput : GenerateRecipeInput :=
  mkInput (Some "Cozy") true (Some "30") [] ["Rice"; "Spinach"] [] None
    (Some ["Spinach Rice"]) (Some []).

Definition samplePhoto : Media := mkMedia "data:image/png;base64,AAAA".

(** A provider whose stage-2 call fails, and whose image call fails at the
    first attempt only. *)
Definition stage2Down : Services :=
  mkServices
    (fun _ => Fulfilled (Some sampleOptions))
    (fun _ => Rejected (Error "503 Service Unavailable"))
    (fun _ k => if (k =? 1)%nat then Rejected (Error "503 Service Unavailable")
                else Fulfilled (Some samplePhoto)).

(** A provider whose stage-2 call selects as the prompt asks, with equality
    of titles for similarity. *)
Definition obedient : Services :=
  mkServices
    (fun _ => Fulfilled (Some sampleOptions))
    (fun inp =>
       match firstUnseen String.eqb recipeName (SelectInput.recipeOptions inp)
               (seen_list (SelectInput.seenRecipeTitles inp)),
             firstUnseen String.eqb quote (SelectInput.quoteOptions inp)
               (seen_list (SelectInput.seenQuotes inp)) with
       | Some r, Some q => Fulfilled (Some (mkSelection r q))
       | _, _ => Rejected (Error "no options")
       end)
    (fun _ _ => Fulfilled (Some samplePhoto)).

(** A provider whose stage-2 call answers without output. *)
Definition stage2Silent : Services :=
  mkServices
    (fun _ => Fulfilled (Some sampleOptions))
    (fun _ => Fulfilled None)
    (fun _ _ => Fulfilled (Some samplePhoto)).

(** A provider whose stage-2 call answers with the first recipe and the
    first quote it is given, whatever the ledger holds. *)
Definition disobedient : Services :=
  mkServices
    (fun _ => Fulfilled (Some sampleOptions))
    (fun inp =>
       match SelectInput.recipeOptions inp, SelectInput.quoteOptions inp with
       | r :: _, q :: _ => Fulfilled (Some (mkSelection r q))
       | _, _ => Fulfilled None
       end)
    (fun _ _ => Fulfilled (Some samplePhoto)).

(** A provider whose stage 1 answers with no candidate at all and whose
    stage-2 call fails. *)
Definition emptyHanded : Services :=
  mkServices
    (fun _ => Fulfilled (Some (mkOptions [] [])))
    (fun _ => Rejected (Error "503 Service Unavailable"))
    (fun _ _ => Fulfilled (Some samplePhoto)).

(** A provider whose stage 1 is blocked for safety. *)
Definition blockedForSafety : Services :=
  mkServices
    (fun _ => Rejected (Error "Candidate was blocked due to SAFETY"))
    (fun _ => Rejected (Error "not reached"))
    (fun _ _ => Rejected (Error "not reached")).

End Recipe.

(** ** The culinary-passport flow ([generateCulinaryPassport];
    [src/ai/flows/chat.ts], lines 169 to 356) *)

Module Passport.

Record GenerateCulinaryPassportInput : Type := mkInput {
  destination : string;
  dietaryNeeds : string;
  preferences : option string;
  seenDishes : option (list string)
}.

Record DishRecommendation : Type := mkDish {
  dishNameEnglish : string;
  dishNameLocal : string;
  description : string
}.

Record CulinaryPassportText : Type := mkText {
  recommendations : list DishRecommendation;
  chefCardMessage : string
}.

(** A recommendation extended with its photo: [{ ...rec, photoDataUri }]. *)
Record DishWithPhoto : Type := mkDishWithPhoto {
  dish : DishRecommendation;
  photoDataUri : string
}.

Module Output.
Record t : Type := mk {
  recommendations : list DishWithPhoto;
  chefCardMessage : string;
  chefCardAudioUri : string
}.
End Output.
Definition CulinaryPassport : Type := Output.t.

#[global] Instance DishWithPhoto_name : AppContext.HasDishName DishWithPhoto :=
  fun d => dishNameEnglish (dish d).

Record Services : Type := mkServices {
  passportTextPrompt :
    GenerateCulinaryPassportInput -> nat -> Settled (option CulinaryPassportText);
  generate : GenerateRequest -> nat -> Settled (option Media);
  (* decoding the base64 payload and writing it as a WAV file *)
  toWav : string -> Settled string
}.

Definition IMAGE_MODEL := "googleai/gemini-2.0-flash-preview-image-generation".
Definition TTS_MODEL := "googleai/gemini-2.5-flash-preview-tts".

Definition createFallbackPassport (destination : string) : CulinaryPassport :=
  Output.mk []
    ("We're sorry, we couldn't generate a culinary passport for " +:+ destination
       +:+ " at this moment due to high demand. Please try again in a few minutes.")
    "".

Definition is_set {A} (o : option A) : bool :=
  match o with Some _ => true | None => false end.

(** How a loop body that may [return] or [throw] leaves the loop. *)
Inductive Exit (S R : Type) : Type :=
| Completed (s : S)
| Returned (r : R)
| Threw (e : JsError).
Arguments Completed {S R} s.
Arguments Returned {S R} r.
Arguments Threw {S R} e.

(** *** Step 1: the text, with retries

    [while (!textOutput && textAttempts < maxTextAttempts)]; the first
    argument bounds the number of iterations unfolded. *)
Definition maxTextAttempts : nat := 3.

Fixpoint textLoop (ai : Services) (flowInput : GenerateCulinaryPassportInput)
    (fuel : nat) (textOutput : option CulinaryPassportText) (textAttempts : nat)
  : Exit (option CulinaryPassportText * nat) CulinaryPassport :=
  match fuel with
  | O => Completed (textOutput, textAttempts)
  | S fuel =>
      if negb (is_set textOutput) && (textAttempts <? maxTextAttempts)%nat then
        let textAttempts := S textAttempts in
        match passportTextPrompt ai flowInput textAttempts with
        | Fulfilled output => textLoop ai flowInput fuel output textAttempts
        | Rejected e =>
            match message e with
            | None => Threw TypeError
            | Some m =>
                if includes m "SAFETY" then Threw (Error "SAFETY_BLOCK")
                else if (maxTextAttempts <=? textAttempts)%nat
                     then Returned (createFallbackPassport (destination flowInput))
                     else textLoop ai flowInput fuel textOutput textAttempts
            end
        end
      else Completed (textOutput, textAttempts)
  end.

(** *** Step 2: the image of one recommendation

    [while (!media && attempts < maxAttempts)]; the [catch] only logs. The
    result is the final [media] and [attempts]. *)
Definition maxAttempts : nat := 3.

Definition imageRequest (flowInput : GenerateCulinaryPassportInput) (rec : DishRecommendation)
  : GenerateRequest :=
  mkRequest IMAGE_MODEL
    ("A photorealistic, appetizing photo of " +:+ dishNameEnglish rec
       +:+ ", a popular dish from " +:+ destination flowInput +:+ ".").

Fixpoint imageLoop (ai : Services) (req : GenerateRequest)
    (fuel : nat) (media : option Media) (attempts : nat) : option Media * nat :=
  match fuel with
  | O => (media, attempts)
  | S fuel =>
      if negb (is_set media) && (attempts <? maxAttempts)%nat then
        let attempts := S attempts in
        match generate ai req attempts with
        | Fulfilled m => imageLoop ai req fuel m attempts
        | Rejected _ => imageLoop ai req fuel media attempts
        end
      else (media, attempts)
  end.

Definition imagePromise (ai : Services) (flowInput : GenerateCulinaryPassportInput)
    (rec : DishRecommendation) : DishWithPhoto :=
  let '(media, _) := imageLoop ai (imageRequest flowInput rec) maxAttempts None 0 in
  mkDishWithPhoto rec (url_or_empty media).

(** *** Step 2: the audio of the chef card *)

Fixpoint audioLoop (ai : Services) (req : GenerateRequest)
    (fuel : nat) (media : option Media) (attempts : nat)
  : Exit (option Media * nat) string :=
  match fuel with
  | O => Completed (media, attempts)
  | S fuel =>
      if negb (is_set media) && (attempts <? maxAttempts)%nat then
        let attempts := S attempts in
        match generate ai req attempts with
        | Fulfilled m => audioLoop ai req fuel m attempts
        | Rejected _ =>
            if (maxAttempts <=? attempts)%nat then Returned ""
            else audioLoop ai req fuel media attempts
        end
      else Completed (media, attempts)
  end.

(** [s.substring(s.indexOf(',') + 1)]: what follows the first comma, and
    the whole string when there is none. *)
Definition payload (s : string) : string :=
  match String.index 0 "," s with
  | Some i => String.substring (S i) (String.length s - S i) s
  | None => s
  end.

Definition audioPromise (ai : Services) (textOutput : CulinaryPassportText) : Settled string :=
  if negb (truthy (chefCardMessage textOutput)) then Fulfilled ""
  else
    match audioLoop ai (mkRequest TTS_MODEL (chefCardMessage textOutput)) maxAttempts None 0 with
    | Threw e => Rejected e
    | Returned r => Fulfilled r
    | Completed (media, _) =>
        if negb (truthy (url_or_empty media)) then Fulfilled ""
        else
          match toWav ai (payload (url_or_empty media)) with
          | Fulfilled wavBase64 => Fulfilled ("data:audio/wav;base64," +:+ wavBase64)
          | Rejected e => Rejected e
          end
    end.

Definition culinaryPassportFlow (ai : Services) (flowInput : GenerateCulinaryPassportInput)
  : Settled CulinaryPassport :=
  match textLoop ai flowInput maxTextAttempts None 0 with
  | Threw e => Rejected e
  | Returned fallback => Fulfilled fallback
  | Completed (None, _) => Fulfilled (createFallbackPassport (destination flowInput))
  | Completed (Some textOutput, _) =>
      let recommendationsWithPhotos :=
        map (imagePromise ai flowInput) (recommendations textOutput) in
      match audioPromise ai textOutput with
      | Fulfilled chefCardAudioUri =>
          Fulfilled (Output.mk recommendationsWithPhotos (chefCardMessage textOutput)
                       chefCardAudioUri)
      | Rejected e => Rejected e
      end
  end.

Definition generateCulinaryPassport (ai : Services)
    (input : GenerateCulinaryPassportInput) (apiKey : string) : Settled CulinaryPassport :=
  if negb (truthy apiKey) then Rejected (Error "API Key is required for this operation.")
  else culinaryPassportFlow ai input.

(** *** Sample data *)

Definition sampleInput : GenerateCulinaryPassportInput :=
  mkInput "Kyoto" "Vegetarian, no peanuts" None (Some []).

Definition yudofu : DishRecommendation :=
  mkDish "Yudofu" "Yudofu (Kyoto)" "Tofu simmered in a light kelp broth.".

Definition sampleText : CulinaryPassportText :=
  mkText [yudofu] "Watashi wa bejitarian desu.".

(** A provider whose text call answers at once and whose media calls all
    fail. *)
Definition mediaDown : Services :=
  mkServices
    (fun _ _ => Fulfilled (Some sampleText))
    (fun _ _ => Rejected (Error "503 Service Unavailable"))
    (fun _ => Rejected (Error "not reached")).

Definition sampleVoice : Media := mkMedia "data:audio/L16;codec=pcm;rate=24000;base64,AAAA".

(** A provider whose image calls all fail and whose audio call answers at
    once. *)
Definition imagesDown : Services :=
  mkServices
    (fun _ _ => Fulfilled (Some sampleText))
    (fun req _ =>
       if String.eqb (model req) TTS_MODEL then Fulfilled (Some sampleVoice)
       else Rejected (Error "503 Service Unavailable"))
    (fun _ => Fulfilled "UklGRiQAAABXQVZF").

(** A provider whose text call is always overloaded. *)
Definition textDown : Services :=
  mkServices
    (fun _ _ => Rejected (Error "503 Service Unavailable"))
    (fun _ _ => Rejected (Error "not reached"))
    (fun _ => Rejected (Error "not reached")).

End Passport.

(** ** The shopping-list download ([handleDownloadShoppingList]; lines 196
    to 208 of the recipe form, and lines 293 to 305 of
    [src/components/api-key-modal.tsx] for the weekly plan)

    A JavaScript [Set] is the list of its elements in insertion order. *)

Module ShoppingList.

Definition Set_has (s : list string) (x : string) : bool := existsb (String.eqb x) s.

(** [s.add(x)]: appended unless present. *)
Definition Set_add (s : list string) (x : string) : list string :=
  if Set_has s x then s else s ++ [x].

(** [new Set(iterable)] adds the elements one after the other. *)
Definition new_Set (iterable : list string) : list string := fold_left Set_add iterable [].

(** The file handed to the browser: the [Blob] and the [download] name. *)
Record Download : Type := mkDownload {
  textContent : string;
  blobType : string;
  fileName : string
}.

Definition LF : string := String (ascii_of_nat 10) EmptyString.

(** The recipe card's handler. *)
Definition handleDownloadShoppingList (ingredients : list string) : Download :=
  let uniqueIngredients := new_Set ingredients in
  let textContent := join LF uniqueIngredients in
  mkDownload textContent "text/plain" "shopping-list.txt".

(** The weekly plan's handler. *)
Definition handleDownloadShoppingList_weekly (ingredients : list string) : Download :=
  let uniqueIngredients := new_Set ingredients in
  let textContent := join LF uniqueIngredients in
  mkDownload textContent "text/plain" "weekly-shopping-list.txt".

(** De-duplication as the specification words it: each ingredient is kept
    at its first occurrence and dropped at every later one. *)
Fixpoint dedup_first (l : list string) : list string :=
  match l with
  | [] => []
  | x :: r => x :: List.filter (fun y => negb (String.eqb x y)) (dedup_first r)
  end.

End ShoppingList.

(** ** The recipe form ([RecipeGenerator], [onSubmit]; [src/unnamed/part_000]) *)

Module RecipeForm.

Record RecipeFormValues : Type := mkValues {
  mood : list Z;
  duration : option string;
  dislikedIngredients : option string;
  availableIngredients : list string;
  additionalIngredients : option string
}.

Definition moodMap (k : Z) : option string :=
  match k with
  | 0%Z => Some "Comforting"
  | 1%Z => Some "Cozy"
  | 2%Z => Some "Happy"
  | 3%Z => Some "Adventurous"
  | 4%Z => Some "Energized"
  | 5%Z => Some "Romantic"
  | 6%Z => Some "Celebratory"
  | 7%Z => Some "Healthy"
  | _ => None
  end.

(** What the component reads from the application context. *)
Record Context : Type := mkContext {
  apiKey : option string;
  seenQuotes : list string;
  seenRecipeTitles : list string
}.

(** What the handler does to the outside, in order. *)
Inductive Effect : Type :=
| FormSetError (name type message : string)
| Toast (variant title description : string)
| SetIsLoading (b : bool)
| SetRecipe (r : option Recipe.GenerateRecipeOutput)
| CallGenerateRecipe (input : Recipe.GenerateRecipeInput) (apiKey : string)
| AddSeenQuote (quote : string)
| AddSeenRecipeTitle (title : string)
| ConsoleError (e : JsError).

(** [s.split(',').map(s => s.trim()).filter(Boolean)], and [[]] for a
    missing or empty field. *)
Definition ingredientNames (field : option string) : list string :=
  match field with
  | Some s =>
      if truthy s then List.filter truthy (map trim (split "," s)) else []
  | None => []
  end.

(** The condition of the final validation check. *)
Definition noIngredientSignal (data : RecipeFormValues) (ingredientPhoto : option string) : bool :=
  (length (availableIngredients data) =? 0)%nat
  && match additionalIngredients data with
     | Some s => negb (truthy s) || String.eqb (trim s) ""
     | None => true
     end
  && negb (truthy_opt ingredientPhoto).

Definition MISSING_INGREDIENTS_MESSAGE :=
  "Please provide at least one ingredient via photo, checklist, or text input.".

Definition onSubmit (ai : Recipe.Services) (ctx : Context) (ingredientPhoto : option string)
    (data : RecipeFormValues) : list Effect :=
  (* Final validation check including the photo *)
  if noIngredientSignal data ingredientPhoto then
    [FormSetError "availableIngredients" "manual" MISSING_INGREDIENTS_MESSAGE]
  else
    match apiKey ctx with
    | None =>
        [Toast "destructive" "API Key is missing."
           "Please provide your API key to generate a recipe."]
    | Some key =>
        if negb (truthy key) then
          [Toast "destructive" "API Key is missing."
             "Please provide your API key to generate a recipe."]
        else
          let disliked := ingredientNames (dislikedIngredients data) in
          let additional := ingredientNames (additionalIngredients data) in
          let input :=
            Recipe.mkInput (mood data !! 0%nat ≫= moodMap) true (duration data) disliked
              (availableIngredients data) additional
              (if truthy_opt ingredientPhoto then ingredientPhoto else None)
              (Some (seenRecipeTitles ctx)) (Some (seenQuotes ctx)) in
          [SetIsLoading true; SetRecipe None; CallGenerateRecipe input key]
          ++ match Recipe.generateRecipe ai input key with
             | Fulfilled (Some result) =>
                 [SetRecipe (Some result);
                  AddSeenQuote (Recipe.Output.quote result);
                  AddSeenRecipeTitle (Recipe.Output.recipeName result)]
             | Fulfilled None =>
                 [Toast "destructive" "Generation Failed"
                    "The AI model seems to be overloaded. Please try again in a few minutes."]
             | Rejected error =>
                 ConsoleError error ::
                 (if match message error with
                     | Some m => String.eqb m "SAFETY_BLOCK"
                     | None => false
                     end
                  then [Toast "destructive" "Unsafe Ingredients Detected"
                          "I'm sorry, but I can't create a recipe with those ingredients. Let's stick to safe and edible items!"]
                  else [Toast "destructive" "An unexpected error occurred."
                          "Failed to generate a recipe. Your API key might be invalid or the service may be temporarily down."])
             end
          ++ [SetIsLoading false]
    end.

(** The handler issued a generation request. *)
Definition is_generation_call (e : Effect) : bool :=
  match e with CallGenerateRecipe _ _ => true | _ => false end.

(** The handler updated a seen list. *)
Definition is_recording (e : Effect) : bool :=
  match e with AddSeenQuote _ | AddSeenRecipeTitle _ => true | _ => false end.

(** The toasts of the three failures. *)
Definition UNSAFE_TOAST : Effect :=
  Toast "destructive" "Unsafe Ingredients Detected"
    "I'm sorry, but I can't create a recipe with those ingredients. Let's stick to safe and edible items!".

Definition OVERLOADED_TOAST : Effect :=
  Toast "destructive" "Generation Failed"
    "The AI model seems to be overloaded. Please try again in a few minutes.".

Definition UNEXPECTED_TOAST : Effect :=
  Toast "destructive" "An unexpected error occurred."
    "Failed to generate a recipe. Your API key might be invalid or the service may be temporarily down.".

(** The free text gives no ingredient: it is missing, empty, or white space
    only. *)
Definition blank (field : option string) : Prop :=
  match field with
  | Some s => only_white_space s
  | None => True
  end.

(** *** Sample data *)

Definition blankValues : RecipeFormValues :=
  mkValues [1%Z] (Some "30") (Some "") [] (Some (" " +:+ bytes [194; 160] +:+ bytes [227; 128; 128])).

Definition sampleContext : Context := mkContext (Some "key-1") [] ["Spinach Rice"].

(** A submission with two ingredients on the checklist and one typed. *)
Definition riceValues : RecipeFormValues :=
  mkValues [1%Z] (Some "30") (Some "") ["Rice"; "Spinach"] (Some " garlic , ").

End RecipeForm.

(** ** More of JavaScript *)

(** Lower case on the ASCII letters, the other bytes unchanged: what
    [toLowerCase] does on a string of ASCII characters. It stands for
    [toLowerCase] in the samples. *)
Definition asciiLowerCase_byte (c : ascii) : ascii :=
  if Nat.leb 65 (code c) && Nat.leb (code c) 90 then ascii_of_nat (code c + 32) else c.

Fixpoint asciiLowerCase (s : string) : string :=
  match s with
  | EmptyString => EmptyString
  | String c r => String (asciiLowerCase_byte c) (asciiLowerCase r)
  end.

(** [s.startsWith(prefix)] *)
Definition startsWith (s prefix : string) : bool := String.prefix prefix s.

(** All the bytes of a string are white space of one byte. *)
Definition all_whitespace (s : string) : bool :=
  forallb whitespace1 (list_ascii_of_string s).

(** A byte that is a code point of its own (below 128) and not white
    space. *)
Definition ordinary (c : ascii) : bool :=
  Nat.ltb (code c) 128 && negb (whitespace1 c).

(** A string that starts and ends with an ordinary byte. *)
Definition plain (s : string) : bool :=
  match list_ascii_of_string s, rev (list_ascii_of_string s) with
  | c :: _, d :: _ => ordinary c && ordinary d
  | _, _ => false
  end.

(** Character [c] occurs in [s]. *)
Definition occurs (c : ascii) (s : string) : bool :=
  existsb (Ascii.eqb c) (list_ascii_of_string s).

(** A toast of the user interface. *)
Record ToastMessage : Type := mkToast {
  variant : option string;
  title : string;
  toastDescription : string
}.

(** ** The API-key dialog ([ApiKeyModal]; [src/components/api-key-modal.tsx],
    lines 14 to 71) and the header of the page ([src/app/page.tsx]) *)

Module ApiKeyModal.

Definition handleSaveKey (keyInput : string) (st : AppContext.State) : AppContext.State :=
  if truthy (trim keyInput) then AppContext.setApiKey (Some (trim keyInput)) st else st.

(** [<Dialog open={!isApiKeySet}>] *)
Definition isOpen (st : AppContext.State) : bool := negb (AppContext.isApiKeySet st).

(** The button of the header: [onClick={() => setApiKey(null)}]. *)
Definition changeApiKey (st : AppContext.State) : AppContext.State :=
  AppContext.setApiKey None st.

End ApiKeyModal.

(** ** The verification dialog ([HumanVerificationModal];
    [src/components/api-key-modal.tsx], lines 88 to 203) *)

Module HumanVerificationModal.

Record Modal : Type := mkModal {
  userInput : string;
  error : option string;
  challenge : option Captcha.GenerateCaptchaOutput;
  isLoading : bool
}.

(** The three numbers are the values of [Math.random()] that the CAPTCHA
    flow draws. The result is the dialog after the call has settled, and
    the toasts shown. *)
Definition getNewChallenge (apiKey : option string) (random1 random2 random3 : Q)
    (m : Modal) : Modal * list ToastMessage :=
  if negb (truthy_opt apiKey) then (m, [])
  else
    let key := match apiKey with Some k => k | None => "" end in
    (* setIsLoading(true); setError(null); setUserInput('') *)
    let m := mkModal "" None (challenge m) true in
    match Captcha.generateCaptcha key random1 random2 random3 with
    | Fulfilled (Some newChallenge) =>
        (mkModal (userInput m) (error m) (Some newChallenge) false, [])
    | Fulfilled None =>
        (mkModal (userInput m) (Some "Failed to load a new challenge. Please try again.")
           (challenge m) false, [])
    | Rejected _ =>
        (mkModal (userInput m) (Some "An error occurred while fetching the challenge.")
           (challenge m) false,
         [mkToast (Some "destructive") "CAPTCHA Error"
            "Could not generate a verification challenge."])
    end.

Section Verification.

(** [s.toLowerCase()], a function of the string. *)
Variable toLowerCase : string -> string.

Definition handleVerification (random1 random2 random3 : Q)
    (st : AppContext.State) (m : Modal) : AppContext.State * Modal * list ToastMessage :=
  match challenge m with
  | None => (st, m, [])
  | Some c =>
      (* Case-insensitive comparison, trimming whitespace *)
      if String.eqb (toLowerCase (trim (userInput m))) (toLowerCase (Captcha.answer c)) then
        (AppContext.setVerifiedHuman true st, mkModal "" None None (isLoading m), [])
      else
        let m := mkModal (userInput m) (Some "Incorrect. Please try again.")
                   (challenge m) (isLoading m) in
        let '(m, toasts) :=
          getNewChallenge (AppContext.apiKey st) random1 random2 random3 m in
        (st, m, toasts)
  end.

End Verification.

(** [const isModalOpen = !isVerifiedHuman && isApiKeySet] *)
Definition isModalOpen (st : AppContext.State) : bool :=
  negb (AppContext.isVerifiedHuman st) && AppContext.isApiKeySet st.

End HumanVerificationModal.

(** A flow attempt that fails without a safety block: no output, or an
    error whose message does not mention [SAFETY]. *)
Definition genericFailure {A} (attempt : Settled (option A)) : bool :=
  match attempt with
  | Fulfilled (Some _) => false
  | Fulfilled None => true
  | Rejected e =>
      match message e with
      | Some m => negb (includes m "SAFETY")
      | None => false
      end
  end.

(** A flow attempt stopped by a safety block. *)
Definition safetyBlock {A} (attempt : Settled (option A)) : bool :=
  match attempt with
  | Rejected e =>
      match message e with
      | Some m => includes m "SAFETY"
      | None => false
      end
  | Fulfilled _ => false
  end.

(** ** The weekly-plan flow ([generateWeeklyPlan];
    [src/ai/schemas/captcha-schemas.ts], lines 268 to 365) *)

Module WeeklyPlan.

Record GenerateWeeklyPlanInput : Type := mkInput {
  cuisinePreference : string;
  dietaryRestrictions : option (list string);
  seenPlanTitles : option (list string)
}.

Record DailyRecipe : Type := mkDaily {
  recipeName : string;
  ingredients : list string;
  instructions : string
}.

Record WeeklyPlan : Type := mkPlan {
  planTitle : string;
  planDescription : string;
  prepPlan : string;
  dailyRecipes : list DailyRecipe;
  consolidatedShoppingList : list string
}.

(** The prompt, with its tool, as one call; the number is the attempt. *)
Record Services : Type := mkServices {
  weeklyPlanPrompt : GenerateWeeklyPlanInput -> nat -> Settled (option WeeklyPlan)
}.

Definition maxAttempts : nat := 3.

(** [while (!output && attempts < maxAttempts)]; the first argument bounds
    the number of iterations unfolded. *)
Fixpoint planLoop (ai : Services) (flowInput : GenerateWeeklyPlanInput)
    (fuel : nat) (output : option WeeklyPlan) (attempts : nat)
  : Passport.Exit (option WeeklyPlan * nat) (option WeeklyPlan) :=
  match fuel with
  | O => Passport.Completed (output, attempts)
  | S fuel =>
      if negb (Passport.is_set output) && (attempts <? maxAttempts)%nat then
        let attempts := S attempts in
        match weeklyPlanPrompt ai flowInput attempts with
        | Fulfilled result => planLoop ai flowInput fuel result attempts
        | Rejected e =>
            match message e with
            | None => Passport.Threw TypeError
            | Some m =>
                if includes m "SAFETY" then Passport.Threw (Error "SAFETY_BLOCK")
                else if (maxAttempts <=? attempts)%nat then Passport.Returned None
                     else planLoop ai flowInput fuel output attempts
            end
        end
      else Passport.Completed (output, attempts)
  end.

Definition generateWeeklyPlanFlow (ai : Services) (flowInput : GenerateWeeklyPlanInput)
  : Settled (option WeeklyPlan) :=
  match planLoop ai flowInput maxAttempts None 0 with
  | Passport.Threw e => Rejected e
  | Passport.Returned r => Fulfilled r
  | Passport.Completed (output, _) => Fulfilled output
  end.

Definition generateWeeklyPlan (ai : Services) (input : GenerateWeeklyPlanInput)
    (apiKey : string) : Settled (option WeeklyPlan) :=
  if negb (truthy apiKey) then Rejected (Error "API Key is required for this operation.")
  else generateWeeklyPlanFlow ai input.

(** *** The form ([WeeklyPlanGenerator], [onSubmit];
    [src/components/api-key-modal.tsx], lines 243 to 291) *)

Record Context : Type := mkContext {
  apiKey : option string;
  seenWeeklyPlanTitles : list string
}.

Record WeeklyPlanFormValues : Type := mkValues {
  form_cuisinePreference : string;
  form_dietaryRestrictions : option (list string)
}.

Inductive Effect : Type :=
| Toast (t : ToastMessage)
| SetIsLoading (b : bool)
| SetWeeklyPlan (plan : option WeeklyPlan)
| CallGenerateWeeklyPlan (input : GenerateWeeklyPlanInput) (apiKey : string)
| AddSeenWeeklyPlanTitle (title : string)
| ConsoleError (e : JsError).

Definition onSubmit (ai : Services) (ctx : Context) (data : WeeklyPlanFormValues)
  : list Effect :=
  if negb (truthy_opt (apiKey ctx)) then
    [Toast (mkToast (Some "destructive") "API Key is missing."
              "Please provide your API key to generate a plan.")]
  else
    let key := match apiKey ctx with Some k => k | None => "" end in
    let input :=
      mkInput (form_cuisinePreference data) (form_dietaryRestrictions data)
        (Some (seenWeeklyPlanTitles ctx)) in
    [SetIsLoading true; SetWeeklyPlan None; CallGenerateWeeklyPlan input key]
    ++ match generateWeeklyPlan ai input key with
       | Fulfilled (Some result) =>
           SetWeeklyPlan (Some result) ::
           (if truthy (planTitle result) then [AddSeenWeeklyPlanTitle (planTitle result)]
            else [])
       | Fulfilled None =>
           [Toast (mkToast (Some "destructive") "Generation Failed"
                     "The AI model seems to be overloaded. Please try again in a few minutes.")]
       | Rejected error =>
           ConsoleError error ::
           (if match message error with
               | Some m => String.eqb m "SAFETY_BLOCK"
               | None => false
               end
            then [Toast (mkToast (Some "destructive") "Unsafe Preferences Detected"
                           "I'm sorry, but I can't create a plan with those preferences due to safety concerns. Please adjust your request.")]
            else [Toast (mkToast (Some "destructive") "An unexpected error occurred."
                           "Failed to generate a weekly plan. Your API key might be invalid or the service may be temporarily down.")])
       end
    ++ [SetIsLoading false].

Definition is_recording (e : Effect) : bool :=
  match e with AddSeenWeeklyPlanTitle _ => true | _ => false end.

(** *** Sample data *)

Definition samplePlan : WeeklyPlan :=
  mkPlan "A Week of Dal" "Five lentil suppers." "Cook the lentils. Chop the onions."
    [mkDaily "Dal Tadka" ["Lentils"; "Cumin"] "Temper and simmer."]
    ["Lentils"; "Cumin"; "Onion"].

Definition sampleInput : GenerateWeeklyPlanInput := mkInput "Indian" (Some []) (Some []).

(** A provider that is overloaded twice and answers at the third attempt. *)
Definition thirdTimeLucky : Services :=
  mkServices (fun _ k =>
    if (k <? 3)%nat then Rejected (Error "503 Service Unavailable")
    else Fulfilled (Some samplePlan)).

(** A provider that is always overloaded. *)
Definition overloaded : Services :=
  mkServices (fun _ _ => Rejected (Error "503 Service Unavailable")).

End WeeklyPlan.

(** ** The recipe finder ([findRecipesInBigQuery]; [src/unnamed/part_005]) *)

Module RecipeFinder.

Record FindRecipesInput : Type := mkInput {
  cuisinePreference : string;
  dietaryRestrictions : option (list string)
}.

Section Finder.

(** The type of an embedding, and the two services: the embedder, whose
    result may lack the embedding, and the warehouse, which returns rows. *)
Variable Embedding : Type.
Variable embed : string -> Settled (option Embedding).
Variable query : Embedding -> Settled (list json).
Variable JSON_stringify : json -> string.

Definition searchText (input : FindRecipesInput) : string :=
  "Cuisine/Preference: " +:+ cuisinePreference input +:+ ". Dietary Restrictions: "
    +:+ or_else (match dietaryRestrictions input with
                 | Some l => join ", " l
                 | None => ""
                 end) "None".

Definition findRecipesInBigQuery (input : FindRecipesInput) : Settled string :=
  match embed (searchText input) with
  | Rejected e => Rejected e
  | Fulfilled None => Fulfilled (JSON_stringify (JArr []))
  | Fulfilled (Some embedding) =>
      match query embedding with
      | Fulfilled rows => Fulfilled (JSON_stringify (JArr rows))
      | Rejected _ =>
          (* Return an empty array string in case of an error to prevent the
             flow from crashing. *)
          Fulfilled (JSON_stringify (JArr []))
      end
  end.

End Finder.

End RecipeFinder.

(** ** The chat flow ([chatWithChef]; [src/ai/flows/chat.ts], lines 36 to
    81) and the chat panel ([ChatBot], [handleSend]; [src/unnamed/part_001]) *)

Module Chat.

(** [error.message], before the name is taken by the field of the input. *)
Definition errorMessage (e : JsError) : option string := message e.

Inductive Role : Type := user | model.

Record HistoryPart : Type := mkPart {
  role : Role;
  parts : list string
}.

Record ChatInput : Type := mkInput {
  history : list HistoryPart;
  message : string
}.

(** [model.startChat({ history, ... })], which is outside the [try]: the
    error it throws, if it throws; and [chat.sendMessage(message)] on the
    chat started with the history, up to the text of the response. *)
Record Services : Type := mkServices {
  startChat : list HistoryPart -> option JsError;
  sendMessage : list HistoryPart -> string -> Settled string
}.

Definition SAFETY_REPLY :=
  "I'm sorry, but I can't respond to that due to safety guidelines. Let's talk about something else related to vegetarian cooking!".

Definition LOST_REPLY :=
  "I'm sorry, I seem to be at a loss for words. Could you ask that a different way?".

Definition chatWithChef (ai : Services) (input : ChatInput) (apiKey : string)
  : Settled string :=
  if negb (truthy apiKey) then Rejected (Error "API Key is required for this operation.")
  else
    let historyForSDK := map (fun h => mkPart (role h) (parts h)) (history input) in
    match startChat ai historyForSDK with
    | Some error => Rejected error
    | None =>
        match sendMessage ai historyForSDK (message input) with
        | Fulfilled text => Fulfilled text
        | Rejected error =>
            (* error.message && error.message.includes('SAFETY') *)
            match errorMessage error with
            | Some m =>
                if truthy m && includes m "SAFETY" then Fulfilled SAFETY_REPLY
                else Fulfilled LOST_REPLY
            | None => Fulfilled LOST_REPLY
            end
        end
    end.

(** *** The panel *)

Record Message : Type := mkMessage {
  msg_role : Role;
  text : string
}.

Record Panel : Type := mkPanel {
  messages : list Message;
  input : string;
  isLoading : bool
}.

(** [arr.slice(0, -1)] *)
Definition dropLast {A} (l : list A) : list A := take (length l - 1) l.

(** The panel after the call has settled, and the toasts shown. *)
Definition handleSend (ai : Services) (apiKey : option string) (p : Panel)
  : Panel * list ToastMessage :=
  if String.eqb (trim (input p)) "" || negb (truthy_opt apiKey) then
    (p, if negb (truthy_opt apiKey)
        then [mkToast (Some "destructive") "API Key Not Set"
                "Please set your API key in the main app before using the chat."]
        else [])
  else
    let key := match apiKey with Some k => k | None => "" end in
    let userMessage := mkMessage user (input p) in
    let newMessages := messages p ++ [userMessage] in
    let historyForApi :=
      map (fun msg => mkPart (msg_role msg) [text msg]) (dropLast newMessages) in
    match chatWithChef ai (mkInput historyForApi (input p)) key with
    | Fulfilled response =>
        (mkPanel (newMessages ++ [mkMessage model response]) "" false, [])
    | Rejected _ =>
        (* Rollback the user message on error *)
        (mkPanel (dropLast newMessages) "" false,
         [mkToast (Some "destructive") "Chat Error"
            "Sorry, I couldn't get a response. Your API key might be invalid or the service is down."])
    end.

(** The history that [handleSend] hands to [chatWithChef]. *)
Definition historyOf (msgs : list Message) : list HistoryPart :=
  map (fun msg => mkPart (msg_role msg) [text msg]) msgs.

(** A conversation of complete exchanges: a question of the user, then the
    answer of the model, and so on. *)
Fixpoint exchanges (msgs : list Message) : bool :=
  match msgs with
  | [] => true
  | q :: a :: rest =>
      match msg_role q, msg_role a with
      | user, model => exchanges rest
      | _, _ => false
      end
  | [_] => false
  end.

(** *** Sample data *)

Definition blocked : Services :=
  mkServices (fun _ => None)
    (fun _ _ => Rejected (Error "Response was blocked due to SAFETY")).

Definition echo : Services :=
  mkServices (fun _ => None) (fun _ question => Fulfilled ("You asked: " +:+ question)).

(** A provider that refuses a history whose first message is not the
    user's. *)
Definition strict : Services :=
  mkServices
    (fun h => match h with
              | mkPart model _ :: _ => Some (Error "First content should be with role 'user', got model")
              | _ => None
              end)
    (fun _ question => Fulfilled ("You asked: " +:+ question)).

End Chat.

(** ** The passport form ([CulinaryPassportGenerator], [onSubmit];
    [src/unnamed/part_002], lines 39 to 90) *)

Module PassportForm.

Record Context : Type := mkContext {
  apiKey : option string;
  seenPassportDishes : list string
}.

Record PassportFormValues : Type := mkValues {
  destination : string;
  dietaryNeeds : string;
  preferences : option string
}.

(** The key under which a dish of a destination is recorded by
    [addSeenPassportDishes]. *)
Definition dishKey (destination dishName : string) : string :=
  destination +:+ "|" +:+ dishName.

(** Filter seen dishes for the current destination. [split('|')[1]] is
    [undefined] where the key has no second field. *)
Definition seenDishesForDestination (destination : string) (seenPassportDishes : list string)
  : list (option string) :=
  map (fun dish => split "|" dish !! 1)
    (List.filter (fun dish => startsWith dish (destination +:+ "|")) seenPassportDishes).

Inductive Effect : Type :=
| Toast (t : ToastMessage)
| SetIsLoading (b : bool)
| SetPassport (passport : option Passport.CulinaryPassport)
| CallGenerateCulinaryPassport (input : Passport.GenerateCulinaryPassportInput) (apiKey : string)
| AddSeenPassportDishes (dishes : list Passport.DishWithPhoto) (destination : string)
| ConsoleError (e : JsError).

(** The decoded names as a [string[]]. The filter keeps only keys that hold
    a [|], so that no name is undefined and the default is never used. *)
Definition definedNames (names : list (option string)) : list string :=
  map (fun n => match n with Some s => s | None => "undefined" end) names.

Definition onSubmit (ai : Passport.Services) (ctx : Context) (data : PassportFormValues)
  : list Effect :=
  if negb (truthy_opt (apiKey ctx)) then
    [Toast (mkToast (Some "destructive") "API Key is missing."
              "Please provide your API key to generate a passport.")]
  else
    let key := match apiKey ctx with Some k => k | None => "" end in
    let seen := seenDishesForDestination (destination data) (seenPassportDishes ctx) in
    let input :=
      Passport.mkInput (destination data) (dietaryNeeds data) (preferences data)
        (Some (definedNames seen)) in
    [SetIsLoading true; SetPassport None; CallGenerateCulinaryPassport input key]
    ++ match Passport.generateCulinaryPassport ai input key with
       | Fulfilled result =>
           if (0 <? length (Passport.Output.recommendations result))%nat then
             [SetPassport (Some result);
              AddSeenPassportDishes (Passport.Output.recommendations result)
                (destination data)]
           else if String.eqb (Passport.Output.chefCardAudioUri result) "" then
             (* Handle fallback case where AI fails to generate anything *)
             [Toast (mkToast (Some "destructive") "Generation Failed"
                       (or_else (Passport.Output.chefCardMessage result)
                          "The AI model is currently overloaded. Please try again in a few minutes."));
              SetPassport (Some result)]
           else
             [SetPassport (Some result);
              Toast (mkToast None "No New Recommendations"
                       "We've shown you all available recommendations for this destination. Try a different place!")]
       | Rejected error =>
           [ConsoleError error;
            Toast (mkToast (Some "destructive") "An error occurred."
                     "Failed to generate your Culinary Passport. The API key might be invalid or the service may be temporarily down.")]
       end
    ++ [SetIsLoading false].

Definition is_recording (e : Effect) : bool :=
  match e with AddSeenPassportDishes _ _ => true | _ => false end.

End PassportForm.

(** ** The recipe card ([renderRecipe]; [src/unnamed/part_000], lines 410 to
    512) *)

Module RecipeCard.

(** [recipe.missingIngredients ? [...new Set(recipe.missingIngredients)] : []] *)
Definition uniqueMissingIngredients (missingIngredients : option (list string)) : list string :=
  match missingIngredients with
  | Some l => ShoppingList.new_Set l
  | None => []
  end.

(** The button is rendered when the list is not empty, and downloads it. *)
Definition downloadButton (missingIngredients : option (list string))
  : option ShoppingList.Download :=
  let unique := uniqueMissingIngredients missingIngredients in
  if (0 <? length unique)%nat then Some (ShoppingList.handleDownloadShoppingList unique)
  else None.

End RecipeCard.

(** * Properties *)

(** ** JavaScript helpers *)

Example trim_both_ends : trim "  brown rice  " = "brown rice".
Proof. reflexivity. Qed.

(** A no-break space in front, an ideographic space and a line separator
    behind. *)
Example trim_beyond_ascii :
  trim (bytes [194; 160] +:+ "brown rice" +:+ bytes [227; 128; 128] +:+ bytes [226; 128; 168])
  = "brown rice".
Proof. reflexivity. Qed.

(** Other code points stay: e with an acute accent at both ends. *)
Example trim_keeps_letters :
  trim (" " +:+ bytes [195; 169] +:+ "pic" +:+ bytes [195; 169] +:+ " ")
  = bytes [195; 169] +:+ "pic" +:+ bytes [195; 169].
Proof. reflexivity. Qed.

Example split_keeps_empty_fields : split "," "a, b,,c" = ["a"; " b"; ""; "c"].
Proof. reflexivity. Qed.

Example split_of_empty : split "," "" = [""].
Proof. reflexivity. Qed.

Example includes_inside : includes "blocked: SAFETY filter" "SAFETY" = true.
Proof. reflexivity. Qed.

Example includes_absent : includes "503 Service Unavailable" "SAFETY" = false.
Proof. reflexivity. Qed.

Example ingredientNames_typed :
  RecipeForm.ingredientNames (Some "nutritional yeast, paprika,, ")
  = ["nutritional yeast"; "paprika"].
Proof. reflexivity. Qed.

Example payload_of_data_url : Passport.payload "data:audio/L16;base64,AAAA" = "AAAA".
Proof. reflexivity. Qed.

Example new_Set_keeps_first :
  ShoppingList.new_Set ["Garlic"; "Rice"; "Garlic"; "Kale"; "Rice"] = ["Garlic"; "Rice"; "Kale"].
Proof. reflexivity. Qed.

Example subtraction_is_swapped :
  Captcha.generateMathProblem (3 # 10) (9 # 10) (1 # 2)
  = Captcha.mkCaptcha "What is 10 - 4?" "6".
Proof. reflexivity. Qed.

Example product_of_tens :
  Captcha.generateMathProblem (99 # 100) (99 # 100) (9 # 10)
  = Captcha.mkCaptcha "What is 10 * 10?" "100".
Proof. reflexivity. Qed.

Lemma truthy_false_empty (s : string) : truthy s = false <-> s = "".
Proof. destruct s; simpl; split; intros; congruence. Qed.

Lemma truthy_true_nonempty (s : string) : truthy s = true <-> s <> "".
Proof. destruct s; simpl; split; intros; congruence. Qed.

Lemma or_else_empty (s : string) : or_else s "" = s.
Proof. destruct s; reflexivity. Qed.

Lemma list_ascii_of_string_app (a b : string) :
  list_ascii_of_string (a +:+ b) = list_ascii_of_string a ++ list_ascii_of_string b.
Proof. induction a as [|c r IH]; simpl; [reflexivity|]. rewrite IH. reflexivity. Qed.

Lemma listed_white_space (w : string) :
  existsb (String.eqb w) WHITE_SPACE = true -> In w WHITE_SPACE.
Proof.
  intros H. apply existsb_exists in H as (x & Hx & Heq).
  apply String.eqb_eq in Heq. congruence.
Qed.

(** Each of the code points listed is removed from the head. *)
Lemma dropWhite_code_point (w : string) (r : list ascii) :
  In w WHITE_SPACE -> dropWhite (list_ascii_of_string w ++ r) = dropWhite r.
Proof.
  intros H. unfold WHITE_SPACE in H. simpl in H.
  repeat (destruct H as [<- | H]; [reflexivity|]). destruct H.
Qed.

Lemma dropWhite_only_white_space (l : list string) :
  Forall (fun w => In w WHITE_SPACE) l ->
  dropWhite (list_ascii_of_string (String.concat "" l)) = [].
Proof.
  induction 1 as [|w l Hw Hl IH]; [reflexivity|].
  destruct l as [|w' l'].
  - simpl. rewrite <- (app_nil_r (list_ascii_of_string w)).
    rewrite dropWhite_code_point by exact Hw. reflexivity.
  - change (String.concat "" (w :: w' :: l')) with (w +:+ String.concat "" (w' :: l')).
    rewrite list_ascii_of_string_app, dropWhite_code_point by exact Hw. exact IH.
Qed.

(** A string of white space trims to the empty string. *)
Lemma trim_whitespace (s : string) : only_white_space s -> trim s = "".
Proof.
  intros (l & Hl & ->). unfold trim.
  rewrite dropWhite_only_white_space by exact Hl. reflexivity.
Qed.

(** ** The application context *)

Section LedgerFacts.

Import AppContext.

Variable JSON_parse : string -> option json.
Variable JSON_stringify : json -> string.

Local Abbreviation addSeenItem := (addSeenItem JSON_parse JSON_stringify).
Local Abbreviation addSeenQuote := (addSeenQuote JSON_parse JSON_stringify).
Local Abbreviation addSeenRecipeTitle := (addSeenRecipeTitle JSON_parse JSON_stringify).
Local Abbreviation addSeenWeeklyPlanTitle := (addSeenWeeklyPlanTitle JSON_parse JSON_stringify).
Local Abbreviation addSeenPassportDishes := (addSeenPassportDishes JSON_parse JSON_stringify).
Local Abbreviation recorded := (recorded JSON_stringify).

Lemma take_cons_prefix {A} (x : A) (l : list A) (n : nat) :
  0 < n -> [x] `prefix_of` take n (x :: l).
Proof.
  intros Hn. destruct n as [|n]; [lia|]. simpl.
  exists (take n l). reflexivity.
Qed.

Lemma addSeenItem_recorded (key item : string) (ls : gmap string string) :
  recorded key [JStr item] (addSeenItem key item ls).1 (addSeenItem key item ls).2.
Proof.
  unfold AppContext.addSeenItem, AppContext.recorded.
  destruct (readStoredItems JSON_parse (ls !! key)) as [[| | | |storedItems|]|]; simpl;
    try (split; [unfold MAX_SEEN_ITEMS; lia | split; [reflexivity | apply lookup_insert_eq]]).
  split; [|split].
  - rewrite length_take. unfold MAX_SEEN_ITEMS. lia.
  - exists (take 99 storedItems). reflexivity.
  - apply lookup_insert_eq.
Qed.

Lemma take_app_prefix {A} (l1 l2 : list A) (n : nat) :
  length l1 <= n -> l1 `prefix_of` take n (l1 ++ l2).
Proof.
  intros Hn. exists (take (n - length l1) l2).
  rewrite take_app. rewrite take_ge by lia. reflexivity.
Qed.

Lemma addSeenPassportDishes_cases {D} `{HasDishName D}
    (dishes : list D) (destination : string) (st : State) :
  let newDishes := map (fun dish => destination +:+ "|" +:+ dishNameEnglish dish) dishes in
  let st' := addSeenPassportDishes dishes destination st in
  (exists storedItems,
      readStoredItems JSON_parse (localStorage st !! SEEN_PASSPORT_DISHES_KEY)
        = Some (JArr storedItems)
      /\ seenPassportDishes st'
         = take MAX_SEEN_ITEMS
             (map JStr newDishes
                ++ List.filter (fun d => negb (includes_value newDishes d)) storedItems))
  \/ seenPassportDishes st' = map JStr newDishes.
Proof.
  simpl. unfold AppContext.addSeenPassportDishes.
  destruct (readStoredItems JSON_parse (localStorage st !! SEEN_PASSPORT_DISHES_KEY))
    as [[| | | |storedItems|]|]; simpl; auto.
  left. exists storedItems. auto.
Qed.

Lemma addSeenPassportDishes_persisted {D} `{HasDishName D}
    (dishes : list D) (destination : string) (st : State) :
  let st' := addSeenPassportDishes dishes destination st in
  localStorage st' !! SEEN_PASSPORT_DISHES_KEY
    = Some (JSON_stringify (JArr (seenPassportDishes st'))).
Proof.
  simpl. unfold AppContext.addSeenPassportDishes.
  destruct (readStoredItems JSON_parse (localStorage st !! SEEN_PASSPORT_DISHES_KEY))
    as [[| | | |storedItems|]|]; simpl; apply lookup_insert_eq.
Qed.

(** C2. Whatever local storage holds (nothing, an unparsable string, a
    value that is not an array, a list at or above the cap), recording a
    quote, a recipe title or a weekly-plan title leaves a list of at most
    100 entries that starts with the new key and is the one persisted; so
    does recording a batch of at most 100 passport dishes, whose
    [destination|dish] keys come first in their order. *)
Theorem record_capped_newest_first {D} `{HasDishName D}
    (key : string) (dishes : list D) (destination : string) (st : State) :
  recorded SEEN_QUOTES_STORAGE_KEY [JStr key]
    (seenQuotes (addSeenQuote key st)) (localStorage (addSeenQuote key st))
  /\ recorded SEEN_RECIPES_STORAGE_KEY [JStr key]
       (seenRecipeTitles (addSeenRecipeTitle key st))
       (localStorage (addSeenRecipeTitle key st))
  /\ recorded SEEN_WEEKLY_PLANS_KEY [JStr key]
       (seenWeeklyPlanTitles (addSeenWeeklyPlanTitle key st))
       (localStorage (addSeenWeeklyPlanTitle key st))
  /\ (length dishes <= MAX_SEEN_ITEMS ->
      recorded SEEN_PASSPORT_DISHES_KEY
        (map (fun dish => JStr (destination +:+ "|" +:+ dishNameEnglish dish)) dishes)
        (seenPassportDishes (addSeenPassportDishes dishes destination st))
        (localStorage (addSeenPassportDishes dishes destination st))).
Proof.
  unfold AppContext.addSeenQuote, AppContext.addSeenRecipeTitle,
    AppContext.addSeenWeeklyPlanTitle.
  pose proof (addSeenItem_recorded SEEN_QUOTES_STORAGE_KEY key (localStorage st)) as Hq.
  pose proof (addSeenItem_recorded SEEN_RECIPES_STORAGE_KEY key (localStorage st)) as Hr.
  pose proof (addSeenItem_recorded SEEN_WEEKLY_PLANS_KEY key (localStorage st)) as Hw.
  destruct (addSeenItem SEEN_QUOTES_STORAGE_KEY key (localStorage st)) as [lq sq].
  destruct (addSeenItem SEEN_RECIPES_STORAGE_KEY key (localStorage st)) as [lr sr].
  destruct (addSeenItem SEEN_WEEKLY_PLANS_KEY key (localStorage st)) as [lw sw].
  simpl in *. repeat (split; [assumption|]).
  intros Hlen. unfold AppContext.recorded. split; [|split].
  - destruct (addSeenPassportDishes_cases dishes destination st)
      as [(storedItems & _ & ->) | ->].
    + rewrite length_take. unfold MAX_SEEN_ITEMS. lia.
    + rewrite !length_map. exact Hlen.
  - rewrite <- (map_map _ JStr).
    destruct (addSeenPassportDishes_cases dishes destination st)
      as [(storedItems & _ & ->) | ->].
    + apply take_app_prefix. rewrite !length_map. exact Hlen.
    + reflexivity.
  - apply addSeenPassportDishes_persisted.
Qed.

(** The passport path removes the stored copies of the keys it records:
    from a stored list without duplicates and a batch of distinct dishes,
    the new list has no duplicates. *)
Lemma addSeenPassportDishes_NoDup {D} `{HasDishName D}
    (dishes : list D) (destination : string) (st : State) (storedItems : list json) :
  let newDishes := map (fun dish => destination +:+ "|" +:+ dishNameEnglish dish) dishes in
  readStoredItems JSON_parse (localStorage st !! SEEN_PASSPORT_DISHES_KEY)
    = Some (JArr storedItems) ->
  NoDup storedItems -> NoDup newDishes ->
  NoDup (seenPassportDishes (addSeenPassportDishes dishes destination st)).
Proof.
  simpl. intros Hread Hstored Hnew.
  unfold AppContext.addSeenPassportDishes. rewrite Hread. simpl.
  eapply sublist_NoDup; [|apply sublist_take].
  apply NoDup_app. split; [|split].
  - apply NoDup_fmap_2; [|exact Hnew]. intros a b Hab. congruence.
  - intros x Hx Hx'. apply list_elem_of_In, filter_In in Hx' as [_ Hx'].
    apply list_elem_of_fmap in Hx as (s & -> & Hs). simpl in Hx'.
    apply negb_true_iff, not_true_iff_false in Hx'. apply Hx'.
    apply existsb_exists. exists s. split; [by apply list_elem_of_In|apply String.eqb_refl].
  - apply NoDup_ListNoDup, List.NoDup_filter, NoDup_ListNoDup, Hstored.
Qed.

(** C1. Recording the same quote twice from an empty ledger stores it
    twice: [addSeenItem] prepends without looking for the key, unlike
    [addSeenPassportDishes]. The hypotheses are the round trip of the JSON
    codec on the one list written. *)
Theorem addSeenQuote_repeated_key_stored_twice (quote : string) (st : State) :
  localStorage st !! SEEN_QUOTES_STORAGE_KEY = None ->
  truthy (JSON_stringify (JArr [JStr quote])) = true ->
  JSON_parse (JSON_stringify (JArr [JStr quote])) = Some (JArr [JStr quote]) ->
  seenQuotes (addSeenQuote quote (addSeenQuote quote st)) = [JStr quote; JStr quote]
  /\ ~ NoDup (seenQuotes (addSeenQuote quote (addSeenQuote quote st))).
Proof.
  intros Hempty Htruthy Hparse.
  assert (seenQuotes (addSeenQuote quote (addSeenQuote quote st))
          = [JStr quote; JStr quote]) as Heq.
  { unfold AppContext.addSeenQuote at 2, AppContext.addSeenItem.
    rewrite Hempty. simpl.
    unfold AppContext.addSeenQuote, AppContext.addSeenItem. simpl.
    rewrite lookup_insert_eq. simpl. rewrite Htruthy, Hparse. reflexivity. }
  split; [exact Heq|]. rewrite Heq. intros Hnd.
  apply NoDup_cons in Hnd as [Hnotin _]. apply Hnotin. left.
Qed.

End LedgerFacts.

(** The API key and the verification flag. *)

Lemma setApiKey_sameSeenItems (key : option string) (st : AppContext.State) :
  AppContext.sameSeenItems st (AppContext.setApiKey key st).
Proof.
  unfold AppContext.sameSeenItems, AppContext.setApiKey.
  destruct key as [k|]; [destruct (truthy k)|]; simpl; repeat split; try reflexivity;
    intros key' Hne; first [by rewrite lookup_insert_ne | by rewrite lookup_delete_ne].
Qed.

(** C10, as the code has it. A null key, and an empty one as well, removes
    the stored key, resets the verification flag and writes ['false'] to
    session storage; a non-empty key is stored and leaves the flag and
    session storage as they were. The seen lists are untouched either
    way. *)
Theorem setApiKey_effects (key : option string) (st : AppContext.State) :
  let st' := AppContext.setApiKey key st in
  AppContext.apiKey st' = key
  /\ AppContext.sameSeenItems st st'
  /\ (if truthy_opt key
      then AppContext.localStorage st' !! AppContext.API_KEY_STORAGE_KEY = key
           /\ AppContext.isVerifiedHuman st' = AppContext.isVerifiedHuman st
           /\ AppContext.sessionStorage st' = AppContext.sessionStorage st
      else AppContext.localStorage st' !! AppContext.API_KEY_STORAGE_KEY = None
           /\ AppContext.isVerifiedHuman st' = false
           /\ AppContext.sessionStorage st' !! AppContext.HUMAN_VERIFIED_SESSION_KEY
              = Some "false").
Proof.
  simpl. split; [|split; [apply setApiKey_sameSeenItems|]].
  - unfold AppContext.setApiKey. destruct key as [k|]; [destruct (truthy k)|]; reflexivity.
  - unfold AppContext.setApiKey, truthy_opt.
    destruct key as [k|]; [destruct (truthy k) eqn:Hk|]; simpl;
      repeat split; first [apply lookup_insert_eq | apply lookup_delete_eq].
Qed.

(** C10, counterexample: the empty string is a key that is not null, and
    [setApiKey] neither stores it nor keeps the verification flag. *)
Lemma setApiKey_empty_key_not_kept :
  ~ AppContext.nonNullKeyKept "" AppContext.verifiedState.
Proof.
  unfold AppContext.nonNullKeyKept. intros [_ Hflag]. simpl in Hflag. discriminate.
Qed.

(** ** The CAPTCHA *)

Section CaptchaFacts.

Import Captcha.

Lemma draw_range (random : Q) (n : Z) :
  (0 <= random)%Q -> (random < 1)%Q -> (0 < n)%Z -> (0 <= draw random n < n)%Z.
Proof.
  intros H0 H1 Hn. unfold draw, Math_floor.
  assert (inject_Z 0 < inject_Z n)%Q as Hn' by (rewrite <- Zlt_Qlt; exact Hn).
  change (inject_Z 0) with 0%Q in Hn'.
  split.
  - rewrite <- (Qfloor_Z 0). apply Qfloor_resp_le.
    apply Qmult_le_0_compat; [exact H0 | apply Qlt_le_weak; exact Hn'].
  - rewrite Zlt_Qlt. eapply Qle_lt_trans; [apply Qfloor_le|].
    rewrite <- (Qmult_1_l (inject_Z n)) at 2.
    apply Qmult_lt_compat_r; assumption.
Qed.

Lemma floor_of_draw (d n : Z) : (0 < n)%Z -> Math_floor ((d # Z.to_pos n) * inject_Z n) = d.
Proof.
  intros Hn. unfold Math_floor, Qfloor, Qmult, inject_Z. simpl.
  rewrite Pos.mul_1_r, Z2Pos.id by exact Hn. apply Z.div_mul. lia.
Qed.

(** The problem depends on the random numbers through the draws only. *)
Lemma generateMathProblem_draws (random1 random2 random3 : Q) :
  generateMathProblem random1 random2 random3
  = let '(r1, r2, r3) :=
      randoms_of_draws (draw random1 10) (draw random2 10) (draw random3 3) in
    generateMathProblem r1 r2 r3.
Proof.
  assert (forall d, Math_floor ((d # 10) * 10) = d) as H10
    by (intros d; exact (floor_of_draw d 10 eq_refl)).
  assert (forall d, Math_floor ((d # 3) * inject_Z (Z.of_nat (length operations))) = d) as H3
    by (intros d; exact (floor_of_draw d 3 eq_refl)).
  unfold randoms_of_draws, generateMathProblem.
  rewrite !H10, H3. reflexivity.
Qed.

Lemma elem_of_digits (d : Z) (n : nat) : (0 <= d < Z.of_nat n)%Z -> d ∈ digits n.
Proof.
  intros Hd. unfold digits. apply list_elem_of_fmap.
  exists (Z.to_nat d). split; [lia|]. apply list_elem_of_In, in_seq. lia.
Qed.

Lemma generateMathProblem_listed (random1 random2 random3 : Q) :
  (0 <= random1)%Q -> (random1 < 1)%Q ->
  (0 <= random2)%Q -> (random2 < 1)%Q ->
  (0 <= random3)%Q -> (random3 < 1)%Q ->
  generateMathProblem random1 random2 random3 ∈ all_problems.
Proof.
  intros. rewrite generateMathProblem_draws. unfold all_problems.
  apply list_elem_of_bind. exists (draw random1 10).
  split; [|apply elem_of_digits, draw_range; assumption || lia].
  apply list_elem_of_bind. exists (draw random2 10).
  split; [|apply elem_of_digits, draw_range; assumption || lia].
  apply list_elem_of_bind. exists (draw random3 3).
  split; [|apply elem_of_digits, draw_range; assumption || lia].
  apply list_elem_of_singleton. reflexivity.
Qed.

Lemma all_problems_well_formed : forallb well_formed all_problems = true.
Proof. vm_compute. reflexivity. Qed.

(** C9. With random numbers in the unit interval and a key, [generateCaptcha]
    returns a challenge whose question states two operands between 1 and 10
    and an operator, whose answer is the decimal writing of the exact value
    of that expression, and that value is never negative. *)
Theorem generateCaptcha_answer_is_value (apiKey : string) (random1 random2 random3 : Q) :
  apiKey <> "" ->
  (0 <= random1)%Q -> (random1 < 1)%Q ->
  (0 <= random2)%Q -> (random2 < 1)%Q ->
  (0 <= random3)%Q -> (random3 < 1)%Q ->
  exists (c : GenerateCaptchaOutput) (x y v : Z) (op : string),
    generateCaptcha apiKey random1 random2 random3 = Fulfilled (Some c)
    /\ read_question (question c) = Some (x, op, y)
    /\ apply_operation op x y = Some v
    /\ expression_value (question c) = Some v
    /\ answer c = String_of_number v
    /\ (0 <= v)%Z /\ (1 <= x <= 10)%Z /\ (1 <= y <= 10)%Z.
Proof.
  intros Hkey H1 H1' H2 H2' H3 H3'.
  pose proof (generateMathProblem_listed random1 random2 random3 H1 H1' H2 H2' H3 H3') as Hin.
  pose proof all_problems_well_formed as Hall.
  rewrite forallb_forall in Hall. apply list_elem_of_In, Hall in Hin. clear Hall.
  unfold generateCaptcha. apply truthy_true_nonempty in Hkey. rewrite Hkey. simpl.
  set (p := generateMathProblem random1 random2 random3) in *.
  unfold well_formed in Hin. unfold expression_value.
  destruct (read_question (question p)) as [[[x op] y]|] eqn:Hread; [|discriminate].
  destruct (apply_operation op x y) as [v|] eqn:Hv; [|discriminate].
  repeat (apply andb_prop in Hin as [Hin ?]).
  exists (mkCaptcha (question p) (answer p)), x, y, v, op. simpl. rewrite Hread.
  repeat split; try assumption; try lia.
  apply String.eqb_eq. assumption.
Qed.

End CaptchaFacts.

(** ** The recipe flow *)

Section RecipeFacts.

Import Recipe.

Lemma generateRecipe_with_key (ai : Services) (input : GenerateRecipeInput) (apiKey : string) :
  apiKey <> "" -> generateRecipe ai input apiKey = generateRecipeFlow ai input.
Proof.
  intros Hkey. unfold generateRecipe.
  apply truthy_true_nonempty in Hkey. rewrite Hkey. reflexivity.
Qed.

(** The flow after a successful stage 1 and a selection with both fields. *)
Lemma generateRecipeFlow_selected (ai : Services) (input : GenerateRecipeInput)
    (optionsOutput : GenerateRecipeOptionsOutput) (r : RecipeOption) (q : QuoteOption) :
  generateOptionsPrompt ai input = Fulfilled (Some optionsOutput) ->
  selectStep ai optionsOutput input = Some (Some r, Some q) ->
  exists out,
    generateRecipeFlow ai input = Fulfilled (Some out)
    /\ isRecipe out r /\ isQuote out q
    /\ Output.photoDataUri out = url_or_empty (imageStep ai (Some r)).
Proof.
  intros Hoptions Hselect. unfold generateRecipeFlow. rewrite Hoptions, Hselect.
  eexists. split; [reflexivity|]. unfold isRecipe, isQuote. simpl. tauto.
Qed.

Lemma lookup_first_of_five {A} (l : list A) : length l = 5 -> exists x, l !! 0 = Some x.
Proof. destruct l as [|x l]; [discriminate|]. intros _. exists x. reflexivity. Qed.

(** C3, as the code has it. After a stage 1 that produced five recipe and
    five quote candidates: a stage-2 call that throws makes [generateRecipe]
    return (it neither throws nor returns null) the candidates at index 0; a
    stage-2 call that answers without output makes [generateRecipe] return
    null, with no fallback. *)
Theorem stage2_throw_falls_back_silence_returns_null (ai : Services)
    (input : GenerateRecipeInput) (apiKey : string)
    (optionsOutput : GenerateRecipeOptionsOutput) :
  apiKey <> "" ->
  generateOptionsPrompt ai input = Fulfilled (Some optionsOutput) ->
  length (recipeOptions optionsOutput) = 5 ->
  length (quoteOptions optionsOutput) = 5 ->
  (forall e,
     validateAndSelectPrompt ai (selectInput optionsOutput input) = Rejected e ->
     exists r q out,
       recipeOptions optionsOutput !! 0 = Some r
       /\ quoteOptions optionsOutput !! 0 = Some q
       /\ generateRecipe ai input apiKey = Fulfilled (Some out)
       /\ isRecipe out r /\ isQuote out q)
  /\ (validateAndSelectPrompt ai (selectInput optionsOutput input) = Fulfilled None ->
      generateRecipe ai input apiKey = Fulfilled None).
Proof.
  intros Hkey Hoptions Hrecipes Hquotes. split.
  - intros e Hselect.
    destruct (lookup_first_of_five _ Hrecipes) as [r Hr].
    destruct (lookup_first_of_five _ Hquotes) as [q Hq].
    assert (selectStep ai optionsOutput input = Some (Some r, Some q)) as Hstep.
    { unfold selectStep. rewrite Hselect, Hr, Hq. reflexivity. }
    destruct (generateRecipeFlow_selected ai input optionsOutput r q Hoptions Hstep)
      as (out & Hout & Hrec & Hquo & _).
    exists r, q, out. rewrite generateRecipe_with_key by exact Hkey. auto.
  - intros Hselect. rewrite generateRecipe_with_key by exact Hkey.
    unfold generateRecipeFlow, selectStep. rewrite Hoptions, Hselect. reflexivity.
Qed.

(** C3, counterexample: stage 1 gives five candidates of each kind, the
    stage-2 call answers without output, and the operation returns null
    instead of the candidates at index 0. *)
Lemma stage2Silent_returns_null :
  ~ fallsBackWhenStage2Fails stage2Silent sampleInput "key-1".
Proof.
  unfold fallsBackWhenStage2Fails. intros Hclaim.
  destruct (Hclaim sampleOptions eq_refl eq_refl eq_refl eq_refl)
    as (r & q & out & _ & _ & Hout & _).
  discriminate Hout.
Qed.

Section Selection.

Variable similar : string -> string -> bool.

(** The rule of the prompt never picks a colliding first option while
    another option is free. *)
Lemma firstUnseen_first_only_if_all_collide {A} (key : A -> string)
    (options : list A) (seen : list string) (first chosen : A) :
  options !! 0 = Some first ->
  collides similar seen (key first) = true ->
  firstUnseen similar key options seen = Some chosen ->
  key chosen = key first ->
  forall c, In c options -> collides similar seen (key c) = true.
Proof.
  intros Hfirst Hcollides Hchosen Hsame c Hc. unfold firstUnseen in Hchosen.
  destruct (find (fun o => negb (collides similar seen (key o))) options) as [o|] eqn:Hfind.
  - injection Hchosen as ->. apply find_some in Hfind as [_ Hfree].
    rewrite Hsame, Hcollides in Hfree. discriminate.
  - apply (find_none _ _ Hfind) in Hc. apply negb_false_iff in Hc. exact Hc.
Qed.

Lemma collides_exact (seen : list string) (title : string) :
  (forall s, similar s s = true) -> In title seen -> collides similar seen title = true.
Proof.
  intros Hrefl Hin. unfold collides. apply existsb_exists. exists title. auto.
Qed.

(** C8, as the code has it. The code does not compare the candidates
    with the ledger: when the stage-2 call answers with a selection, the
    recipe returned is the one selected. With the exact title of the first
    candidate in the ledger, and a selection that follows the rule of the
    stage-2 prompt, the recipe returned has the first candidate's title only
    if every candidate collides with the ledger. *)
Theorem selection_avoids_seen_first_when_prompt_followed
    (ai : Services) (input : GenerateRecipeInput) (apiKey : string)
    (optionsOutput : GenerateRecipeOptionsOutput) (first : RecipeOption)
    (selection : ValidateAndSelectOutput) :
  (forall s, similar s s = true) ->
  apiKey <> "" ->
  generateOptionsPrompt ai input = Fulfilled (Some optionsOutput) ->
  recipeOptions optionsOutput !! 0 = Some first ->
  In (recipeName first) (seen_list (seenRecipeTitles input)) ->
  validateAndSelectPrompt ai (selectInput optionsOutput input) = Fulfilled (Some selection) ->
  exists out,
    generateRecipe ai input apiKey = Fulfilled (Some out)
    /\ isRecipe out (selectedRecipe selection)
    /\ (followsPrompt similar (selectInput optionsOutput input) selection ->
        Output.recipeName out = recipeName first ->
        forall c, In c (recipeOptions optionsOutput) ->
          collides similar (seen_list (seenRecipeTitles input)) (recipeName c) = true).
Proof.
  intros Hrefl Hkey Hoptions Hfirst Hseen Hselect.
  rewrite generateRecipe_with_key by exact Hkey.
  assert (selectStep ai optionsOutput input
          = Some (Some (selectedRecipe selection), Some (selectedQuote selection))) as Hstep.
  { unfold selectStep. rewrite Hselect. reflexivity. }
  destruct (generateRecipeFlow_selected ai input optionsOutput _ _ Hoptions Hstep)
    as (out & Hout & Hrec & _).
  exists out. split; [exact Hout|]. split; [exact Hrec|].
  intros Hfollows Hname c Hc.
  apply (firstUnseen_first_only_if_all_collide recipeName (recipeOptions optionsOutput)
           (seen_list (seenRecipeTitles input)) first (selectedRecipe selection));
    try assumption.
  - apply collides_exact; assumption.
  - destruct Hrec as [Hrec _]. congruence.
Qed.

End Selection.

(** C8, counterexample: the ledger holds the first candidate's title, the
    other four candidates are free, the stage-2 call answers with the first
    candidate, and the first candidate is returned. *)
Lemma disobedient_answer_returns_seen_first :
  ~ firstAvoidedWhenSeen String.eqb disobedient sampleInput "key-1".
Proof.
  unfold firstAvoidedWhenSeen. intros Hclaim.
  specialize (Hclaim sampleOptions (sampleRecipe "Spinach Rice")
                (mkSelection (sampleRecipe "Spinach Rice") (sampleQuote "one"))).
  edestruct (generateRecipeFlow_selected disobedient sampleInput sampleOptions
               (sampleRecipe "Spinach Rice") (sampleQuote "one") eq_refl eq_refl)
    as (out & Hout & Hrec & _).
  specialize (Hclaim out eq_refl eq_refl eq_refl (or_introl eq_refl) eq_refl Hout Hrec
                (sampleRecipe "Rice Soup")).
  assert (collides String.eqb (seen_list (seenRecipeTitles sampleInput))
            (recipeName (sampleRecipe "Rice Soup")) = false) as Hfree by reflexivity.
  rewrite Hclaim in Hfree; [discriminate|]. simpl. auto.
Qed.

End RecipeFacts.

(** ** The media: images and audio *)

Section MediaFacts.

Import Passport.

(** The loops leave by their condition: the bound on the iterations
    unfolded is never what stops them. *)
Lemma loop_condition_false {A} (o : option A) (attempts bound : nat) :
  negb (is_set o) && (attempts <? bound)%nat = false ->
  is_set o = true \/ bound <= attempts.
Proof.
  destruct o; simpl; [auto|]. intros H. apply Nat.ltb_ge in H. auto.
Qed.

Lemma textLoop_exit (ai : Services) (flowInput : GenerateCulinaryPassportInput)
    (fuel : nat) (textOutput : option CulinaryPassportText) (textAttempts : nat)
    (o : option CulinaryPassportText) (a : nat) :
  maxTextAttempts <= textAttempts + fuel ->
  textLoop ai flowInput fuel textOutput textAttempts = Completed (o, a) ->
  is_set o = true \/ maxTextAttempts <= a.
Proof.
  revert textOutput textAttempts.
  induction fuel as [|fuel IH]; intros textOutput textAttempts Hfuel Hexit;
    cbn [textLoop] in Hexit.
  - injection Hexit as <- <-. right. lia.
  - destruct (negb (is_set textOutput) && (textAttempts <? maxTextAttempts)%nat) eqn:Hcond.
    + destruct (passportTextPrompt ai flowInput (S textAttempts)) as [output|[[m|]]];
        cbn [message] in Hexit; [eapply IH; [|exact Hexit]; lia | | discriminate].
      destruct (includes m "SAFETY"); [discriminate|].
      destruct (maxTextAttempts <=? S textAttempts)%nat; [discriminate|].
      eapply IH; [|exact Hexit]; lia.
    + injection Hexit as <- <-. apply loop_condition_false, Hcond.
Qed.

Lemma audioLoop_exit (ai : Services) (req : GenerateRequest)
    (fuel : nat) (media : option Media) (attempts : nat) (o : option Media) (a : nat) :
  maxAttempts <= attempts + fuel ->
  audioLoop ai req fuel media attempts = Completed (o, a) ->
  is_set o = true \/ maxAttempts <= a.
Proof.
  revert media attempts.
  induction fuel as [|fuel IH]; intros media attempts Hfuel Hexit;
    cbn [audioLoop] in Hexit.
  - injection Hexit as <- <-. right. lia.
  - destruct (negb (is_set media) && (attempts <? maxAttempts)%nat) eqn:Hcond.
    + destruct (generate ai req (S attempts)) as [m|e];
        [eapply IH; [|exact Hexit]; lia|].
      destruct (maxAttempts <=? S attempts)%nat; [discriminate|].
      eapply IH; [|exact Hexit]; lia.
    + injection Hexit as <- <-. apply loop_condition_false, Hcond.
Qed.

(** The image loop of the passport: between one and three attempts; it
    stops at the first attempt that carries media, and gives up after three
    failed ones. Three unfoldings are enough for it to leave by its
    condition. *)
Lemma imageLoop_attempts (ai : Services) (req : GenerateRequest) :
  let '(media, attempts) := imageLoop ai req maxAttempts None 0 in
  1 <= attempts <= 3
  /\ (is_set media = true \/ attempts = maxAttempts)
  /\ (forall k, 1 <= k < attempts -> failed (generate ai req k) = true)
  /\ match media with
     | Some m => generate ai req attempts = Fulfilled (Some m)
     | None => attempts = 3 /\ failed (generate ai req 3) = true
     end.
Proof.
  unfold maxAttempts. simpl.
  destruct (generate ai req 1) as [[m1|]|e1] eqn:H1; simpl.
  { repeat split; auto; intros; lia. }
  all: destruct (generate ai req 2) as [[m2|]|e2] eqn:H2; simpl.
  1, 4: repeat split; auto; intros k Hk; assert (k = 1) as -> by lia; rewrite H1; reflexivity.
  all: destruct (generate ai req 3) as [[m3|]|e3] eqn:H3; simpl.
  all: repeat split; auto;
    intros k Hk; assert (k = 1 \/ k = 2) as [-> | ->] by lia;
    rewrite ?H1, ?H2; reflexivity.
Qed.

Lemma imageLoop_all_failed (ai : Services) (req : GenerateRequest) :
  (forall k, 1 <= k <= 3 -> failed (generate ai req k) = true) ->
  imageLoop ai req maxAttempts None 0 = (None, 3).
Proof.
  intros Hall. unfold maxAttempts. simpl.
  pose proof (Hall 1 ltac:(lia)) as H1. pose proof (Hall 2 ltac:(lia)) as H2.
  pose proof (Hall 3 ltac:(lia)) as H3.
  destruct (generate ai req 1) as [[m1|]|e1]; try discriminate; simpl;
    destruct (generate ai req 2) as [[m2|]|e2]; try discriminate; simpl;
    destruct (generate ai req 3) as [[m3|]|e3]; try discriminate; reflexivity.
Qed.

Lemma audioLoop_all_failed (ai : Services) (req : GenerateRequest) :
  (forall k, 1 <= k <= 3 -> failed (generate ai req k) = true) ->
  audioLoop ai req maxAttempts None 0 = Returned ""
  \/ audioLoop ai req maxAttempts None 0 = Completed (None, 3).
Proof.
  intros Hall. unfold maxAttempts. simpl.
  pose proof (Hall 1 ltac:(lia)) as H1. pose proof (Hall 2 ltac:(lia)) as H2.
  pose proof (Hall 3 ltac:(lia)) as H3.
  destruct (generate ai req 1) as [[m1|]|e1]; try discriminate; simpl;
    destruct (generate ai req 2) as [[m2|]|e2]; try discriminate; simpl;
    destruct (generate ai req 3) as [[m3|]|e3]; try discriminate; auto.
Qed.

(** The image loop stops at the first attempt that carries media. *)
Lemma imageLoop_first_success (ai : Services) (req : GenerateRequest) (k : nat) (m : Media) :
  1 <= k <= 3 ->
  (forall j, 1 <= j < k -> failed (generate ai req j) = true) ->
  generate ai req k = Fulfilled (Some m) ->
  imageLoop ai req maxAttempts None 0 = (Some m, k).
Proof.
  intros Hk Hbefore Hgen. unfold maxAttempts.
  assert (k = 1 \/ k = 2 \/ k = 3) as [-> | [-> | ->]] by lia; simpl.
  - rewrite Hgen. reflexivity.
  - pose proof (Hbefore 1 ltac:(lia)) as H1.
    destruct (generate ai req 1) as [[m1|]|e1]; try discriminate; simpl;
      rewrite Hgen; reflexivity.
  - pose proof (Hbefore 1 ltac:(lia)) as H1. pose proof (Hbefore 2 ltac:(lia)) as H2.
    destruct (generate ai req 1) as [[m1|]|e1]; try discriminate; simpl;
      destruct (generate ai req 2) as [[m2|]|e2]; try discriminate; simpl;
      rewrite Hgen; reflexivity.
Qed.

(** Three attempts all fail, or one of them is the first to carry media. *)
Lemma first_success_or_all_failed (attempts : nat -> Settled (option Media)) :
  (forall k, 1 <= k <= 3 -> failed (attempts k) = true)
  \/ exists k m, 1 <= k <= 3
       /\ (forall j, 1 <= j < k -> failed (attempts j) = true)
       /\ attempts k = Fulfilled (Some m).
Proof.
  destruct (failed (attempts 1)) eqn:H1.
  - destruct (failed (attempts 2)) eqn:H2.
    + destruct (failed (attempts 3)) eqn:H3.
      * left. intros k Hk.
        assert (k = 1 \/ k = 2 \/ k = 3) as [-> | [-> | ->]] by lia; assumption.
      * right. destruct (attempts 3) as [[m|]|e] eqn:Hm; simpl in H3; try discriminate.
        exists 3, m. split; [lia|]. split; [|exact Hm]. intros j Hj.
        assert (j = 1 \/ j = 2) as [-> | ->] by lia; assumption.
    + right. destruct (attempts 2) as [[m|]|e] eqn:Hm; simpl in H2; try discriminate.
      exists 2, m. split; [lia|]. split; [|exact Hm]. intros j Hj.
      assert (j = 1) as -> by lia. assumption.
  - right. destruct (attempts 1) as [[m|]|e] eqn:Hm; simpl in H1; try discriminate.
    exists 1, m. split; [lia|]. split; [|exact Hm]. intros j Hj. lia.
Qed.

(** The audio loop never throws: it returns the empty string or gives up
    after three failed attempts, or it stops at the first attempt that
    carries media. *)
Lemma audioLoop_cases (ai : Services) (req : GenerateRequest) :
  ((forall k, 1 <= k <= 3 -> failed (generate ai req k) = true)
   /\ (audioLoop ai req maxAttempts None 0 = Returned ""
       \/ audioLoop ai req maxAttempts None 0 = Completed (None, 3)))
  \/ exists k m, 1 <= k <= 3
       /\ generate ai req k = Fulfilled (Some m)
       /\ audioLoop ai req maxAttempts None 0 = Completed (Some m, k).
Proof.
  destruct (first_success_or_all_failed (generate ai req))
    as [Hall | (k & m & Hk & Hbefore & Hgen)].
  - left. split; [exact Hall | apply audioLoop_all_failed, Hall].
  - right. exists k, m. split; [exact Hk|]. split; [exact Hgen|]. unfold maxAttempts.
    assert (k = 1 \/ k = 2 \/ k = 3) as [-> | [-> | ->]] by lia; simpl.
    + rewrite Hgen. reflexivity.
    + pose proof (Hbefore 1 ltac:(lia)) as H1.
      destruct (generate ai req 1) as [[m1|]|e1]; try discriminate; simpl;
        rewrite Hgen; reflexivity.
    + pose proof (Hbefore 1 ltac:(lia)) as H1. pose proof (Hbefore 2 ltac:(lia)) as H2.
      destruct (generate ai req 1) as [[m1|]|e1]; try discriminate; simpl;
        destruct (generate ai req 2) as [[m2|]|e2]; try discriminate; simpl;
        rewrite Hgen; reflexivity.
Qed.

(** The audio of the chef card is an error only when the conversion of
    the audio generated throws. *)
Lemma audioPromise_rejected (ai : Services) (textOutput : CulinaryPassportText) (e : JsError) :
  audioPromise ai textOutput = Rejected e ->
  exists k m, 1 <= k <= 3
    /\ generate ai (mkRequest TTS_MODEL (chefCardMessage textOutput)) k = Fulfilled (Some m)
    /\ toWav ai (payload (url m)) = Rejected e.
Proof.
  unfold audioPromise. destruct (truthy (chefCardMessage textOutput)); [|discriminate].
  cbn [negb].
  destruct (audioLoop_cases ai (mkRequest TTS_MODEL (chefCardMessage textOutput)))
    as [[_ [-> | ->]] | (k & m & Hk & Hgen & ->)]; try discriminate.
  cbn [url_or_empty]. rewrite or_else_empty.
  destruct (truthy (url m)); [|discriminate]. cbn [negb].
  destruct (toWav ai (payload (url m))) as [wav|e'] eqn:Hwav; [discriminate|].
  intros [= ->]. exists k, m. auto.
Qed.

Lemma generateCulinaryPassport_with_text (ai : Services)
    (input : GenerateCulinaryPassportInput) (apiKey : string)
    (textOutput : CulinaryPassportText) (textAttempts : nat) :
  apiKey <> "" ->
  textLoop ai input maxTextAttempts None 0 = Completed (Some textOutput, textAttempts) ->
  generateCulinaryPassport ai input apiKey
  = match audioPromise ai textOutput with
    | Fulfilled chefCardAudioUri =>
        Fulfilled (Output.mk (map (imagePromise ai input) (recommendations textOutput))
                     (chefCardMessage textOutput) chefCardAudioUri)
    | Rejected e => Rejected e
    end.
Proof.
  intros Hkey Htext. unfold generateCulinaryPassport.
  apply truthy_true_nonempty in Hkey. rewrite Hkey. simpl.
  unfold culinaryPassportFlow. rewrite Htext. reflexivity.
Qed.

(** C4, as the code has it. The photo of a passport recommendation is
    requested between one and three times: after three failed attempts the
    loop gives up and the field is empty; at the first attempt that carries
    media the loop stops and the field is that media's URL; so the field is
    empty only after three failed attempts or with media whose URL is
    empty. The photo of the selected recipe is requested once: the field is
    empty when the first attempt failed, whatever later attempts would give,
    and the URL of the media of the first attempt otherwise. *)
Theorem image_attempts_passport_three_recipe_one :
  (forall (ai : Services) (flowInput : GenerateCulinaryPassportInput)
          (rec : DishRecommendation),
      let req := imageRequest flowInput rec in
      let photo := photoDataUri (imagePromise ai flowInput rec) in
      ((forall k, 1 <= k <= 3 -> failed (generate ai req k) = true) ->
         imageLoop ai req maxAttempts None 0 = (None, 3) /\ photo = "")
      /\ (forall k m,
            1 <= k <= 3 ->
            (forall j, 1 <= j < k -> failed (generate ai req j) = true) ->
            generate ai req k = Fulfilled (Some m) ->
            imageLoop ai req maxAttempts None 0 = (Some m, k) /\ photo = url m)
      /\ (photo = "" ->
          (forall k, 1 <= k <= 3 -> failed (generate ai req k) = true)
          \/ exists k m,
               1 <= k <= 3
               /\ (forall j, 1 <= j < k -> failed (generate ai req j) = true)
               /\ generate ai req k = Fulfilled (Some m)
               /\ url m = ""))
  /\ (forall (ai : Recipe.Services) (input : Recipe.GenerateRecipeInput) (apiKey : string)
             (optionsOutput : Recipe.GenerateRecipeOptionsOutput)
             (r : Recipe.RecipeOption) (q : Recipe.QuoteOption),
        apiKey <> "" ->
        Recipe.generateOptionsPrompt ai input = Fulfilled (Some optionsOutput) ->
        Recipe.selectStep ai optionsOutput input = Some (Some r, Some q) ->
        let req := Recipe.imageRequest (Recipe.recipeName r) in
        exists out,
          Recipe.generateRecipe ai input apiKey = Fulfilled (Some out)
          /\ Recipe.isRecipe out r
          /\ (failed (Recipe.generate ai req 1) = true -> Recipe.Output.photoDataUri out = "")
          /\ (forall m, Recipe.generate ai req 1 = Fulfilled (Some m) ->
                Recipe.Output.photoDataUri out = url m)).
Proof.
  split.
  - intros ai flowInput rec req photo.
    assert (forall k m,
              1 <= k <= 3 ->
              (forall j, 1 <= j < k -> failed (generate ai req j) = true) ->
              generate ai req k = Fulfilled (Some m) ->
              imageLoop ai req maxAttempts None 0 = (Some m, k) /\ photo = url m) as Hsuccess.
    { intros k m Hk Hbefore Hgen.
      pose proof (imageLoop_first_success ai req k m Hk Hbefore Hgen) as Hloop.
      split; [exact Hloop|]. unfold photo, imagePromise. fold req. rewrite Hloop.
      simpl. apply or_else_empty. }
    split; [|split; [exact Hsuccess|]].
    + intros Hall. pose proof (imageLoop_all_failed ai req Hall) as Hloop.
      split; [exact Hloop|]. unfold photo, imagePromise. fold req. rewrite Hloop.
      reflexivity.
    + intros Hphoto.
      destruct (first_success_or_all_failed (generate ai req))
        as [Hall | (k & m & Hk & Hbefore & Hgen)]; [left; exact Hall|].
      right. exists k, m. repeat split; try assumption; try lia.
      destruct (Hsuccess k m Hk Hbefore Hgen) as [_ Hurl]. congruence.
  - intros ai input apiKey optionsOutput r q Hkey Hoptions Hselect req.
    destruct (generateRecipeFlow_selected ai input optionsOutput r q Hoptions Hselect)
      as (out & Hout & Hrec & _ & Hphoto).
    exists out. rewrite generateRecipe_with_key by exact Hkey.
    split; [exact Hout|]. split; [exact Hrec|].
    rewrite Hphoto. unfold Recipe.imageStep. fold req.
    destruct (Recipe.generate ai req 1) as [[m|]|e]; simpl; split;
      intros; try discriminate; try reflexivity.
    match goal with H : Fulfilled _ = Fulfilled _ |- _ => injection H as <- end.
    apply or_else_empty.
Qed.

(** C4, counterexample: the recipe's image call fails at the first attempt
    and would succeed at the second; the photo is given up all the same. *)
Lemma recipe_image_given_up_after_one_attempt :
  ~ givenUpAfterThreeAttempts
      (Recipe.generate Recipe.stage2Down
         (Recipe.imageRequest (Recipe.recipeName (Recipe.sampleRecipe "Spinach Rice"))))
      (Recipe.imageStep Recipe.stage2Down (Some (Recipe.sampleRecipe "Spinach Rice"))).
Proof.
  unfold givenUpAfterThreeAttempts. intros Hclaim.
  specialize (Hclaim eq_refl 2 ltac:(lia)). discriminate.
Qed.

(** C5. A media failure is not an error of the operation. In the
    passport, once the text is there: when the audio step gives an audio
    (empty or not), the operation returns the passport with that audio, one
    entry for each recommendation, and the empty string for the photo of
    every recommendation whose three image attempts failed; when the three
    audio attempts fail, the operation returns the passport with the empty
    string for its audio; and the operation throws only when the conversion
    of an audio that was generated throws. In the recipe flow, a failed
    image attempt returns the selected recipe with the empty string for its
    photo. *)
Theorem media_failure_leaves_field_empty :
  (forall (ai : Services) (input : GenerateCulinaryPassportInput) (apiKey : string)
          (textOutput : CulinaryPassportText) (textAttempts : nat),
      apiKey <> "" ->
      textLoop ai input maxTextAttempts None 0 = Completed (Some textOutput, textAttempts) ->
      let audioRequest := mkRequest TTS_MODEL (chefCardMessage textOutput) in
      (forall audio,
         audioPromise ai textOutput = Fulfilled audio ->
         exists out,
           generateCulinaryPassport ai input apiKey = Fulfilled out
           /\ map dish (Output.recommendations out) = recommendations textOutput
           /\ Output.chefCardMessage out = chefCardMessage textOutput
           /\ Output.chefCardAudioUri out = audio
           /\ forall rec,
                In rec (recommendations textOutput) ->
                (forall k, 1 <= k <= 3 ->
                   failed (generate ai (imageRequest input rec) k) = true) ->
                In (mkDishWithPhoto rec "") (Output.recommendations out))
      /\ ((forall k, 1 <= k <= 3 -> failed (generate ai audioRequest k) = true) ->
          generateCulinaryPassport ai input apiKey
          = Fulfilled (Output.mk (map (imagePromise ai input) (recommendations textOutput))
                         (chefCardMessage textOutput) ""))
      /\ (forall e,
            generateCulinaryPassport ai input apiKey = Rejected e ->
            exists k m,
              1 <= k <= 3
              /\ generate ai audioRequest k = Fulfilled (Some m)
              /\ toWav ai (payload (url m)) = Rejected e))
  /\ (forall (ai : Recipe.Services) (input : Recipe.GenerateRecipeInput) (apiKey : string)
             (optionsOutput : Recipe.GenerateRecipeOptionsOutput)
             (r : Recipe.RecipeOption) (q : Recipe.QuoteOption),
        apiKey <> "" ->
        Recipe.generateOptionsPrompt ai input = Fulfilled (Some optionsOutput) ->
        Recipe.selectStep ai optionsOutput input = Some (Some r, Some q) ->
        failed (Recipe.generate ai (Recipe.imageRequest (Recipe.recipeName r)) 1) = true ->
        exists out,
          Recipe.generateRecipe ai input apiKey = Fulfilled (Some out)
          /\ Recipe.isRecipe out r /\ Recipe.isQuote out q
          /\ Recipe.Output.photoDataUri out = "").
Proof.
  split.
  - intros ai input apiKey textOutput textAttempts Hkey Htext audioRequest.
    subst audioRequest.
    rewrite (generateCulinaryPassport_with_text ai input apiKey textOutput textAttempts
               Hkey Htext).
    split; [|split].
    + intros audio ->. eexists. split; [reflexivity|]. cbn [Output.recommendations
        Output.chefCardMessage Output.chefCardAudioUri].
      split; [|split; [reflexivity|split; [reflexivity|]]].
      * rewrite List.map_map.
        transitivity (map (fun rec => rec) (recommendations textOutput));
          [apply List.map_ext | apply List.map_id].
        intros rec. unfold imagePromise.
        destruct (imageLoop ai (imageRequest input rec) maxAttempts None 0). reflexivity.
      * intros rec Hrec Hall. apply in_map_iff. exists rec. split; [|exact Hrec].
        unfold imagePromise. rewrite imageLoop_all_failed by exact Hall. reflexivity.
    + intros Hall.
      assert (audioPromise ai textOutput = Fulfilled "") as ->; [|reflexivity].
      unfold audioPromise. destruct (truthy (chefCardMessage textOutput)); [|reflexivity].
      cbn [negb]. destruct (audioLoop_all_failed ai _ Hall) as [-> | ->]; reflexivity.
    + intros e He.
      destruct (audioPromise ai textOutput) as [audio|e'] eqn:Haudio; [discriminate|].
      injection He as ->. exact (audioPromise_rejected ai textOutput e Haudio).
  - intros ai input apiKey optionsOutput r q Hkey Hoptions Hselect Hfailed.
    destruct (generateRecipeFlow_selected ai input optionsOutput r q Hoptions Hselect)
      as (out & Hout & Hrec & Hquo & Hphoto).
    exists out. rewrite generateRecipe_with_key by exact Hkey.
    repeat split; try assumption; try apply Hrec; try apply Hquo.
    rewrite Hphoto. unfold Recipe.imageStep.
    destruct (Recipe.generate ai _ 1) as [[m|]|e]; [discriminate| |]; reflexivity.
Qed.

End MediaFacts.

(** ** The shopping list *)

Section ShoppingListFacts.

Import ShoppingList.

Lemma Set_has_In (s : list string) (x : string) : Set_has s x = true <-> In x s.
Proof.
  unfold Set_has. rewrite existsb_exists. split.
  - intros (y & Hy & Heq). apply String.eqb_eq in Heq. congruence.
  - intros Hx. exists x. split; [exact Hx | apply String.eqb_refl].
Qed.

Lemma filter_swap {A} (p q : A -> bool) (l : list A) :
  List.filter p (List.filter q l) = List.filter q (List.filter p l).
Proof.
  induction l as [|y t IH]; simpl; [reflexivity|].
  destruct (p y) eqn:Hp, (q y) eqn:Hq; simpl; rewrite ?Hp, ?Hq, IH; reflexivity.
Qed.

Lemma filter_both {A} (p q : A -> bool) (l : list A) :
  List.filter p (List.filter q l) = List.filter (fun y => q y && p y) l.
Proof.
  induction l as [|y t IH]; simpl; [reflexivity|].
  destruct (q y) eqn:Hq; simpl; [destruct (p y)|]; rewrite IH; reflexivity.
Qed.

Lemma filter_dropped (keep : string -> bool) (x : string) (l : list string) :
  keep x = false ->
  List.filter keep (List.filter (fun y => negb (String.eqb x y)) l) = List.filter keep l.
Proof.
  intros Hx. induction l as [|y t IH]; simpl; [reflexivity|].
  destruct (String.eqb_spec x y) as [<- | Hne]; simpl.
  - rewrite Hx. exact IH.
  - rewrite IH. reflexivity.
Qed.

Lemma dedup_first_filter (keep : string -> bool) (l : list string) :
  dedup_first (List.filter keep l) = List.filter keep (dedup_first l).
Proof.
  induction l as [|x r IH]; simpl; [reflexivity|].
  destruct (keep x) eqn:Hx; simpl; rewrite IH.
  - f_equal. apply filter_swap.
  - symmetry. apply filter_dropped, Hx.
Qed.

(** Adding to a set that holds [acc] already: the elements of [acc] are
    skipped, the others come after, each at its first occurrence. *)
Lemma fold_Set_add (l acc : list string) :
  fold_left Set_add l acc
  = acc ++ dedup_first (List.filter (fun y => negb (Set_has acc y)) l).
Proof.
  revert acc. induction l as [|x r IH]; intros acc; simpl.
  - rewrite app_nil_r. reflexivity.
  - unfold Set_add at 2. destruct (Set_has acc x) eqn:Hx; simpl.
    + apply IH.
    + rewrite IH, <- app_assoc. simpl. do 2 f_equal.
      rewrite <- dedup_first_filter, filter_both. f_equal.
      apply filter_ext. intros y. unfold Set_has. rewrite existsb_app. simpl.
      rewrite orb_false_r, negb_orb, (String.eqb_sym y x). reflexivity.
Qed.

Lemma new_Set_dedup_first (l : list string) : new_Set l = dedup_first l.
Proof.
  unfold new_Set. rewrite fold_Set_add. simpl. f_equal.
  induction l as [|x r IH]; simpl; congruence.
Qed.

(** What comes later is kept only where it is new. *)
Lemma new_Set_app (l1 l2 : list string) :
  new_Set (l1 ++ l2)
  = new_Set l1 ++ dedup_first (List.filter (fun y => negb (Set_has (new_Set l1) y)) l2).
Proof. unfold new_Set. rewrite fold_left_app. apply fold_Set_add. Qed.

Lemma dedup_first_In (l : list string) (x : string) : In x (dedup_first l) <-> In x l.
Proof.
  induction l as [|y r IH]; simpl; [tauto|].
  rewrite filter_In, IH. destruct (String.eqb_spec y x) as [-> | Hne]; simpl.
  - tauto.
  - split; [tauto|]. intros [H | H]; [tauto | right; auto].
Qed.

Lemma dedup_first_NoDup (l : list string) : List.NoDup (dedup_first l).
Proof.
  induction l as [|x r IH]; simpl; constructor.
  - rewrite filter_In. intros [_ Hx]. rewrite String.eqb_refl in Hx. discriminate.
  - apply List.NoDup_filter, IH.
Qed.

Lemma filter_sublist {A} (keep : A -> bool) (l : list A) : List.filter keep l `sublist_of` l.
Proof.
  induction l as [|x r IH]; simpl; [constructor|].
  destruct (keep x); [apply sublist_skip | apply sublist_cons]; exact IH.
Qed.

Lemma dedup_first_sublist (l : list string) : dedup_first l `sublist_of` l.
Proof.
  induction l as [|x r IH]; simpl; [constructor|].
  apply sublist_skip. etransitivity; [apply filter_sublist | exact IH].
Qed.

(** C7. The text downloaded, from the recipe card and from the weekly
    plan, is the de-duplicated list joined with line feeds, where the
    de-duplicated list keeps each ingredient at its first occurrence: it
    has no duplicates, holds the ingredients of the input, in the order of
    the input. *)
Theorem download_is_joined_dedup (ingredients : list string) :
  textContent (handleDownloadShoppingList ingredients)
    = join LF (dedup_first ingredients)
  /\ textContent (handleDownloadShoppingList_weekly ingredients)
     = join LF (dedup_first ingredients)
  /\ List.NoDup (dedup_first ingredients)
  /\ (forall x, In x (dedup_first ingredients) <-> In x ingredients)
  /\ dedup_first ingredients `sublist_of` ingredients.
Proof.
  unfold handleDownloadShoppingList, handleDownloadShoppingList_weekly. simpl.
  rewrite new_Set_dedup_first.
  repeat split; try reflexivity.
  - apply dedup_first_NoDup.
  - apply dedup_first_In.
  - apply dedup_first_In.
  - apply dedup_first_sublist.
Qed.

End ShoppingListFacts.

(** ** The recipe form *)

Section RecipeFormFacts.

Import RecipeForm.

Lemma noIngredientSignal_blank (data : RecipeFormValues) (ingredientPhoto : option string) :
  availableIngredients data = [] ->
  blank (additionalIngredients data) ->
  ingredientPhoto = None ->
  noIngredientSignal data ingredientPhoto = true.
Proof.
  intros Hlist Hblank ->. unfold noIngredientSignal. rewrite Hlist. simpl.
  destruct (additionalIngredients data) as [s|]; [|reflexivity].
  simpl in Hblank. rewrite (trim_whitespace s Hblank). simpl.
  rewrite orb_true_r. reflexivity.
Qed.

(** C6. A submission with an empty checklist, a free text that is missing,
    empty or white space only, and no photo is blocked: the handler sets the
    error of the field [availableIngredients] and does nothing else, so no
    generation request is issued. *)
Theorem onSubmit_blocked_without_ingredients (ai : Recipe.Services) (ctx : Context)
    (ingredientPhoto : option string) (data : RecipeFormValues) :
  availableIngredients data = [] ->
  blank (additionalIngredients data) ->
  ingredientPhoto = None ->
  onSubmit ai ctx ingredientPhoto data
    = [FormSetError "availableIngredients" "manual" MISSING_INGREDIENTS_MESSAGE]
  /\ existsb is_generation_call (onSubmit ai ctx ingredientPhoto data) = false.
Proof.
  intros Hlist Hblank Hphoto. unfold onSubmit.
  rewrite (noIngredientSignal_blank data ingredientPhoto Hlist Hblank Hphoto).
  split; reflexivity.
Qed.

(** With an ingredient on the checklist and a key, the handler does issue
    the request. *)
Lemma onSubmit_calls_with_ingredients (ai : Recipe.Services) (ctx : Context)
    (ingredientPhoto : option string) (data : RecipeFormValues) (key : string) :
  availableIngredients data <> [] ->
  apiKey ctx = Some key -> key <> "" ->
  existsb is_generation_call (onSubmit ai ctx ingredientPhoto data) = true.
Proof.
  intros Hlist Hctx Hkey. unfold onSubmit, noIngredientSignal.
  destruct (availableIngredients data) as [|x l]; [congruence|]. simpl.
  rewrite Hctx. apply truthy_true_nonempty in Hkey. rewrite Hkey. reflexivity.
Qed.

End RecipeFormFacts.

(** ** The theorems at sample inputs *)

Lemma addSeenQuote_repeated_key_sample :
  AppContext.seenQuotes
    (AppContext.addSeenQuote AppContext.sampleParse AppContext.sampleStringify "Stay hungry"
       (AppContext.addSeenQuote AppContext.sampleParse AppContext.sampleStringify
          "Stay hungry" AppContext.initialState))
  = [JStr "Stay hungry"; JStr "Stay hungry"]
  /\ ~ NoDup
        (AppContext.seenQuotes
           (AppContext.addSeenQuote AppContext.sampleParse AppContext.sampleStringify
              "Stay hungry"
              (AppContext.addSeenQuote AppContext.sampleParse AppContext.sampleStringify
                 "Stay hungry" AppContext.initialState))).
Proof.
  apply (addSeenQuote_repeated_key_stored_twice AppContext.sampleParse
           AppContext.sampleStringify "Stay hungry" AppContext.initialState);
    reflexivity.
Defined.

Lemma record_capped_newest_first_sample :
  AppContext.recorded AppContext.sampleStringify AppContext.SEEN_PASSPORT_DISHES_KEY
    [JStr "Kyoto|Yudofu"]
    (AppContext.seenPassportDishes
       (AppContext.addSeenPassportDishes AppContext.sampleParse AppContext.sampleStringify
          [Passport.mkDishWithPhoto Passport.yudofu ""] "Kyoto" AppContext.verifiedState))
    (AppContext.localStorage
       (AppContext.addSeenPassportDishes AppContext.sampleParse AppContext.sampleStringify
          [Passport.mkDishWithPhoto Passport.yudofu ""] "Kyoto" AppContext.verifiedState)).
Proof.
  destruct (record_capped_newest_first AppContext.sampleParse AppContext.sampleStringify
              "Stay hungry" [Passport.mkDishWithPhoto Passport.yudofu ""] "Kyoto"
              AppContext.verifiedState) as (_ & _ & _ & Hdishes).
  apply Hdishes. unfold AppContext.MAX_SEEN_ITEMS. simpl. lia.
Defined.

Lemma stage2_throw_falls_back_sample :
  (forall e,
     Recipe.validateAndSelectPrompt Recipe.stage2Down
       (Recipe.selectInput Recipe.sampleOptions Recipe.sampleInput) = Rejected e ->
     exists r q out,
       Recipe.recipeOptions Recipe.sampleOptions !! 0 = Some r
       /\ Recipe.quoteOptions Recipe.sampleOptions !! 0 = Some q
       /\ Recipe.generateRecipe Recipe.stage2Down Recipe.sampleInput "key-1"
          = Fulfilled (Some out)
       /\ Recipe.isRecipe out r /\ Recipe.isQuote out q)
  /\ (Recipe.validateAndSelectPrompt Recipe.stage2Down
        (Recipe.selectInput Recipe.sampleOptions Recipe.sampleInput) = Fulfilled None ->
      Recipe.generateRecipe Recipe.stage2Down Recipe.sampleInput "key-1" = Fulfilled None).
Proof.
  apply (stage2_throw_falls_back_silence_returns_null Recipe.stage2Down Recipe.sampleInput
           "key-1" Recipe.sampleOptions);
    [discriminate | reflexivity | reflexivity | reflexivity].
Defined.

Lemma image_attempts_sample :
  exists out,
    Recipe.generateRecipe Recipe.stage2Down Recipe.sampleInput "key-1" = Fulfilled (Some out)
    /\ Recipe.isRecipe out (Recipe.sampleRecipe "Spinach Rice")
    /\ Recipe.Output.photoDataUri out = "".
Proof.
  destruct image_attempts_passport_three_recipe_one as [_ Hrecipe].
  destruct (Hrecipe Recipe.stage2Down Recipe.sampleInput "key-1" Recipe.sampleOptions
              (Recipe.sampleRecipe "Spinach Rice") (Recipe.sampleQuote "one"))
    as (out & Hout & Hrec & Hempty & _);
    [discriminate | reflexivity | reflexivity |].
  exists out. split; [exact Hout|]. split; [exact Hrec|]. apply Hempty. reflexivity.
Defined.

Lemma media_failure_sample :
  exists out,
    Passport.generateCulinaryPassport Passport.imagesDown Passport.sampleInput "key-1"
    = Fulfilled out
    /\ map Passport.dish (Passport.Output.recommendations out)
       = Passport.recommendations Passport.sampleText
    /\ Passport.Output.chefCardMessage out = Passport.chefCardMessage Passport.sampleText
    /\ Passport.Output.chefCardAudioUri out = "data:audio/wav;base64,UklGRiQAAABXQVZF"
    /\ In (Passport.mkDishWithPhoto Passport.yudofu "") (Passport.Output.recommendations out).
Proof.
  destruct media_failure_leaves_field_empty as [Hpassport _].
  destruct (Hpassport Passport.imagesDown Passport.sampleInput "key-1" Passport.sampleText 1)
    as (Himages & _); [discriminate | reflexivity |].
  destruct (Himages "data:audio/wav;base64,UklGRiQAAABXQVZF" eq_refl)
    as (out & Hout & Hdishes & Hmessage & Haudio & Hphotos).
  exists out. repeat split; try assumption.
  apply Hphotos; [simpl; auto | intros k Hk; reflexivity].
Defined.

Lemma onSubmit_blocked_sample :
  RecipeForm.onSubmit Recipe.obedient RecipeForm.sampleContext None RecipeForm.blankValues
  = [RecipeForm.FormSetError "availableIngredients" "manual"
       RecipeForm.MISSING_INGREDIENTS_MESSAGE]
  /\ existsb RecipeForm.is_generation_call
       (RecipeForm.onSubmit Recipe.obedient RecipeForm.sampleContext None
          RecipeForm.blankValues) = false.
Proof.
  apply (onSubmit_blocked_without_ingredients Recipe.obedient RecipeForm.sampleContext None
           RecipeForm.blankValues); [reflexivity | | reflexivity].
  exists [" "; bytes [194; 160]; bytes [227; 128; 128]].
  split; [|reflexivity].
  repeat (constructor; [apply listed_white_space; reflexivity|]). constructor.
Defined.

Lemma selection_avoids_seen_first_sample :
  exists out,
    Recipe.generateRecipe Recipe.obedient Recipe.sampleInput "key-1" = Fulfilled (Some out)
    /\ Recipe.isRecipe out (Recipe.sampleRecipe "Rice Soup")
    /\ (Recipe.Output.recipeName out = "Spinach Rice" ->
        forall c, In c (Recipe.recipeOptions Recipe.sampleOptions) ->
          Recipe.collides String.eqb ["Spinach Rice"] (Recipe.recipeName c) = true).
Proof.
  destruct (selection_avoids_seen_first_when_prompt_followed String.eqb Recipe.obedient
              Recipe.sampleInput "key-1" Recipe.sampleOptions
              (Recipe.sampleRecipe "Spinach Rice")
              (Recipe.mkSelection (Recipe.sampleRecipe "Rice Soup") (Recipe.sampleQuote "one")))
    as (out & Hout & Hrec & Hrule);
    [apply String.eqb_refl | discriminate | reflexivity | reflexivity
    | simpl; auto | reflexivity |].
  exists out. split; [exact Hout|]. split; [exact Hrec|]. apply Hrule. reflexivity.
Defined.

Lemma generateCaptcha_sample :
  exists (c : Captcha.GenerateCaptchaOutput) (x y v : Z) (op : string),
    Captcha.generateCaptcha "key-1" (3 # 10) (9 # 10) (1 # 2) = Fulfilled (Some c)
    /\ Captcha.read_question (Captcha.question c) = Some (x, op, y)
    /\ Captcha.apply_operation op x y = Some v
    /\ Captcha.expression_value (Captcha.question c) = Some v
    /\ Captcha.answer c = String_of_number v
    /\ (0 <= v)%Z /\ (1 <= x <= 10)%Z /\ (1 <= y <= 10)%Z.
Proof.
  apply (generateCaptcha_answer_is_value "key-1" (3 # 10) (9 # 10) (1 # 2));
    [discriminate | discriminate | reflexivity | discriminate | reflexivity
    | discriminate | reflexivity].
Defined.

(** * More properties *)

(** ** Strings *)

Local Arguments whitespace1 : simpl never.
Local Arguments whitespace2 : simpl never.
Local Arguments whitespace3 : simpl never.
Local Arguments includes : simpl never.

Section DropLeading.

Variable w1 : ascii -> bool.
Variable w2 : ascii -> ascii -> bool.
Variable w3 : ascii -> ascii -> ascii -> bool.

Local Abbreviation drop := (dropLeading w1 w2 w3).

Lemma dropLeading_step (c1 : ascii) (r1 : list ascii) :
  drop (c1 :: r1)
  = if w1 c1 then drop r1
    else match r1 with
         | [] => [c1]
         | c2 :: r2 =>
             if w2 c1 c2 then drop r2
             else match r2 with
                  | [] => [c1; c2]
                  | c3 :: r3 => if w3 c1 c2 c3 then drop r3 else c1 :: c2 :: c3 :: r3
                  end
         end.
Proof. destruct r1 as [|c2 [|c3 r3]]; reflexivity. Qed.

(** What is left is the end of the list. *)
Lemma dropLeading_suffix (l : list ascii) : exists p, l = p ++ drop l.
Proof.
  assert (forall n l, length l <= n -> exists p, l = p ++ drop l) as Hall;
    [|exact (Hall (length l) l (le_n _))].
  clear l. induction n as [|n IH]; intros l Hn.
  { destruct l; [exists []; reflexivity | simpl in Hn; lia]. }
  destruct l as [|c1 r1]; [exists []; reflexivity|]. simpl in Hn.
  rewrite dropLeading_step. destruct (w1 c1).
  { destruct (IH r1 ltac:(lia)) as [p Hp]. exists (c1 :: p). simpl. congruence. }
  destruct r1 as [|c2 r2]; [exists []; reflexivity|]. simpl in Hn.
  destruct (w2 c1 c2).
  { destruct (IH r2 ltac:(lia)) as [p Hp]. exists (c1 :: c2 :: p). simpl. congruence. }
  destruct r2 as [|c3 r3]; [exists []; reflexivity|]. simpl in Hn.
  destruct (w3 c1 c2 c3); [|exists []; reflexivity].
  destruct (IH r3 ltac:(lia)) as [p Hp]. exists (c1 :: c2 :: c3 :: p). simpl. congruence.
Qed.

Lemma dropLeading_length (l : list ascii) : length (drop l) <= length l.
Proof.
  destruct (dropLeading_suffix l) as [p Hp]. rewrite Hp at 2.
  rewrite List.length_app. lia.
Qed.

Lemma dropLeading_In (l : list ascii) (x : ascii) : In x (drop l) -> In x l.
Proof.
  destruct (dropLeading_suffix l) as [p Hp]. rewrite Hp at 2.
  intros Hx. apply in_or_app. auto.
Qed.

(** Code points of one byte at the head are removed. *)
Lemma dropLeading_pad (pad r : list ascii) :
  forallb w1 pad = true -> drop (pad ++ r) = drop r.
Proof.
  induction pad as [|c pad IH]; [reflexivity|].
  intros H. apply andb_prop in H as [Hc Hpad].
  change ((c :: pad) ++ r) with (c :: (pad ++ r)).
  rewrite dropLeading_step, Hc. auto.
Qed.

(** A byte that starts none of the code points stays, with what follows. *)
Lemma dropLeading_head (c : ascii) (r : list ascii) :
  w1 c = false -> (forall c2, w2 c c2 = false) -> (forall c2 c3, w3 c c2 c3 = false) ->
  drop (c :: r) = c :: r.
Proof.
  intros H1 H2 H3. rewrite dropLeading_step, H1.
  destruct r as [|c2 [|c3 r3]]; rewrite ?H2, ?H3; reflexivity.
Qed.

Lemma dropLeading_idempotent (l : list ascii) : drop (drop l) = drop l.
Proof.
  assert (forall n l, length l <= n -> drop (drop l) = drop l) as Hall;
    [|exact (Hall (length l) l (le_n _))].
  clear l. induction n as [|n IH]; intros l Hn.
  { destruct l; [reflexivity | simpl in Hn; lia]. }
  destruct l as [|c1 r1]; [reflexivity|]. simpl in Hn.
  rewrite (dropLeading_step c1 r1). destruct (w1 c1) eqn:H1; [apply IH; lia|].
  destruct r1 as [|c2 r2]; [rewrite dropLeading_step, H1; reflexivity|]. simpl in Hn.
  destruct (w2 c1 c2) eqn:H2; [apply IH; lia|].
  destruct r2 as [|c3 r3]; [rewrite dropLeading_step, H1, H2; reflexivity|]. simpl in Hn.
  destruct (w3 c1 c2 c3) eqn:H3; [apply IH; lia|].
  rewrite dropLeading_step, H1, H2, H3. reflexivity.
Qed.

(** The head of a list that [drop] leaves alone is left alone as well. *)
Lemma dropLeading_prefix (a b : list ascii) : drop (a ++ b) = a ++ b -> drop a = a.
Proof.
  assert (forall x y, drop x = y -> length y <= length x) as Hshorter.
  { intros x y <-. apply dropLeading_length. }
  destruct a as [|c1 r1]; [reflexivity|].
  change ((c1 :: r1) ++ b) with (c1 :: (r1 ++ b)).
  rewrite !dropLeading_step. destruct (w1 c1).
  { intros H. apply Hshorter in H. simpl in H. lia. }
  destruct r1 as [|c2 r2]; [reflexivity|].
  simpl. destruct (w2 c1 c2).
  { intros H. apply Hshorter in H. simpl in H. lia. }
  destruct r2 as [|c3 r3]; [reflexivity|].
  simpl. destruct (w3 c1 c2 c3); [|reflexivity].
  intros H. apply Hshorter in H. simpl in H. lia.
Qed.

End DropLeading.

(** An ordinary byte starts no white space, and ends none. *)
Lemma ordinary_starts_none (c : ascii) :
  ordinary c = true ->
  whitespace1 c = false
  /\ (forall c2, whitespace2 c c2 = false)
  /\ (forall c2 c3, whitespace3 c c2 c3 = false).
Proof.
  unfold ordinary. intros H. apply andb_prop in H as [Hlow Hplain].
  apply Nat.ltb_lt in Hlow. apply negb_true_iff in Hplain.
  assert (forall n, 128 <= n -> Nat.eqb (code c) n = false) as Hne.
  { intros n Hn. apply Nat.eqb_neq. lia. }
  split; [exact Hplain|]. split.
  - intros c2. unfold whitespace2. rewrite (Hne 194) by lia. reflexivity.
  - intros c2 c3. unfold whitespace3.
    rewrite (Hne 225), (Hne 226), (Hne 227), (Hne 239) by lia. reflexivity.
Qed.

Lemma ordinary_ends_none (c : ascii) :
  ordinary c = true ->
  whitespace1 c = false
  /\ (forall c2, whitespace2 c2 c = false)
  /\ (forall c2 c3, whitespace3 c3 c2 c = false).
Proof.
  unfold ordinary. intros H. apply andb_prop in H as [Hlow Hplain].
  apply Nat.ltb_lt in Hlow. apply negb_true_iff in Hplain.
  assert (forall n, 128 <= n -> Nat.eqb (code c) n = false) as Hne.
  { intros n Hn. apply Nat.eqb_neq. lia. }
  assert (Nat.leb 128 (code c) = false) as Hle by (apply Nat.leb_gt; lia).
  split; [exact Hplain|]. split.
  - intros c2. unfold whitespace2. rewrite (Hne 160) by lia. apply andb_false_r.
  - intros c2 c3. unfold whitespace3.
    rewrite (Hne 128), (Hne 168), (Hne 169), (Hne 175), (Hne 159), (Hne 191), Hle by lia.
    rewrite !andb_false_r. reflexivity.
Qed.

Lemma forallb_rev {A} (p : A -> bool) (l : list A) :
  forallb p l = true -> forallb p (rev l) = true.
Proof.
  rewrite !forallb_forall. intros H x Hx. apply H, in_rev, Hx.
Qed.

(** White space of one byte around a plain string is removed by [trim],
    and nothing else. *)
Lemma trim_padded (pad1 s pad2 : string) :
  plain s = true -> all_whitespace pad1 = true -> all_whitespace pad2 = true ->
  trim (pad1 +:+ s +:+ pad2) = s.
Proof.
  unfold plain, all_whitespace, trim. intros Hs H1 H2.
  rewrite !list_ascii_of_string_app.
  rewrite <- (string_of_list_ascii_of_string s) at 2. f_equal.
  unfold dropWhite, dropWhiteReversed. rewrite dropLeading_pad by exact H1.
  destruct (list_ascii_of_string s) as [|c r] eqn:Hbytes; [discriminate|].
  destruct (rev (c :: r)) as [|d r'] eqn:Hrev; [discriminate|].
  apply andb_prop in Hs as [Hc Hd].
  destruct (ordinary_starts_none c Hc) as (Hc1 & Hc2 & Hc3).
  destruct (ordinary_ends_none d Hd) as (Hd1 & Hd2 & Hd3).
  change ((c :: r) ++ list_ascii_of_string pad2)
    with (c :: (r ++ list_ascii_of_string pad2)).
  rewrite dropLeading_head by assumption.
  change (c :: (r ++ list_ascii_of_string pad2))
    with ((c :: r) ++ list_ascii_of_string pad2).
  rewrite rev_app_distr, dropLeading_pad by (apply forallb_rev; exact H2).
  rewrite Hrev, dropLeading_head by auto.
  rewrite <- Hrev. apply rev_involutive.
Qed.

(** [trim] changes nothing in what it returned. *)
Lemma trim_idempotent (s : string) : trim (trim s) = trim s.
Proof.
  unfold trim. rewrite list_ascii_of_string_of_list_ascii. f_equal.
  set (M := dropWhite (list_ascii_of_string s)).
  set (N := dropWhiteReversed (rev M)).
  assert (dropWhite (rev N) = rev N) as ->.
  { destruct (dropLeading_suffix whitespace1 (fun c2 c1 => whitespace2 c1 c2)
                (fun c3 c2 c1 => whitespace3 c1 c2 c3) (rev M)) as [q Hq].
    fold dropWhiteReversed in Hq. fold N in Hq.
    apply (dropLeading_prefix _ _ _ (rev N) (rev q)).
    rewrite <- rev_app_distr, <- Hq, rev_involutive.
    apply dropLeading_idempotent. }
  rewrite rev_involutive. f_equal. apply dropLeading_idempotent.
Qed.

(** [trim] brings in no byte. *)
Lemma occurs_trim (c : ascii) (s : string) : occurs c s = false -> occurs c (trim s) = false.
Proof.
  unfold occurs, trim. rewrite list_ascii_of_string_of_list_ascii. intros Hs.
  destruct (existsb _ (rev _)) eqn:Hex; [|reflexivity].
  apply existsb_exists in Hex as (x & Hx & Heq).
  apply in_rev, dropLeading_In, in_rev, dropLeading_In in Hx.
  rewrite <- Hs. symmetry. apply existsb_exists. eauto.
Qed.

Lemma split_nonempty (sep : ascii) (s : string) : split sep s <> [].
Proof.
  destruct s as [|c r]; simpl; [discriminate|].
  destruct (Ascii.eqb c sep); [discriminate|]. destruct (split sep r); discriminate.
Qed.

(** No field of a split holds the separator. *)
Lemma split_fields_without_sep (sep : ascii) (s w : string) :
  In w (split sep s) -> occurs sep w = false.
Proof.
  revert w. induction s as [|c r IH]; intros w; simpl.
  - intros [<- | []]. reflexivity.
  - destruct (Ascii.eqb c sep) eqn:Hc.
    + intros [<- | Hw]; [reflexivity | auto].
    + destruct (split sep r) as [|w0 ws] eqn:Hsplit.
      * intros [<- | []]. unfold occurs. simpl.
        rewrite Ascii.eqb_sym, Hc. reflexivity.
      * intros [<- | Hw].
        -- unfold occurs. simpl. rewrite Ascii.eqb_sym, Hc. simpl.
           apply (IH w0). left. reflexivity.
        -- apply IH. right. exact Hw.
Qed.

Lemma split_without_sep (sep : ascii) (s : string) :
  occurs sep s = false -> split sep s = [s].
Proof.
  unfold occurs. induction s as [|c r IH]; simpl; [reflexivity|].
  intros H. apply orb_false_elim in H as [Hc Hr].
  rewrite Ascii.eqb_sym, Hc, (IH Hr). reflexivity.
Qed.

Lemma split_at_sep (sep : ascii) (a b : string) :
  occurs sep a = false ->
  split sep (a +:+ String sep b) = a :: split sep b.
Proof.
  unfold occurs. induction a as [|c r IH]; simpl.
  - intros _. rewrite Ascii.eqb_refl. reflexivity.
  - intros H. apply orb_false_elim in H as [Hc Hr].
    rewrite Ascii.eqb_sym, Hc, (IH Hr). reflexivity.
Qed.

(** ** The application context, continued *)

Section ContextFacts.

Import AppContext.

Variable JSON_parse : string -> option json.
Variable JSON_stringify : json -> string.

Local Abbreviation addSeenItem := (addSeenItem JSON_parse JSON_stringify).
Local Abbreviation addSeenQuote := (addSeenQuote JSON_parse JSON_stringify).
Local Abbreviation addSeenRecipeTitle := (addSeenRecipeTitle JSON_parse JSON_stringify).
Local Abbreviation addSeenWeeklyPlanTitle := (addSeenWeeklyPlanTitle JSON_parse JSON_stringify).
Local Abbreviation addSeenPassportDishes := (addSeenPassportDishes JSON_parse JSON_stringify).
Local Abbreviation initialLoad := (initialLoad JSON_parse).

Lemma addSeenItem_other_keys (key item : string) (ls : gmap string string) (k : string) :
  k <> key -> (addSeenItem key item ls).2 !! k = ls !! k.
Proof.
  intros Hne. unfold AppContext.addSeenItem.
  destruct (readStoredItems JSON_parse (ls !! key)) as [[| | | |storedItems|]|]; simpl;
    by rewrite lookup_insert_ne.
Qed.

(** Recording in one category touches nothing else: the other three lists,
    the API key, the verification flag, session storage and the entries of
    local storage under every other key stay as they were. *)
Theorem record_touches_one_category {D} `{HasDishName D}
    (key : string) (dishes : list D) (destination : string) (st : State) :
  (sameOutside SEEN_QUOTES_STORAGE_KEY st (addSeenQuote key st)
   /\ seenRecipeTitles (addSeenQuote key st) = seenRecipeTitles st
   /\ seenPassportDishes (addSeenQuote key st) = seenPassportDishes st
   /\ seenWeeklyPlanTitles (addSeenQuote key st) = seenWeeklyPlanTitles st)
  /\ (sameOutside SEEN_RECIPES_STORAGE_KEY st (addSeenRecipeTitle key st)
      /\ seenQuotes (addSeenRecipeTitle key st) = seenQuotes st
      /\ seenPassportDishes (addSeenRecipeTitle key st) = seenPassportDishes st
      /\ seenWeeklyPlanTitles (addSeenRecipeTitle key st) = seenWeeklyPlanTitles st)
  /\ (sameOutside SEEN_WEEKLY_PLANS_KEY st (addSeenWeeklyPlanTitle key st)
      /\ seenQuotes (addSeenWeeklyPlanTitle key st) = seenQuotes st
      /\ seenRecipeTitles (addSeenWeeklyPlanTitle key st) = seenRecipeTitles st
      /\ seenPassportDishes (addSeenWeeklyPlanTitle key st) = seenPassportDishes st)
  /\ (sameOutside SEEN_PASSPORT_DISHES_KEY st (addSeenPassportDishes dishes destination st)
      /\ seenQuotes (addSeenPassportDishes dishes destination st) = seenQuotes st
      /\ seenRecipeTitles (addSeenPassportDishes dishes destination st) = seenRecipeTitles st
      /\ seenWeeklyPlanTitles (addSeenPassportDishes dishes destination st)
         = seenWeeklyPlanTitles st).
Proof.
  unfold sameOutside, AppContext.addSeenQuote, AppContext.addSeenRecipeTitle,
    AppContext.addSeenWeeklyPlanTitle.
  pose proof (addSeenItem_other_keys SEEN_QUOTES_STORAGE_KEY key (localStorage st)) as Hq.
  pose proof (addSeenItem_other_keys SEEN_RECIPES_STORAGE_KEY key (localStorage st)) as Hr.
  pose proof (addSeenItem_other_keys SEEN_WEEKLY_PLANS_KEY key (localStorage st)) as Hw.
  destruct (addSeenItem SEEN_QUOTES_STORAGE_KEY key (localStorage st)) as [lq sq].
  destruct (addSeenItem SEEN_RECIPES_STORAGE_KEY key (localStorage st)) as [lr sr].
  destruct (addSeenItem SEEN_WEEKLY_PLANS_KEY key (localStorage st)) as [lw sw].
  simpl in *. repeat split; try reflexivity; try assumption;
    unfold AppContext.addSeenPassportDishes;
    destruct (readStoredItems JSON_parse (localStorage st !! SEEN_PASSPORT_DISHES_KEY))
      as [[| | | |storedItems|]|]; simpl; try reflexivity;
    intros k Hk; by rewrite lookup_insert_ne.
Qed.

Lemma addSeenPassportDishes_other_keys {D} `{HasDishName D}
    (dishes : list D) (destination : string) (st : State) (k : string) :
  k <> SEEN_PASSPORT_DISHES_KEY ->
  localStorage (addSeenPassportDishes dishes destination st) !! k = localStorage st !! k.
Proof.
  intros Hne. unfold AppContext.addSeenPassportDishes.
  destruct (readStoredItems JSON_parse (localStorage st !! SEEN_PASSPORT_DISHES_KEY))
    as [[| | | |storedItems|]|]; simpl; by rewrite lookup_insert_ne.
Qed.

(** Loading a storage in which the entry under [key] is the array [l] just
    written, and the other seen entries are those of a storage that can be
    parsed. *)
Lemma initialLoad_after_write (ls ls' ss : gmap string string) (key : string)
    (l : list json) :
  In key SEEN_KEYS ->
  seenEntriesParse JSON_parse ls ->
  roundTrips JSON_parse JSON_stringify l ->
  ls' !! key = Some (JSON_stringify (JArr l)) ->
  (forall k, k <> key -> ls' !! k = ls !! k) ->
  exists quotes titles dishes plans,
    initialLoad ls' ss
    = mkLoaded (loadApiKey ls') (loadVerifiedHuman ss) quotes titles dishes plans
    /\ readStoredItems JSON_parse (ls' !! SEEN_QUOTES_STORAGE_KEY) = Some quotes
    /\ readStoredItems JSON_parse (ls' !! SEEN_RECIPES_STORAGE_KEY) = Some titles
    /\ readStoredItems JSON_parse (ls' !! SEEN_PASSPORT_DISHES_KEY) = Some dishes
    /\ readStoredItems JSON_parse (ls' !! SEEN_WEEKLY_PLANS_KEY) = Some plans
    /\ readStoredItems JSON_parse (ls' !! key) = Some (JArr l).
Proof.
  intros Hkey Hparse [Htruthy Hround] Hown Hrest.
  assert (readStoredItems JSON_parse (ls' !! key) = Some (JArr l)) as Hread.
  { rewrite Hown. simpl. rewrite Htruthy. exact Hround. }
  assert (forall k, In k SEEN_KEYS -> is_Some (readStoredItems JSON_parse (ls' !! k))) as Hall.
  { intros k Hk. destruct (decide (k = key)) as [-> | Hne].
    - rewrite Hread. eauto.
    - rewrite (Hrest k Hne). apply Hparse, Hk. }
  unfold AppContext.initialLoad.
  destruct (Hall SEEN_QUOTES_STORAGE_KEY) as [quotes Hq]; [simpl; auto|].
  destruct (Hall SEEN_RECIPES_STORAGE_KEY) as [titles Ht]; [simpl; auto|].
  destruct (Hall SEEN_PASSPORT_DISHES_KEY) as [dishes Hd]; [simpl; auto|].
  destruct (Hall SEEN_WEEKLY_PLANS_KEY) as [plans Hp]; [simpl; auto 6|].
  rewrite Hq, Ht, Hd, Hp. exists quotes, titles, dishes, plans. auto 10.
Qed.

(** What was recorded is what the next session loads: after a record in a
    category, the initial load of the stored data yields, for that category,
    the list that the record left in the state, provided the JSON codec
    reads back the list just written and the entries of the seen lists could
    be parsed before. *)
Theorem recorded_list_survives_reload {D} `{HasDishName D}
    (key : string) (dishes : list D) (destination : string) (st : State)
    (ss : gmap string string) :
  seenEntriesParse JSON_parse (localStorage st) ->
  (roundTrips JSON_parse JSON_stringify (seenQuotes (addSeenQuote key st)) ->
   loadedQuotes (initialLoad (localStorage (addSeenQuote key st)) ss)
   = JArr (seenQuotes (addSeenQuote key st)))
  /\ (roundTrips JSON_parse JSON_stringify (seenRecipeTitles (addSeenRecipeTitle key st)) ->
      loadedRecipeTitles (initialLoad (localStorage (addSeenRecipeTitle key st)) ss)
      = JArr (seenRecipeTitles (addSeenRecipeTitle key st)))
  /\ (roundTrips JSON_parse JSON_stringify
        (seenWeeklyPlanTitles (addSeenWeeklyPlanTitle key st)) ->
      loadedWeeklyPlanTitles (initialLoad (localStorage (addSeenWeeklyPlanTitle key st)) ss)
      = JArr (seenWeeklyPlanTitles (addSeenWeeklyPlanTitle key st)))
  /\ (roundTrips JSON_parse JSON_stringify
        (seenPassportDishes (addSeenPassportDishes dishes destination st)) ->
      loadedPassportDishes
        (initialLoad (localStorage (addSeenPassportDishes dishes destination st)) ss)
      = JArr (seenPassportDishes (addSeenPassportDishes dishes destination st))).
Proof.
  intros Hparse.
  assert (forall k item, In k SEEN_KEYS ->
            roundTrips JSON_parse JSON_stringify (addSeenItem k item (localStorage st)).1 ->
            exists quotes titles dishes plans,
              initialLoad (addSeenItem k item (localStorage st)).2 ss
              = mkLoaded (loadApiKey (addSeenItem k item (localStorage st)).2)
                  (loadVerifiedHuman ss) quotes titles dishes plans
              /\ readStoredItems JSON_parse
                   ((addSeenItem k item (localStorage st)).2 !! SEEN_QUOTES_STORAGE_KEY)
                 = Some quotes
              /\ readStoredItems JSON_parse
                   ((addSeenItem k item (localStorage st)).2 !! SEEN_RECIPES_STORAGE_KEY)
                 = Some titles
              /\ readStoredItems JSON_parse
                   ((addSeenItem k item (localStorage st)).2 !! SEEN_PASSPORT_DISHES_KEY)
                 = Some dishes
              /\ readStoredItems JSON_parse
                   ((addSeenItem k item (localStorage st)).2 !! SEEN_WEEKLY_PLANS_KEY)
                 = Some plans
              /\ readStoredItems JSON_parse ((addSeenItem k item (localStorage st)).2 !! k)
                 = Some (JArr (addSeenItem k item (localStorage st)).1)) as Hitem.
  { intros k item Hk Hround.
    apply (initialLoad_after_write (localStorage st)); try assumption.
    - apply (addSeenItem_recorded JSON_parse JSON_stringify k item (localStorage st)).
    - intros k' Hne. apply addSeenItem_other_keys, Hne. }
  unfold AppContext.addSeenQuote, AppContext.addSeenRecipeTitle,
    AppContext.addSeenWeeklyPlanTitle.
  split; [|split; [|split]].
  - intros Hround.
    specialize (Hitem SEEN_QUOTES_STORAGE_KEY key).
    destruct (addSeenItem SEEN_QUOTES_STORAGE_KEY key (localStorage st)) as [l ls'].
    simpl in *. destruct Hitem as (q & t & d & p & -> & Hq & _ & _ & _ & Hown); auto.
    simpl. congruence.
  - intros Hround.
    specialize (Hitem SEEN_RECIPES_STORAGE_KEY key).
    destruct (addSeenItem SEEN_RECIPES_STORAGE_KEY key (localStorage st)) as [l ls'].
    simpl in *. destruct Hitem as (q & t & d & p & -> & _ & Ht & _ & _ & Hown); auto.
    simpl. congruence.
  - intros Hround.
    specialize (Hitem SEEN_WEEKLY_PLANS_KEY key).
    destruct (addSeenItem SEEN_WEEKLY_PLANS_KEY key (localStorage st)) as [l ls'].
    simpl in *. destruct Hitem as (q & t & d & p & -> & _ & _ & _ & Hp & Hown); auto 6.
    simpl. congruence.
  - intros Hround.
    destruct (initialLoad_after_write (localStorage st)
                (localStorage (addSeenPassportDishes dishes destination st)) ss
                SEEN_PASSPORT_DISHES_KEY
                (seenPassportDishes (addSeenPassportDishes dishes destination st)))
      as (q & t & d & p & -> & _ & _ & Hd & _ & Hown); try assumption.
    + simpl. auto.
    + apply (addSeenPassportDishes_persisted JSON_parse JSON_stringify).
    + intros k Hne. apply addSeenPassportDishes_other_keys, Hne.
    + simpl. congruence.
Qed.

(** One entry that cannot be parsed empties all four lists at the initial
    load, also those whose stored entry is a well-formed array; local
    storage itself is not an argument of the reset and stays as it is. *)
Theorem unparsable_entry_resets_every_list (ls ss : gmap string string) (key : string) :
  key ∈ SEEN_KEYS ->
  readStoredItems JSON_parse (ls !! key) = None ->
  loadedQuotes (initialLoad ls ss) = JArr []
  /\ loadedRecipeTitles (initialLoad ls ss) = JArr []
  /\ loadedPassportDishes (initialLoad ls ss) = JArr []
  /\ loadedWeeklyPlanTitles (initialLoad ls ss) = JArr [].
Proof.
  intros Hkey Hbad. unfold AppContext.initialLoad, SEEN_KEYS in *.
  repeat (apply elem_of_cons in Hkey as [-> | Hkey]); [| | | |by apply elem_of_nil in Hkey];
    rewrite Hbad;
    repeat match goal with
           | |- context [readStoredItems JSON_parse ?x] =>
               destruct (readStoredItems JSON_parse x)
           end; auto.
Qed.

End ContextFacts.

(** The key and the verification flag are read back as they were written:
    a non-empty key is loaded again, a null or empty key leaves none to load
    and the flag loads as false; the flag set by [setVerifiedHuman] is the
    flag loaded, and the inactivity timeout makes it load as false. *)
Theorem key_and_flag_survive_reload (key : option string) (b : bool)
    (st : AppContext.State) :
  AppContext.loadApiKey (AppContext.localStorage (AppContext.setApiKey key st))
    = (if truthy_opt key then key else None)
  /\ (truthy_opt key = false ->
      AppContext.loadVerifiedHuman (AppContext.sessionStorage (AppContext.setApiKey key st))
        = false)
  /\ AppContext.loadVerifiedHuman
       (AppContext.sessionStorage (AppContext.setVerifiedHuman b st)) = b
  /\ AppContext.loadVerifiedHuman
       (AppContext.sessionStorage (AppContext.handleTimeout st)) = false.
Proof.
  unfold AppContext.loadApiKey, AppContext.loadVerifiedHuman, AppContext.handleTimeout,
    AppContext.setApiKey, AppContext.setVerifiedHuman.
  repeat split.
  - destruct key as [k|]; simpl; [destruct (truthy k) eqn:Hk|]; simpl.
    + rewrite lookup_insert_eq, Hk. reflexivity.
    + by rewrite lookup_delete_eq.
    + by rewrite lookup_delete_eq.
  - intros Hkey. destruct key as [k|]; simpl in *; [rewrite Hkey|]; simpl;
      by rewrite lookup_insert_eq.
  - simpl. rewrite lookup_insert_eq. destruct b; reflexivity.
  - simpl. by rewrite lookup_insert_eq.
Qed.

(** ** The two dialogs *)

Section DialogFacts.

Import AppContext.

(** Saving a key from the dialog never takes the removal branch of
    [setApiKey]: an input that is blank after trimming changes nothing, and
    any other input stores its trimmed, non-empty text as the key, closes the
    dialog, and leaves the verification flag, session storage and the seen
    lists as they were. *)
Theorem handleSaveKey_stores_trimmed_key (keyInput : string) (st : State) :
  let st' := ApiKeyModal.handleSaveKey keyInput st in
  isVerifiedHuman st' = isVerifiedHuman st
  /\ sessionStorage st' = sessionStorage st
  /\ sameSeenItems st st'
  /\ (if truthy (trim keyInput)
      then apiKey st' = Some (trim keyInput)
           /\ localStorage st' !! API_KEY_STORAGE_KEY = Some (trim keyInput)
           /\ ApiKeyModal.isOpen st' = false
      else st' = st).
Proof.
  simpl. unfold ApiKeyModal.handleSaveKey, ApiKeyModal.isOpen, isApiKeySet.
  destruct (truthy (trim keyInput)) eqn:Hkey.
  - split; [|split; [|split; [apply setApiKey_sameSeenItems|]]];
      unfold setApiKey; rewrite Hkey; simpl; try reflexivity.
    rewrite Hkey. repeat split. apply lookup_insert_eq.
  - repeat split; reflexivity.
Qed.

(** Changing the key asks for a new verification: the button of the header
    opens the key dialog with the verification dialog closed, whatever the
    state was, and once a key is saved the key dialog is closed and the
    verification dialog is open. *)
Theorem changing_key_asks_for_verification (keyInput : string) (st : State) :
  truthy (trim keyInput) = true ->
  let st1 := ApiKeyModal.changeApiKey st in
  let st2 := ApiKeyModal.handleSaveKey keyInput st1 in
  ApiKeyModal.isOpen st1 = true
  /\ HumanVerificationModal.isModalOpen st1 = false
  /\ ApiKeyModal.isOpen st2 = false
  /\ HumanVerificationModal.isModalOpen st2 = true.
Proof.
  intros Hkey. simpl.
  unfold ApiKeyModal.changeApiKey, ApiKeyModal.handleSaveKey, ApiKeyModal.isOpen,
    HumanVerificationModal.isModalOpen, isApiKeySet.
  rewrite Hkey. unfold setApiKey. rewrite Hkey. simpl. rewrite Hkey. auto.
Qed.

Import Captcha HumanVerificationModal.

Variable toLowerCase : string -> string.

Local Abbreviation handleVerification := (handleVerification toLowerCase).

Lemma all_answers_plain :
  forallb (fun p => plain (answer p)) all_problems = true.
Proof. vm_compute. reflexivity. Qed.

Lemma generateCaptcha_answer_plain (key : string) (random1 random2 random3 : Q)
    (c : GenerateCaptchaOutput) :
  (0 <= random1)%Q -> (random1 < 1)%Q ->
  (0 <= random2)%Q -> (random2 < 1)%Q ->
  (0 <= random3)%Q -> (random3 < 1)%Q ->
  generateCaptcha key random1 random2 random3 = Fulfilled (Some c) ->
  plain (answer c) = true.
Proof.
  intros H1 H1' H2 H2' H3 H3' Hc. unfold generateCaptcha in Hc.
  destruct (negb (truthy key)); [discriminate|]. injection Hc as <-. simpl.
  pose proof (generateMathProblem_listed random1 random2 random3 H1 H1' H2 H2' H3 H3') as Hin.
  pose proof all_answers_plain as Hall. rewrite forallb_forall in Hall.
  apply (Hall _ (proj1 (list_elem_of_In _ _) Hin)).
Qed.

(** Typing the answer of a challenge that [generateCaptcha] produced, with
    spaces, tabs or line breaks around it, verifies the user, whatever
    [toLowerCase] does: the flag is set, ['true'] is written to session
    storage, and the dialog is cleared and closes. *)
Theorem answer_of_challenge_verifies (key : string) (random1 random2 random3 : Q)
    (rerandom1 rerandom2 rerandom3 : Q) (c : GenerateCaptchaOutput)
    (pad1 pad2 : string) (st : State) (m : Modal) :
  (0 <= random1)%Q -> (random1 < 1)%Q ->
  (0 <= random2)%Q -> (random2 < 1)%Q ->
  (0 <= random3)%Q -> (random3 < 1)%Q ->
  generateCaptcha key random1 random2 random3 = Fulfilled (Some c) ->
  challenge m = Some c ->
  userInput m = pad1 +:+ answer c +:+ pad2 ->
  all_whitespace pad1 = true -> all_whitespace pad2 = true ->
  let '(st', m', toasts) := handleVerification rerandom1 rerandom2 rerandom3 st m in
  isVerifiedHuman st' = true
  /\ sessionStorage st' !! HUMAN_VERIFIED_SESSION_KEY = Some "true"
  /\ isModalOpen st' = false
  /\ m' = mkModal "" None None (isLoading m)
  /\ toasts = [].
Proof.
  intros H1 H1' H2 H2' H3 H3' Hc Hchallenge Hinput Hpad1 Hpad2.
  unfold handleVerification. rewrite Hchallenge, Hinput.
  rewrite trim_padded;
    [|exact (generateCaptcha_answer_plain key random1 random2 random3 c
                H1 H1' H2 H2' H3 H3' Hc) | assumption | assumption].
  rewrite String.eqb_refl. unfold isModalOpen. simpl.
  repeat split. apply lookup_insert_eq.
Qed.

(** A wrong answer leaves the user unverified and, with a key, replaces the
    challenge by a fresh one with the input cleared; the message
    [Incorrect. Please try again.] is set and then cleared by the reload, so
    that the dialog ends without an error message. *)
Theorem wrong_answer_loads_fresh_challenge (key : string) (random1 random2 random3 : Q)
    (c : GenerateCaptchaOutput) (st : State) (m : Modal) :
  apiKey st = Some key -> key <> "" ->
  challenge m = Some c ->
  toLowerCase (trim (userInput m)) <> toLowerCase (answer c) ->
  handleVerification random1 random2 random3 st m
  = (st, mkModal "" None (Some (generateMathProblem random1 random2 random3)) false, []).
Proof.
  intros Hkey Hnonempty Hchallenge Hwrong.
  unfold handleVerification. rewrite Hchallenge.
  apply String.eqb_neq in Hwrong. rewrite Hwrong.
  unfold getNewChallenge, generateCaptcha. rewrite Hkey. simpl.
  apply truthy_true_nonempty in Hnonempty. rewrite Hnonempty. simpl.
  destruct (generateMathProblem random1 random2 random3). reflexivity.
Qed.

End DialogFacts.

(** ** The recipe flow and its form, continued *)

Section RecipeFlowFacts.

Import Recipe.

(** After a successful stage 1, [generateRecipe] throws in one situation
    only: the stage-2 call failed and the fallback found no candidate at
    index 0, the list of recipes or the list of quotes being empty. A
    failure of the image call, a stage-2 answer of any kind, and a stage-2
    failure with candidates at hand never make it throw. *)
Theorem generateRecipe_throws_only_without_fallback
    (ai : Services) (input : GenerateRecipeInput) (apiKey : string)
    (optionsOutput : GenerateRecipeOptionsOutput) :
  apiKey <> "" ->
  generateOptionsPrompt ai input = Fulfilled (Some optionsOutput) ->
  (exists e, generateRecipe ai input apiKey = Rejected e)
  <-> ((exists e, validateAndSelectPrompt ai (selectInput optionsOutput input) = Rejected e)
       /\ (recipeOptions optionsOutput = [] \/ quoteOptions optionsOutput = [])).
Proof.
  intros Hkey Hoptions. rewrite generateRecipe_with_key by exact Hkey.
  unfold generateRecipeFlow, selectStep. rewrite Hoptions.
  destruct (validateAndSelectPrompt ai (selectInput optionsOutput input))
    as [[selection|]|e2]; simpl.
  - split; [intros [e He]; discriminate | intros [[e He] _]; discriminate].
  - split; [intros [e He]; discriminate | intros [[e He] _]; discriminate].
  - destruct (recipeOptions optionsOutput) as [|r rs];
      destruct (quoteOptions optionsOutput) as [|q qs]; simpl.
    + split; eauto.
    + split; eauto.
    + split; eauto.
    + split; [intros [e He]; discriminate | intros [_ [H | H]]; discriminate].
Qed.

End RecipeFlowFacts.

Section RecipeFormMoreFacts.

Import RecipeForm.

(** The handler issues the generation request exactly when there is an
    ingredient signal and a non-empty API key. *)
Lemma onSubmit_calls_iff_signal_and_key (ai : Recipe.Services) (ctx : Context)
    (ingredientPhoto : option string) (data : RecipeFormValues) :
  existsb is_generation_call (onSubmit ai ctx ingredientPhoto data)
  = negb (noIngredientSignal data ingredientPhoto) && truthy_opt (apiKey ctx).
Proof.
  unfold onSubmit. destruct (noIngredientSignal data ingredientPhoto); [reflexivity|].
  destruct (apiKey ctx) as [key|]; [|reflexivity]. simpl.
  destruct (truthy key); reflexivity.
Qed.

(** The shape of a submission that goes through. *)
Lemma onSubmit_submitted (ai : Recipe.Services) (ctx : Context)
    (ingredientPhoto : option string) (data : RecipeFormValues) (key : string) :
  noIngredientSignal data ingredientPhoto = false ->
  apiKey ctx = Some key -> key <> "" ->
  exists input,
    Recipe.seenQuotes input = Some (seenQuotes ctx)
    /\ Recipe.seenRecipeTitles input = Some (seenRecipeTitles ctx)
    /\ onSubmit ai ctx ingredientPhoto data
       = [SetIsLoading true; SetRecipe None; CallGenerateRecipe input key]
         ++ match Recipe.generateRecipe ai input key with
            | Fulfilled (Some result) =>
                [SetRecipe (Some result);
                 AddSeenQuote (Recipe.Output.quote result);
                 AddSeenRecipeTitle (Recipe.Output.recipeName result)]
            | Fulfilled None => [OVERLOADED_TOAST]
            | Rejected error =>
                ConsoleError error ::
                (if match message error with
                    | Some m => String.eqb m "SAFETY_BLOCK"
                    | None => false
                    end
                 then [UNSAFE_TOAST] else [UNEXPECTED_TOAST])
            end
         ++ [SetIsLoading false].
Proof.
  intros Hsignal Hctx Hkey. unfold onSubmit. rewrite Hsignal, Hctx.
  apply truthy_true_nonempty in Hkey. rewrite Hkey. cbn [negb].
  eexists. split; [|split; [|reflexivity]]; reflexivity.
Qed.

(** A submission that goes through hands the current seen lists to the
    flow, always ends by resetting the loading flag, and records in the seen
    lists exactly when the flow returned a recipe: then the quote and the
    name of that recipe, and otherwise nothing. *)
Theorem onSubmit_resets_loading_and_records_result (ai : Recipe.Services) (ctx : Context)
    (ingredientPhoto : option string) (data : RecipeFormValues) (key : string) :
  noIngredientSignal data ingredientPhoto = false ->
  apiKey ctx = Some key -> key <> "" ->
  exists input,
    In (CallGenerateRecipe input key) (onSubmit ai ctx ingredientPhoto data)
    /\ Recipe.seenQuotes input = Some (seenQuotes ctx)
    /\ Recipe.seenRecipeTitles input = Some (seenRecipeTitles ctx)
    /\ last (onSubmit ai ctx ingredientPhoto data) = Some (SetIsLoading false)
    /\ List.filter is_recording (onSubmit ai ctx ingredientPhoto data)
       = match Recipe.generateRecipe ai input key with
         | Fulfilled (Some result) =>
             [AddSeenQuote (Recipe.Output.quote result);
              AddSeenRecipeTitle (Recipe.Output.recipeName result)]
         | _ => []
         end.
Proof.
  intros Hsignal Hctx Hkey.
  destruct (onSubmit_submitted ai ctx ingredientPhoto data key Hsignal Hctx Hkey)
    as (input & Hquotes & Htitles & ->).
  exists input. split; [simpl; auto|]. split; [exact Hquotes|]. split; [exact Htitles|].
  split.
  - rewrite app_assoc. apply last_snoc.
  - destruct (Recipe.generateRecipe ai input key) as [[result|]|error]; try reflexivity.
    simpl. destruct (match message error with
                     | Some m => (m =? "SAFETY_BLOCK")%string
                     | None => false
                     end); reflexivity.
Qed.

(** How the form reports a failure of stage 1. When the provider blocks
    every request for safety, the user is told that the ingredients are
    unsafe; when it fails otherwise or answers without output, that the
    model is overloaded. In both cases nothing is recorded and the loading
    flag is reset. *)
Theorem onSubmit_reports_stage1_failure (ai : Recipe.Services) (ctx : Context)
    (ingredientPhoto : option string) (data : RecipeFormValues) (key : string) :
  noIngredientSignal data ingredientPhoto = false ->
  apiKey ctx = Some key -> key <> "" ->
  ((forall input, safetyBlock (Recipe.generateOptionsPrompt ai input) = true) ->
   exists input,
     onSubmit ai ctx ingredientPhoto data
     = [SetIsLoading true; SetRecipe None; CallGenerateRecipe input key;
        ConsoleError (Error "SAFETY_BLOCK"); UNSAFE_TOAST; SetIsLoading false])
  /\ ((forall input, genericFailure (Recipe.generateOptionsPrompt ai input) = true) ->
      exists input,
        onSubmit ai ctx ingredientPhoto data
        = [SetIsLoading true; SetRecipe None; CallGenerateRecipe input key;
           OVERLOADED_TOAST; SetIsLoading false]).
Proof.
  intros Hsignal Hctx Hkey.
  destruct (onSubmit_submitted ai ctx ingredientPhoto data key Hsignal Hctx Hkey)
    as (input & _ & _ & ->).
  rewrite generateRecipe_with_key by exact Hkey. unfold Recipe.generateRecipeFlow.
  split; intros Hstage1; specialize (Hstage1 input); exists input.
  - unfold safetyBlock in Hstage1.
    destruct (Recipe.generateOptionsPrompt ai input) as [o|[[m|]]]; try discriminate.
    simpl in Hstage1. simpl. rewrite Hstage1. reflexivity.
  - unfold genericFailure in Hstage1.
    destruct (Recipe.generateOptionsPrompt ai input) as [[o|]|[[m|]]]; try discriminate.
    + reflexivity.
    + simpl in Hstage1. apply negb_true_iff in Hstage1. simpl. rewrite Hstage1. reflexivity.
Qed.

(** The ingredient names sent to the flow are clean: none is empty, none
    has white space left to trim at its ends, and none holds a comma. *)
Theorem ingredientNames_are_clean (field : option string) (name : string) :
  In name (ingredientNames field) ->
  name <> "" /\ trim name = name /\ occurs "," name = false.
Proof.
  unfold ingredientNames. destruct field as [s|]; [|intros []].
  destruct (truthy s); [|intros []].
  rewrite filter_In, in_map_iff. intros [(w & <- & Hw) Hnonempty].
  split; [|split].
  - intros Hempty. rewrite Hempty in Hnonempty. discriminate.
  - apply trim_idempotent.
  - apply occurs_trim. apply (split_fields_without_sep _ s). exact Hw.
Qed.

End RecipeFormMoreFacts.

(** ** The recipe card *)

Section RecipeCardFacts.

Import ShoppingList RecipeCard.

Lemma dedup_first_NoDup_id (l : list string) : List.NoDup l -> dedup_first l = l.
Proof.
  induction l as [|x r IH]; simpl; [reflexivity|].
  intros Hnd. inversion Hnd as [|? ? Hx Hr]; subst. rewrite (IH Hr). f_equal.
  apply forallb_filter_id, forallb_forall. intros y Hy.
  apply negb_true_iff, String.eqb_neq. congruence.
Qed.

(** Building a set from the elements of a set changes nothing. *)
Lemma new_Set_idempotent (l : list string) : new_Set (new_Set l) = new_Set l.
Proof.
  rewrite !new_Set_dedup_first. apply dedup_first_NoDup_id, dedup_first_NoDup.
Qed.

(** The file downloaded from the recipe card holds exactly the list that
    the card displays, one ingredient a line: the second de-duplication, in
    the handler, changes nothing. The button is offered exactly when the
    recipe has a missing ingredient. *)
Theorem download_is_the_displayed_list (missingIngredients : option (list string)) :
  match downloadButton missingIngredients with
  | Some file =>
      textContent file = join LF (uniqueMissingIngredients missingIngredients)
      /\ uniqueMissingIngredients missingIngredients <> []
  | None => missingIngredients = None \/ missingIngredients = Some []
  end.
Proof.
  unfold downloadButton, uniqueMissingIngredients.
  destruct missingIngredients as [l|]; [|left; reflexivity].
  destruct (0 <? length (new_Set l))%nat eqn:Hlen.
  - split.
    + unfold handleDownloadShoppingList. cbn [textContent].
      rewrite new_Set_idempotent. reflexivity.
    + intros Hempty. rewrite Hempty in Hlen. discriminate.
  - right. f_equal. rewrite new_Set_dedup_first in Hlen.
    destruct l as [|y r]; [reflexivity | discriminate].
Qed.

End RecipeCardFacts.

(** ** The weekly plan *)

Section WeeklyPlanFacts.

Import WeeklyPlan.

Lemma genericFailure_cases {A} (attempt : Settled (option A)) :
  genericFailure attempt = true ->
  attempt = Fulfilled None
  \/ exists m, attempt = Rejected (mkError (Some m)) /\ includes m "SAFETY" = false.
Proof.
  destruct attempt as [[a|]|[[m|]]]; simpl; try discriminate; [auto|].
  intros H. apply negb_true_iff in H. eauto.
Qed.

Lemma safetyBlock_cases {A} (attempt : Settled (option A)) :
  safetyBlock attempt = true ->
  exists m, attempt = Rejected (mkError (Some m)) /\ includes m "SAFETY" = true.
Proof.
  destruct attempt as [a|[[m|]]]; simpl; try discriminate. eauto.
Qed.

Ltac settle_attempt H :=
  let m := fresh "m" in let Hm := fresh "Hm" in
  destruct (genericFailure_cases _ H) as [-> | (m & -> & Hm)];
  cbn [message]; rewrite ?Hm; simpl.

(** The weekly-plan flow tries the prompt up to three times. It returns the
    plan of the first attempt that has one, provided the attempts before it
    failed without a safety block; it throws [SAFETY_BLOCK] at the first
    safety block, without a further attempt; and it returns null when three
    attempts have failed. *)
Theorem generateWeeklyPlan_retries (ai : Services) (input : GenerateWeeklyPlanInput)
    (apiKey : string) (k : nat) :
  apiKey <> "" ->
  1 <= k <= 3 ->
  (forall j, 1 <= j < k -> genericFailure (weeklyPlanPrompt ai input j) = true) ->
  (forall plan, weeklyPlanPrompt ai input k = Fulfilled (Some plan) ->
     generateWeeklyPlan ai input apiKey = Fulfilled (Some plan))
  /\ (safetyBlock (weeklyPlanPrompt ai input k) = true ->
      generateWeeklyPlan ai input apiKey = Rejected (Error "SAFETY_BLOCK"))
  /\ (k = 3 -> genericFailure (weeklyPlanPrompt ai input 3) = true ->
      generateWeeklyPlan ai input apiKey = Fulfilled None).
Proof.
  intros Hkey Hk Hbefore. unfold generateWeeklyPlan.
  apply truthy_true_nonempty in Hkey. rewrite Hkey. cbn [negb].
  unfold generateWeeklyPlanFlow, maxAttempts.
  assert (k = 1 \/ k = 2 \/ k = 3) as [-> | [-> | ->]] by lia.
  - repeat split.
    + intros plan Hplan. simpl. rewrite Hplan. reflexivity.
    + intros Hsafe. destruct (safetyBlock_cases _ Hsafe) as (m & Hm & Hinc).
      simpl. rewrite Hm. cbn [message]. rewrite Hinc. reflexivity.
    + intros Hfalse. discriminate.
  - pose proof (Hbefore 1 ltac:(lia)) as H1.
    repeat split.
    + intros plan Hplan. simpl. settle_attempt H1; rewrite Hplan; reflexivity.
    + intros Hsafe. destruct (safetyBlock_cases _ Hsafe) as (m & Hm & Hinc).
      simpl. settle_attempt H1; rewrite Hm; cbn [message]; rewrite Hinc; reflexivity.
    + intros Hfalse. discriminate.
  - pose proof (Hbefore 1 ltac:(lia)) as H1. pose proof (Hbefore 2 ltac:(lia)) as H2.
    repeat split.
    + intros plan Hplan. simpl.
      settle_attempt H1; settle_attempt H2; rewrite Hplan; reflexivity.
    + intros Hsafe. destruct (safetyBlock_cases _ Hsafe) as (m & Hm & Hinc).
      simpl. settle_attempt H1; settle_attempt H2; rewrite Hm; cbn [message];
        rewrite Hinc; reflexivity.
    + intros _ H3. simpl.
      settle_attempt H1; settle_attempt H2; settle_attempt H3; reflexivity.
Qed.

End WeeklyPlanFacts.

Section WeeklyPlanFormFacts.

Import WeeklyPlan.

(** A submission of the weekly-plan form with a key hands the seen titles
    to the flow, always ends by resetting the loading flag, and records a
    title exactly when the flow returned a plan whose title is not empty. *)
Theorem weekly_onSubmit_records_title_of_plan (ai : Services) (ctx : Context)
    (data : WeeklyPlanFormValues) (key : string) :
  apiKey ctx = Some key -> key <> "" ->
  let input :=
    mkInput (form_cuisinePreference data) (form_dietaryRestrictions data)
      (Some (seenWeeklyPlanTitles ctx)) in
  In (CallGenerateWeeklyPlan input key) (onSubmit ai ctx data)
  /\ last (onSubmit ai ctx data) = Some (SetIsLoading false)
  /\ List.filter is_recording (onSubmit ai ctx data)
     = match generateWeeklyPlan ai input key with
       | Fulfilled (Some plan) =>
           if truthy (planTitle plan) then [AddSeenWeeklyPlanTitle (planTitle plan)] else []
       | _ => []
       end.
Proof.
  intros Hctx Hkey. simpl. unfold onSubmit. rewrite Hctx.
  apply truthy_true_nonempty in Hkey. unfold truthy_opt. rewrite Hkey. cbn [negb].
  split; [simpl; auto|]. split.
  - rewrite app_assoc. apply last_snoc.
  - destruct (generateWeeklyPlan ai _ key) as [[plan|]|error]; try reflexivity.
    + simpl. destruct (truthy (planTitle plan)); reflexivity.
    + simpl. destruct (match message error with
                       | Some m => (m =? "SAFETY_BLOCK")%string
                       | None => false
                       end); reflexivity.
Qed.

End WeeklyPlanFormFacts.

(** ** The culinary passport, continued *)

Section PassportFacts.

Import Passport.

Ltac settle_text H :=
  let m := fresh "m" in let Hm := fresh "Hm" in
  destruct (genericFailure_cases _ H) as [-> | (m & -> & Hm)];
  cbn [message]; rewrite ?Hm; simpl.

(** The text of the passport is requested up to three times. Three attempts
    that fail without a safety block give the fallback passport, which has no
    recommendation and no audio: the operation returns, it does not throw. A
    safety block at any attempt throws [SAFETY_BLOCK] at once. *)
Theorem generateCulinaryPassport_text_retries (ai : Services)
    (input : GenerateCulinaryPassportInput) (apiKey : string) (k : nat) :
  apiKey <> "" ->
  1 <= k <= 3 ->
  (forall j, 1 <= j < k -> genericFailure (passportTextPrompt ai input j) = true) ->
  (safetyBlock (passportTextPrompt ai input k) = true ->
   generateCulinaryPassport ai input apiKey = Rejected (Error "SAFETY_BLOCK"))
  /\ (k = 3 -> genericFailure (passportTextPrompt ai input 3) = true ->
      exists fallback,
        generateCulinaryPassport ai input apiKey = Fulfilled fallback
        /\ fallback = createFallbackPassport (destination input)
        /\ Output.recommendations fallback = []
        /\ Output.chefCardAudioUri fallback = "").
Proof.
  intros Hkey Hk Hbefore. unfold generateCulinaryPassport.
  apply truthy_true_nonempty in Hkey. rewrite Hkey. cbn [negb].
  unfold culinaryPassportFlow, maxTextAttempts.
  assert (k = 1 \/ k = 2 \/ k = 3) as [-> | [-> | ->]] by lia.
  - split; [|intros Hfalse; discriminate].
    intros Hsafe. destruct (safetyBlock_cases _ Hsafe) as (m & Hm & Hinc).
    simpl. rewrite Hm. cbn [message]. rewrite Hinc. reflexivity.
  - pose proof (Hbefore 1 ltac:(lia)) as H1.
    split; [|intros Hfalse; discriminate].
    intros Hsafe. destruct (safetyBlock_cases _ Hsafe) as (m & Hm & Hinc).
    simpl. settle_text H1; rewrite Hm; cbn [message]; rewrite Hinc; reflexivity.
  - pose proof (Hbefore 1 ltac:(lia)) as H1. pose proof (Hbefore 2 ltac:(lia)) as H2.
    split.
    + intros Hsafe. destruct (safetyBlock_cases _ Hsafe) as (m & Hm & Hinc).
      simpl. settle_text H1; settle_text H2; rewrite Hm; cbn [message];
        rewrite Hinc; reflexivity.
    + intros _ H3. exists (createFallbackPassport (destination input)).
      split; [|auto].
      simpl. settle_text H1; settle_text H2; settle_text H3; reflexivity.
Qed.

End PassportFacts.

Section PassportOutputFacts.

Import Passport.

Lemma audioLoop_first_success (ai : Services) (req : GenerateRequest) (k : nat) (m : Media) :
  1 <= k <= 3 ->
  (forall j, 1 <= j < k -> failed (generate ai req j) = true) ->
  generate ai req k = Fulfilled (Some m) ->
  audioLoop ai req maxAttempts None 0 = Completed (Some m, k).
Proof.
  intros Hk Hbefore Hhit. unfold maxAttempts.
  assert (k = 1 \/ k = 2 \/ k = 3) as [-> | [-> | ->]] by lia.
  - simpl. rewrite Hhit. reflexivity.
  - pose proof (Hbefore 1 ltac:(lia)) as H1. simpl.
    destruct (generate ai req 1) as [[m1|]|e1]; try discriminate; simpl;
      rewrite Hhit; reflexivity.
  - pose proof (Hbefore 1 ltac:(lia)) as H1. pose proof (Hbefore 2 ltac:(lia)) as H2. simpl.
    destruct (generate ai req 1) as [[m1|]|e1]; try discriminate; simpl;
      destruct (generate ai req 2) as [[m2|]|e2]; try discriminate; simpl;
      rewrite Hhit; reflexivity.
Qed.

(** A passport that is returned after the text was generated shows the
    dishes of the text, all of them and in their order, with the chef-card
    message of the text; the photo of each dish is empty or is the URL that
    one of the three attempts for that dish returned. *)
Theorem passport_shows_the_dishes_of_the_text (ai : Services)
    (input : GenerateCulinaryPassportInput) (apiKey : string)
    (textOutput : CulinaryPassportText) (textAttempts : nat) (out : CulinaryPassport) :
  textLoop ai input maxTextAttempts None 0 = Completed (Some textOutput, textAttempts) ->
  generateCulinaryPassport ai input apiKey = Fulfilled out ->
  map dish (Output.recommendations out) = recommendations textOutput
  /\ Output.chefCardMessage out = chefCardMessage textOutput
  /\ (forall d, In d (Output.recommendations out) ->
        photoDataUri d = ""
        \/ exists attempt media,
             1 <= attempt <= 3
             /\ generate ai (imageRequest input (dish d)) attempt = Fulfilled (Some media)
             /\ photoDataUri d = url media).
Proof.
  intros Htext Hout. unfold generateCulinaryPassport in Hout.
  destruct (negb (truthy apiKey)); [discriminate|].
  unfold culinaryPassportFlow in Hout. rewrite Htext in Hout.
  destruct (audioPromise ai textOutput) as [audio|e]; [|discriminate].
  injection Hout as <-. cbn [Output.recommendations Output.chefCardMessage].
  split; [|split; [reflexivity|]].
  - rewrite map_map. rewrite <- (map_id (recommendations textOutput)) at 2.
    apply map_ext. intros rec. unfold imagePromise.
    destruct (imageLoop ai (imageRequest input rec) maxAttempts None 0). reflexivity.
  - intros d Hd. apply in_map_iff in Hd as (rec & <- & _). unfold imagePromise.
    pose proof (imageLoop_attempts ai (imageRequest input rec)) as Hloop.
    destruct (imageLoop ai (imageRequest input rec) maxAttempts None 0) as [media attempts].
    destruct Hloop as (Hrange & _ & _ & Hlast). cbn [photoDataUri dish].
    destruct media as [m|]; [|left; reflexivity].
    right. exists attempts, m. simpl. rewrite or_else_empty. auto.
Qed.

(** The audio of the chef card. When an attempt returns audio with a URL,
    the attempts before it having failed, the sound that follows the first
    comma of the URL is converted to WAV and returned as a
    [data:audio/wav;base64,] URL. If that conversion fails, the whole
    operation throws the conversion's error, though the text and the photos
    were generated. *)
Theorem audio_is_converted_or_the_passport_throws (ai : Services)
    (input : GenerateCulinaryPassportInput) (apiKey : string)
    (textOutput : CulinaryPassportText) (textAttempts k : nat) (media : Media) :
  apiKey <> "" ->
  textLoop ai input maxTextAttempts None 0 = Completed (Some textOutput, textAttempts) ->
  chefCardMessage textOutput <> "" ->
  1 <= k <= 3 ->
  (forall j, 1 <= j < k ->
     failed (generate ai (mkRequest TTS_MODEL (chefCardMessage textOutput)) j) = true) ->
  generate ai (mkRequest TTS_MODEL (chefCardMessage textOutput)) k = Fulfilled (Some media) ->
  url media <> "" ->
  (forall wav, toWav ai (payload (url media)) = Fulfilled wav ->
     exists out,
       generateCulinaryPassport ai input apiKey = Fulfilled out
       /\ Output.chefCardAudioUri out = "data:audio/wav;base64," +:+ wav)
  /\ (forall e, toWav ai (payload (url media)) = Rejected e ->
        generateCulinaryPassport ai input apiKey = Rejected e).
Proof.
  intros Hkey Htext Hmessage Hk Hbefore Hhit Hurl.
  unfold generateCulinaryPassport. apply truthy_true_nonempty in Hkey. rewrite Hkey.
  cbn [negb]. unfold culinaryPassportFlow. rewrite Htext.
  unfold audioPromise. apply truthy_true_nonempty in Hmessage. rewrite Hmessage. cbn [negb].
  rewrite (audioLoop_first_success ai _ k media Hk Hbefore Hhit).
  unfold url_or_empty. rewrite or_else_empty.
  apply truthy_true_nonempty in Hurl. rewrite Hurl. cbn [negb].
  split.
  - intros wav ->. eexists. split; reflexivity.
  - intros e ->. reflexivity.
Qed.

End PassportOutputFacts.

Section PassportFormFacts.

Import PassportForm.

Local Arguments Ascii.eqb : simpl never.

Lemma prefix_of_empty (s : string) : String.prefix "" s = true.
Proof. destruct s; reflexivity. Qed.

Lemma prefix_cons (a c : ascii) (s1 s2 : string) :
  String.prefix (String a s1) (String c s2) = Ascii.eqb a c && String.prefix s1 s2.
Proof.
  change (String.prefix (String a s1) (String c s2))
    with (if ascii_dec a c then String.prefix s1 s2 else false).
  destruct (ascii_dec a c) as [<- | Hne].
  - rewrite Ascii.eqb_refl. reflexivity.
  - apply Ascii.eqb_neq in Hne. rewrite Hne. reflexivity.
Qed.

Lemma occurs_cons (c a : ascii) (r : string) :
  occurs c (String a r) = Ascii.eqb c a || occurs c r.
Proof. reflexivity. Qed.

Lemma startsWith_dishKey (destination other dishName : string) :
  occurs "|" destination = false -> occurs "|" other = false ->
  startsWith (dishKey other dishName) (destination +:+ "|") = String.eqb destination other.
Proof.
  unfold startsWith, dishKey.
  revert other. induction destination as [|a r IH]; intros other Hd Ho.
  - change ("" +:+ "|") with (String "|" "").
    destruct other as [|c o].
    + change ("" +:+ "|" +:+ dishName) with (String "|" dishName).
      rewrite prefix_cons, Ascii.eqb_refl, prefix_of_empty. reflexivity.
    + change (String c o +:+ "|" +:+ dishName) with (String c (o +:+ "|" +:+ dishName)).
      rewrite occurs_cons in Ho. apply orb_false_elim in Ho as [Hc _].
      rewrite prefix_cons, Hc. reflexivity.
  - change (String a r +:+ "|") with (String a (r +:+ "|")).
    rewrite occurs_cons in Hd. apply orb_false_elim in Hd as [Ha Hr].
    destruct other as [|c o].
    + change ("" +:+ "|" +:+ dishName) with (String "|" dishName).
      rewrite prefix_cons, Ascii.eqb_sym, Ha. reflexivity.
    + change (String c o +:+ "|" +:+ dishName) with (String c (o +:+ "|" +:+ dishName)).
      rewrite occurs_cons in Ho. apply orb_false_elim in Ho as [_ Ho].
      rewrite prefix_cons, (IH o Hr Ho).
      change ((String a r =? String c o)%string)
        with (if Ascii.eqb a c then (r =? o)%string else false).
      destruct (Ascii.eqb a c); reflexivity.
Qed.

Lemma split_dishKey (destination dishName : string) :
  occurs "|" destination = false -> occurs "|" dishName = false ->
  split "|" (dishKey destination dishName) !! 1 = Some dishName.
Proof.
  intros Hd Hn. unfold dishKey.
  change ("|" +:+ dishName) with (String "|" dishName).
  rewrite split_at_sep by exact Hd. rewrite split_without_sep by exact Hn. reflexivity.
Qed.

(** The keys decode to the dishes they encode. From a ledger made of
    [destination|dish] keys, the form recovers for a destination the names
    of the dishes recorded for that destination, in the order of the ledger,
    and none recorded for another one, as long as no destination and no dish
    name holds the separator [|]. *)
Theorem seenDishesForDestination_decodes_keys (destination : string)
    (ledger : list (string * string)) :
  occurs "|" destination = false ->
  (forall d n, In (d, n) ledger -> occurs "|" d = false /\ occurs "|" n = false) ->
  seenDishesForDestination destination (map (fun e => dishKey e.1 e.2) ledger)
  = map (fun e => Some e.2) (List.filter (fun e => String.eqb destination e.1) ledger).
Proof.
  intros Hdest Hledger. unfold seenDishesForDestination.
  induction ledger as [|[d n] rest IH]; [reflexivity|].
  destruct (Hledger d n) as [Hd Hn]; [left; reflexivity|].
  specialize (IH (fun d' n' Hin => Hledger d' n' (or_intror Hin))).
  cbn [map List.filter fst snd].
  rewrite (startsWith_dishKey destination d n Hdest Hd).
  destruct (String.eqb destination d); [|exact IH].
  cbn [map fst snd]. rewrite (split_dishKey d n Hd Hn), IH. reflexivity.
Qed.

Lemma split_cons (sep c : ascii) (r : string) :
  split sep (String c r)
  = if Ascii.eqb c sep then "" :: split sep r
    else match split sep r with
         | [] => [String c ""]
         | w :: ws => String c w :: ws
         end.
Proof. reflexivity. Qed.

Lemma split_has_second_field (sep : ascii) (a rest : string) :
  is_Some (split sep (a +:+ String sep rest) !! 1).
Proof.
  induction a as [|c r IH].
  - change ("" +:+ String sep rest) with (String sep rest).
    rewrite split_cons, Ascii.eqb_refl.
    destruct (split sep rest) as [|w ws] eqn:Hs; [|eauto].
    exfalso. eapply split_nonempty, Hs.
  - change (String c r +:+ String sep rest) with (String c (r +:+ String sep rest)).
    rewrite split_cons.
    destruct (split sep (r +:+ String sep rest)) as [|w [|w' ws]] eqn:Hs.
    + exfalso. eapply split_nonempty, Hs.
    + destruct IH as [? IH]. discriminate.
    + destruct (Ascii.eqb c sep); eauto.
Qed.

Lemma prefix_with_separator (sep : ascii) (d s : string) :
  String.prefix (d +:+ String sep "") s = true -> exists rest, s = d +:+ String sep rest.
Proof.
  revert s. induction d as [|a r IH]; intros s Hprefix.
  - change ("" +:+ String sep "") with (String sep "") in Hprefix.
    destruct s as [|c k]; [discriminate|].
    rewrite prefix_cons in Hprefix. apply andb_prop in Hprefix as [Hc _].
    apply Ascii.eqb_eq in Hc as <-. exists k. reflexivity.
  - change (String a r +:+ String sep "") with (String a (r +:+ String sep "")) in Hprefix.
    destruct s as [|c k]; [discriminate|].
    rewrite prefix_cons in Hprefix. apply andb_prop in Hprefix as [Hac Hrest].
    apply Ascii.eqb_eq in Hac as ->. destruct (IH k Hrest) as [rest ->].
    exists rest. reflexivity.
Qed.

(** No name handed to the flow is undefined: every key that passes the
    filter has a second field. *)
Lemma seenDishesForDestination_defined (destination : string) (seen : list string)
    (name : option string) :
  In name (seenDishesForDestination destination seen) -> is_Some name.
Proof.
  unfold seenDishesForDestination. rewrite in_map_iff.
  intros (key & <- & Hkey). apply filter_In in Hkey as [_ Hprefix].
  unfold startsWith in Hprefix.
  apply (prefix_with_separator "|") in Hprefix as [rest ->].
  apply split_has_second_field.
Qed.

End PassportFormFacts.

Section PassportSubmitFacts.

Import PassportForm.

(** A submission of the passport form with a key always ends by resetting
    the loading flag. It records dishes exactly when the flow returned at
    least one recommendation, and then all the dishes returned, under the
    destination typed. The fallback passport is shown with the toast
    [Generation Failed], whose text is the fallback's message; an error of
    the flow, a safety block included, is shown as [An error occurred.]. *)
Theorem passport_onSubmit_records_returned_dishes (ai : Passport.Services) (ctx : Context)
    (data : PassportFormValues) (key : string) :
  apiKey ctx = Some key -> key <> "" ->
  let input :=
    Passport.mkInput (destination data) (dietaryNeeds data) (preferences data)
      (Some (definedNames
               (seenDishesForDestination (destination data) (seenPassportDishes ctx)))) in
  In (CallGenerateCulinaryPassport input key) (onSubmit ai ctx data)
  /\ last (onSubmit ai ctx data) = Some (SetIsLoading false)
  /\ List.filter is_recording (onSubmit ai ctx data)
     = match Passport.generateCulinaryPassport ai input key with
       | Fulfilled result =>
           match Passport.Output.recommendations result with
           | [] => []
           | _ :: _ =>
               [AddSeenPassportDishes (Passport.Output.recommendations result)
                  (destination data)]
           end
       | Rejected _ => []
       end
  /\ (Passport.generateCulinaryPassport ai input key
      = Fulfilled (Passport.createFallbackPassport (destination data)) ->
      onSubmit ai ctx data
      = [SetIsLoading true; SetPassport None; CallGenerateCulinaryPassport input key;
         Toast (mkToast (Some "destructive") "Generation Failed"
                  (Passport.Output.chefCardMessage
                     (Passport.createFallbackPassport (destination data))));
         SetPassport (Some (Passport.createFallbackPassport (destination data)));
         SetIsLoading false])
  /\ (forall e, Passport.generateCulinaryPassport ai input key = Rejected e ->
        onSubmit ai ctx data
        = [SetIsLoading true; SetPassport None; CallGenerateCulinaryPassport input key;
           ConsoleError e;
           Toast (mkToast (Some "destructive") "An error occurred."
                    "Failed to generate your Culinary Passport. The API key might be invalid or the service may be temporarily down.");
           SetIsLoading false]).
Proof.
  intros Hctx Hkey. simpl. unfold onSubmit. rewrite Hctx.
  apply truthy_true_nonempty in Hkey. unfold truthy_opt. rewrite Hkey. cbn [negb].
  split; [simpl; auto|]. split; [rewrite app_assoc; apply last_snoc|].
  split; [|split].
  - destruct (Passport.generateCulinaryPassport ai _ key) as [result|e]; [|reflexivity].
    destruct (Passport.Output.recommendations result) as [|d ds]; [|reflexivity].
    simpl. destruct (String.eqb (Passport.Output.chefCardAudioUri result) ""); reflexivity.
  - intros ->. reflexivity.
  - intros e ->. reflexivity.
Qed.

End PassportSubmitFacts.

(** ** The chat *)

Section ChatFacts.

Import Chat.

Lemma map_history (l : list HistoryPart) : map (fun h => mkPart (role h) (parts h)) l = l.
Proof. induction l as [|[r ps] l IH]; simpl; [reflexivity|]. rewrite IH. reflexivity. Qed.

(** With a key, [chatWithChef] throws only when the chat cannot be started,
    and then the error of [startChat]. Once the chat is started it always
    replies: with the model's text, and when the model call fails with an
    apology instead, the one about safety guidelines exactly when the
    error's message mentions [SAFETY]. *)
Theorem chatWithChef_always_replies (ai : Services) (input : ChatInput) (apiKey : string) :
  apiKey <> "" ->
  (forall e, startChat ai (history input) = Some e ->
     chatWithChef ai input apiKey = Rejected e)
  /\ (startChat ai (history input) = None ->
      exists reply,
        chatWithChef ai input apiKey = Fulfilled reply
        /\ (forall t, sendMessage ai (history input) (message input) = Fulfilled t ->
              reply = t)
        /\ (forall e, sendMessage ai (history input) (message input) = Rejected e ->
              reply = if match errorMessage e with
                         | Some m => includes m "SAFETY"
                         | None => false
                         end
                      then SAFETY_REPLY else LOST_REPLY)).
Proof.
  intros Hkey. unfold chatWithChef.
  apply truthy_true_nonempty in Hkey. rewrite Hkey. cbn [negb].
  rewrite map_history. split; [intros e ->; reflexivity|]. intros ->.
  destruct (sendMessage ai _ (message input)) as [t|e].
  - exists t. split; [reflexivity|]. split; [congruence | discriminate].
  - destruct (errorMessage e) as [m|] eqn:Hm.
    + destruct (truthy m) eqn:Ht.
      * destruct (includes m "SAFETY") eqn:Hinc; eexists; (split; [reflexivity|]);
          (split; [discriminate|]); intros e' [= <-]; rewrite Hm, Hinc; reflexivity.
      * apply truthy_false_empty in Ht. subst m.
        eexists. split; [reflexivity|]. split; [discriminate|].
        intros e' [= <-]. rewrite Hm. reflexivity.
    + eexists. split; [reflexivity|]. split; [discriminate|].
      intros e' [= <-]. rewrite Hm. reflexivity.
Qed.

Lemma chatWithChef_settles (ai : Services) (input : ChatInput) (apiKey : string) :
  apiKey <> "" ->
  match startChat ai (history input) with
  | Some e => chatWithChef ai input apiKey = Rejected e
  | None => exists reply, chatWithChef ai input apiKey = Fulfilled reply
  end.
Proof.
  intros Hkey. unfold chatWithChef.
  apply truthy_true_nonempty in Hkey. rewrite Hkey. cbn [negb]. rewrite map_history.
  destruct (startChat ai (history input)) as [e0|]; [reflexivity|].
  destruct (sendMessage ai _ (message input)) as [t|e]; [eauto|].
  destruct (errorMessage e) as [m|]; [|eauto].
  destruct (truthy m && includes m "SAFETY"); eauto.
Qed.

Lemma dropLast_snoc {A} (l : list A) (x : A) : dropLast (l ++ [x]) = l.
Proof.
  unfold dropLast. rewrite length_app. simpl.
  replace (length l + 1 - 1) with (length l) by lia.
  rewrite take_app_length. reflexivity.
Qed.

Lemma exchanges_app (l1 l2 : list Message) :
  exchanges l1 = true -> exchanges (l1 ++ l2) = exchanges l2.
Proof.
  revert l1. fix IH 1. intros [|q [|a rest]]; simpl; try discriminate; [reflexivity|].
  destruct (msg_role q), (msg_role a); try discriminate. apply IH.
Qed.

(** Sending a message with a key and a question that is not blank. When
    the chat starts, one exchange is added to the conversation: the question
    as typed, then the reply that [chatWithChef] gave when handed the
    previous messages as history; a conversation made of complete exchanges
    stays one. When the chat cannot be started, the conversation is rolled
    back to what it was and a [Chat Error] toast is shown. In both cases the
    input box is cleared and the loading flag reset. *)
Theorem handleSend_adds_one_exchange (ai : Services) (key : string) (p : Panel) :
  key <> "" -> trim (input p) <> "" ->
  (startChat ai (historyOf (messages p)) = None ->
   exists reply,
     chatWithChef ai (mkInput (historyOf (messages p)) (input p)) key = Fulfilled reply
     /\ handleSend ai (Some key) p
        = (mkPanel (messages p ++ [mkMessage user (input p); mkMessage model reply]) "" false,
           [])
     /\ (exchanges (messages p) = true ->
         exchanges (messages (handleSend ai (Some key) p).1) = true))
  /\ (forall e,
        startChat ai (historyOf (messages p)) = Some e ->
        exists toast,
          handleSend ai (Some key) p = (mkPanel (messages p) "" false, [toast])
          /\ title toast = "Chat Error").
Proof.
  intros Hkey Hinput.
  pose proof (chatWithChef_settles ai (mkInput (historyOf (messages p)) (input p))
                key Hkey) as Hsettle.
  cbn [history] in Hsettle.
  assert (forall outcome,
            chatWithChef ai (mkInput (historyOf (messages p)) (input p)) key = outcome ->
            handleSend ai (Some key) p
            = match outcome with
              | Fulfilled response =>
                  (mkPanel ((messages p ++ [mkMessage user (input p)])
                              ++ [mkMessage model response]) "" false, [])
              | Rejected _ =>
                  (mkPanel (messages p) "" false,
                   [mkToast (Some "destructive") "Chat Error"
                      "Sorry, I couldn't get a response. Your API key might be invalid or the service is down."])
              end) as Hsend.
  { intros outcome <-. unfold handleSend. apply String.eqb_neq in Hinput. rewrite Hinput.
    apply truthy_true_nonempty in Hkey. unfold truthy_opt. rewrite Hkey. cbn [negb orb].
    rewrite dropLast_snoc. fold (historyOf (messages p)). reflexivity. }
  split.
  - intros Hstart. rewrite Hstart in Hsettle. destruct Hsettle as [reply Hreply].
    exists reply. split; [exact Hreply|].
    rewrite (Hsend _ Hreply), <- app_assoc. split; [reflexivity|].
    intros Hex. cbn [fst messages]. rewrite exchanges_app by exact Hex. reflexivity.
  - intros e Hstart. rewrite Hstart in Hsettle.
    rewrite (Hsend _ Hsettle). eexists. split; reflexivity.
Qed.

(** Nothing is sent for a blank question or without a key: the conversation
    and the input stay as they are, and the user is told about the missing
    key only. *)
Lemma handleSend_ignores_blank_or_keyless (ai : Services) (apiKey : option string)
    (p : Panel) :
  trim (input p) = "" \/ truthy_opt apiKey = false ->
  (handleSend ai apiKey p).1 = p
  /\ (length (handleSend ai apiKey p).2 = if truthy_opt apiKey then 0 else 1).
Proof.
  intros Hskip. unfold handleSend.
  assert (String.eqb (trim (input p)) "" || negb (truthy_opt apiKey) = true) as ->.
  { destruct Hskip as [-> | ->]; [reflexivity | apply orb_true_r]. }
  destruct (truthy_opt apiKey); split; reflexivity.
Qed.

End ChatFacts.

(** ** The recipe finder *)

Section RecipeFinderFacts.

Import RecipeFinder.

Variable Embedding : Type.
Variable embed : string -> Settled (option Embedding).
Variable query : Embedding -> Settled (list json).
Variable JSON_stringify : json -> string.

Local Abbreviation findRecipesInBigQuery :=
  (findRecipesInBigQuery Embedding embed query JSON_stringify).

(** The recipe finder throws only when the embedding call throws. A missing
    embedding and a failing warehouse query both give the JSON text of the
    empty array; otherwise the result is the JSON text of the rows that the
    query returned for the embedding of the search text. *)
Theorem findRecipesInBigQuery_fails_only_with_embedder (input : FindRecipesInput) :
  ((exists e, findRecipesInBigQuery input = Rejected e)
   <-> (exists e, embed (searchText input) = Rejected e))
  /\ (forall text, findRecipesInBigQuery input = Fulfilled text ->
        text = JSON_stringify (JArr [])
        \/ exists embedding rows,
             embed (searchText input) = Fulfilled (Some embedding)
             /\ query embedding = Fulfilled rows
             /\ text = JSON_stringify (JArr rows)).
Proof.
  unfold RecipeFinder.findRecipesInBigQuery.
  destruct (embed (searchText input)) as [[embedding|]|e].
  - destruct (query embedding) as [rows|e] eqn:Hquery.
    + split; [split; intros [e He]; discriminate|].
      intros text [= <-]. right. eauto.
    + split; [split; intros [e' He]; discriminate|].
      intros text [= <-]. left. reflexivity.
  - split; [split; intros [e He]; discriminate|].
    intros text [= <-]. left. reflexivity.
  - split; [split; eauto|]. intros text Htext. discriminate.
Qed.

End RecipeFinderFacts.

(** ** The theorems at sample inputs, continued *)

Lemma addSeenPassportDishes_NoDup_sample :
  NoDup
    (AppContext.seenPassportDishes
       (AppContext.addSeenPassportDishes AppContext.sampleParse AppContext.sampleStringify
          [Passport.mkDishWithPhoto Passport.yudofu ""] "Kyoto" AppContext.verifiedState)).
Proof.
  apply (addSeenPassportDishes_NoDup AppContext.sampleParse AppContext.sampleStringify
           [Passport.mkDishWithPhoto Passport.yudofu ""] "Kyoto" AppContext.verifiedState []);
    [reflexivity | apply NoDup_nil_2 | apply NoDup_singleton].
Defined.

Lemma recorded_list_survives_reload_sample :
  AppContext.loadedQuotes
    (AppContext.initialLoad AppContext.sampleParse
       (AppContext.localStorage
          (AppContext.addSeenQuote AppContext.sampleParse AppContext.sampleStringify
             "Stay hungry" AppContext.initialState)) ∅)
  = JArr [JStr "Stay hungry"].
Proof.
  destruct (recorded_list_survives_reload AppContext.sampleParse AppContext.sampleStringify
              (D := Passport.DishWithPhoto) "Stay hungry" [] "Kyoto"
              AppContext.initialState ∅) as [Hquotes _].
  - intros k _. simpl. rewrite lookup_empty. simpl. eauto.
  - apply Hquotes. split; reflexivity.
Defined.

Lemma unparsable_entry_resets_sample :
  AppContext.loadedQuotes
    (AppContext.initialLoad AppContext.sampleParse
       {[ AppContext.SEEN_QUOTES_STORAGE_KEY := "[Stay hungry]";
          AppContext.SEEN_RECIPES_STORAGE_KEY := "[Spinach Ri" ]} ∅) = JArr []
  /\ AppContext.loadedRecipeTitles
       (AppContext.initialLoad AppContext.sampleParse
          {[ AppContext.SEEN_QUOTES_STORAGE_KEY := "[Stay hungry]";
             AppContext.SEEN_RECIPES_STORAGE_KEY := "[Spinach Ri" ]} ∅) = JArr []
  /\ AppContext.loadedPassportDishes
       (AppContext.initialLoad AppContext.sampleParse
          {[ AppContext.SEEN_QUOTES_STORAGE_KEY := "[Stay hungry]";
             AppContext.SEEN_RECIPES_STORAGE_KEY := "[Spinach Ri" ]} ∅) = JArr []
  /\ AppContext.loadedWeeklyPlanTitles
       (AppContext.initialLoad AppContext.sampleParse
          {[ AppContext.SEEN_QUOTES_STORAGE_KEY := "[Stay hungry]";
             AppContext.SEEN_RECIPES_STORAGE_KEY := "[Spinach Ri" ]} ∅) = JArr [].
Proof.
  apply (unparsable_entry_resets_every_list AppContext.sampleParse _ ∅
           AppContext.SEEN_RECIPES_STORAGE_KEY).
  - unfold AppContext.SEEN_KEYS. apply elem_of_cons. right. apply elem_of_cons. left.
    reflexivity.
  - reflexivity.
Defined.

Lemma changing_key_sample :
  ApiKeyModal.isOpen (ApiKeyModal.changeApiKey AppContext.verifiedState) = true
  /\ HumanVerificationModal.isModalOpen (ApiKeyModal.changeApiKey AppContext.verifiedState)
     = false
  /\ ApiKeyModal.isOpen
       (ApiKeyModal.handleSaveKey " key-2 " (ApiKeyModal.changeApiKey AppContext.verifiedState))
     = false
  /\ HumanVerificationModal.isModalOpen
       (ApiKeyModal.handleSaveKey " key-2 " (ApiKeyModal.changeApiKey AppContext.verifiedState))
     = true.
Proof.
  apply (changing_key_asks_for_verification " key-2 " AppContext.verifiedState). reflexivity.
Defined.

Lemma answer_of_challenge_sample :
  let '(st', m', toasts) :=
    HumanVerificationModal.handleVerification asciiLowerCase (1 # 10) (2 # 10) 0
      (ApiKeyModal.handleSaveKey "key-1" AppContext.initialState)
      (HumanVerificationModal.mkModal "  6 " None
         (Some (Captcha.mkCaptcha "What is 10 - 4?" "6")) false) in
  AppContext.isVerifiedHuman st' = true
  /\ AppContext.sessionStorage st' !! AppContext.HUMAN_VERIFIED_SESSION_KEY = Some "true"
  /\ HumanVerificationModal.isModalOpen st' = false
  /\ m' = HumanVerificationModal.mkModal "" None None false
  /\ toasts = [].
Proof.
  apply (answer_of_challenge_verifies asciiLowerCase "key-1" (3 # 10) (9 # 10) (1 # 2)
           (1 # 10) (2 # 10) 0 (Captcha.mkCaptcha "What is 10 - 4?" "6") "  " " "
           (ApiKeyModal.handleSaveKey "key-1" AppContext.initialState)
           (HumanVerificationModal.mkModal "  6 " None
              (Some (Captcha.mkCaptcha "What is 10 - 4?" "6")) false));
    try reflexivity; discriminate.
Defined.

Lemma wrong_answer_sample :
  HumanVerificationModal.handleVerification asciiLowerCase (1 # 10) (2 # 10) 0
    (ApiKeyModal.handleSaveKey "key-1" AppContext.initialState)
    (HumanVerificationModal.mkModal "7" None
       (Some (Captcha.mkCaptcha "What is 10 - 4?" "6")) false)
  = (ApiKeyModal.handleSaveKey "key-1" AppContext.initialState,
     HumanVerificationModal.mkModal "" None
       (Some (Captcha.generateMathProblem (1 # 10) (2 # 10) 0)) false,
     []).
Proof.
  apply (wrong_answer_loads_fresh_challenge asciiLowerCase "key-1" (1 # 10) (2 # 10) 0
           (Captcha.mkCaptcha "What is 10 - 4?" "6"));
    [reflexivity | discriminate | reflexivity | discriminate].
Defined.

Lemma generateRecipe_throws_sample :
  exists e, Recipe.generateRecipe Recipe.emptyHanded Recipe.sampleInput "key-1" = Rejected e.
Proof.
  apply (generateRecipe_throws_only_without_fallback Recipe.emptyHanded Recipe.sampleInput
           "key-1" (Recipe.mkOptions [] []));
    [discriminate | reflexivity |].
  split; [exists (Error "503 Service Unavailable"); reflexivity | left; reflexivity].
Defined.

Lemma onSubmit_records_result_sample :
  exists input,
    In (RecipeForm.CallGenerateRecipe input "key-1")
      (RecipeForm.onSubmit Recipe.obedient RecipeForm.sampleContext None RecipeForm.riceValues)
    /\ Recipe.seenQuotes input = Some []
    /\ Recipe.seenRecipeTitles input = Some ["Spinach Rice"]
    /\ last (RecipeForm.onSubmit Recipe.obedient RecipeForm.sampleContext None
               RecipeForm.riceValues)
       = Some (RecipeForm.SetIsLoading false)
    /\ List.filter RecipeForm.is_recording
         (RecipeForm.onSubmit Recipe.obedient RecipeForm.sampleContext None
            RecipeForm.riceValues)
       = match Recipe.generateRecipe Recipe.obedient input "key-1" with
         | Fulfilled (Some result) =>
             [RecipeForm.AddSeenQuote (Recipe.Output.quote result);
              RecipeForm.AddSeenRecipeTitle (Recipe.Output.recipeName result)]
         | _ => []
         end.
Proof.
  apply (onSubmit_resets_loading_and_records_result Recipe.obedient RecipeForm.sampleContext
           None RecipeForm.riceValues "key-1");
    [reflexivity | reflexivity | discriminate].
Defined.

Lemma onSubmit_reports_safety_sample :
  exists input,
    RecipeForm.onSubmit Recipe.blockedForSafety RecipeForm.sampleContext None
      RecipeForm.riceValues
    = [RecipeForm.SetIsLoading true; RecipeForm.SetRecipe None;
       RecipeForm.CallGenerateRecipe input "key-1";
       RecipeForm.ConsoleError (Error "SAFETY_BLOCK"); RecipeForm.UNSAFE_TOAST;
       RecipeForm.SetIsLoading false].
Proof.
  destruct (onSubmit_reports_stage1_failure Recipe.blockedForSafety RecipeForm.sampleContext
              None RecipeForm.riceValues "key-1") as [Hsafety _];
    [reflexivity | reflexivity | discriminate |].
  apply Hsafety. intros input. reflexivity.
Defined.

Lemma ingredientNames_sample :
  "beans" <> "" /\ trim "beans" = "beans" /\ occurs "," "beans" = false.
Proof.
  apply (ingredientNames_are_clean (Some " rice, , beans ") "beans").
  right. left. reflexivity.
Defined.

Lemma generateWeeklyPlan_retries_sample :
  WeeklyPlan.generateWeeklyPlan WeeklyPlan.thirdTimeLucky WeeklyPlan.sampleInput "key-1"
  = Fulfilled (Some WeeklyPlan.samplePlan).
Proof.
  destruct (generateWeeklyPlan_retries WeeklyPlan.thirdTimeLucky WeeklyPlan.sampleInput
              "key-1" 3) as [Hplan _].
  - discriminate.
  - lia.
  - intros j Hj. assert (j = 1 \/ j = 2) as [-> | ->] by lia; reflexivity.
  - apply Hplan. reflexivity.
Defined.

Lemma weekly_onSubmit_sample :
  In (WeeklyPlan.CallGenerateWeeklyPlan
        (WeeklyPlan.mkInput "Indian" (Some []) (Some ["A Week of Dal"])) "key-1")
    (WeeklyPlan.onSubmit WeeklyPlan.overloaded
       (WeeklyPlan.mkContext (Some "key-1") ["A Week of Dal"])
       (WeeklyPlan.mkValues "Indian" (Some [])))
  /\ last (WeeklyPlan.onSubmit WeeklyPlan.overloaded
             (WeeklyPlan.mkContext (Some "key-1") ["A Week of Dal"])
             (WeeklyPlan.mkValues "Indian" (Some [])))
     = Some (WeeklyPlan.SetIsLoading false)
  /\ List.filter WeeklyPlan.is_recording
       (WeeklyPlan.onSubmit WeeklyPlan.overloaded
          (WeeklyPlan.mkContext (Some "key-1") ["A Week of Dal"])
          (WeeklyPlan.mkValues "Indian" (Some [])))
     = match WeeklyPlan.generateWeeklyPlan WeeklyPlan.overloaded
               (WeeklyPlan.mkInput "Indian" (Some []) (Some ["A Week of Dal"])) "key-1" with
       | Fulfilled (Some plan) =>
           if truthy (WeeklyPlan.planTitle plan)
           then [WeeklyPlan.AddSeenWeeklyPlanTitle (WeeklyPlan.planTitle plan)] else []
       | _ => []
       end.
Proof.
  apply (weekly_onSubmit_records_title_of_plan WeeklyPlan.overloaded
           (WeeklyPlan.mkContext (Some "key-1") ["A Week of Dal"])
           (WeeklyPlan.mkValues "Indian" (Some [])) "key-1");
    [reflexivity | discriminate].
Defined.

Lemma passport_text_retries_sample :
  exists fallback,
    Passport.generateCulinaryPassport Passport.textDown Passport.sampleInput "key-1"
    = Fulfilled fallback
    /\ fallback = Passport.createFallbackPassport "Kyoto"
    /\ Passport.Output.recommendations fallback = []
    /\ Passport.Output.chefCardAudioUri fallback = "".
Proof.
  destruct (generateCulinaryPassport_text_retries Passport.textDown Passport.sampleInput
              "key-1" 3) as [_ Hfallback].
  - discriminate.
  - lia.
  - intros j Hj. reflexivity.
  - apply Hfallback; reflexivity.
Defined.

Lemma passport_shows_dishes_sample :
  map Passport.dish [Passport.mkDishWithPhoto Passport.yudofu ""]
  = Passport.recommendations Passport.sampleText
  /\ "Watashi wa bejitarian desu." = Passport.chefCardMessage Passport.sampleText
  /\ (forall d, In d [Passport.mkDishWithPhoto Passport.yudofu ""] ->
        Passport.photoDataUri d = ""
        \/ exists attempt media,
             1 <= attempt <= 3
             /\ Passport.generate Passport.imagesDown
                  (Passport.imageRequest Passport.sampleInput (Passport.dish d)) attempt
                = Fulfilled (Some media)
             /\ Passport.photoDataUri d = url media).
Proof.
  apply (passport_shows_the_dishes_of_the_text Passport.imagesDown Passport.sampleInput
           "key-1" Passport.sampleText 1
           (Passport.Output.mk [Passport.mkDishWithPhoto Passport.yudofu ""]
              "Watashi wa bejitarian desu." "data:audio/wav;base64,UklGRiQAAABXQVZF"));
    reflexivity.
Defined.

Lemma audio_is_converted_sample :
  exists out,
    Passport.generateCulinaryPassport Passport.imagesDown Passport.sampleInput "key-1"
    = Fulfilled out
    /\ Passport.Output.chefCardAudioUri out = "data:audio/wav;base64,UklGRiQAAABXQVZF".
Proof.
  destruct (audio_is_converted_or_the_passport_throws Passport.imagesDown
              Passport.sampleInput "key-1" Passport.sampleText 1 1 Passport.sampleVoice)
    as [Hconverted _].
  - discriminate.
  - reflexivity.
  - discriminate.
  - lia.
  - intros j Hj. lia.
  - reflexivity.
  - discriminate.
  - apply (Hconverted "UklGRiQAAABXQVZF"). reflexivity.
Defined.

Lemma seenDishesForDestination_sample :
  PassportForm.seenDishesForDestination "Kyoto"
    (map (fun e => PassportForm.dishKey e.1 e.2)
       [("Kyoto", "Yudofu"); ("Lima", "Causa"); ("Kyoto", "Obanzai")])
  = map (fun e => Some e.2)
      (List.filter (fun e => String.eqb "Kyoto" e.1)
         [("Kyoto", "Yudofu"); ("Lima", "Causa"); ("Kyoto", "Obanzai")]).
Proof.
  apply (seenDishesForDestination_decodes_keys "Kyoto"
           [("Kyoto", "Yudofu"); ("Lima", "Causa"); ("Kyoto", "Obanzai")]).
  - reflexivity.
  - intros d n [H | [H | [H | []]]]; injection H as <- <-; split; reflexivity.
Defined.

Lemma passport_onSubmit_sample :
  List.filter PassportForm.is_recording
    (PassportForm.onSubmit Passport.imagesDown
       (PassportForm.mkContext (Some "key-1") ["Kyoto|Obanzai"])
       (PassportForm.mkValues "Kyoto" "Vegetarian, no peanuts" None))
  = match Passport.generateCulinaryPassport Passport.imagesDown
            (Passport.mkInput "Kyoto" "Vegetarian, no peanuts" None
               (Some (PassportForm.definedNames
                        (PassportForm.seenDishesForDestination "Kyoto" ["Kyoto|Obanzai"]))))
            "key-1" with
    | Fulfilled result =>
        match Passport.Output.recommendations result with
        | [] => []
        | _ :: _ =>
            [PassportForm.AddSeenPassportDishes (Passport.Output.recommendations result)
               "Kyoto"]
        end
    | Rejected _ => []
    end.
Proof.
  destruct (passport_onSubmit_records_returned_dishes Passport.imagesDown
              (PassportForm.mkContext (Some "key-1") ["Kyoto|Obanzai"])
              (PassportForm.mkValues "Kyoto" "Vegetarian, no peanuts" None) "key-1")
    as (_ & _ & Hrecorded & _);
    [reflexivity | discriminate |].
  exact Hrecorded.
Defined.

Lemma chatWithChef_replies_sample :
  exists reply,
    Chat.chatWithChef Chat.blocked (Chat.mkInput [] "How do I press tofu?") "key-1"
    = Fulfilled reply
    /\ reply = Chat.SAFETY_REPLY.
Proof.
  destruct (chatWithChef_always_replies Chat.blocked
              (Chat.mkInput [] "How do I press tofu?") "key-1") as [_ Hstarted];
    [discriminate|].
  destruct (Hstarted eq_refl) as (reply & Hreply & _ & Hfailed).
  exists reply. split; [exact Hreply|].
  apply (Hfailed (Error "Response was blocked due to SAFETY")). reflexivity.
Defined.

Lemma handleSend_sample :
  exists reply,
    Chat.chatWithChef Chat.echo (Chat.mkInput [] "How do I press tofu?") "key-1"
    = Fulfilled reply
    /\ Chat.handleSend Chat.echo (Some "key-1")
         (Chat.mkPanel [] "How do I press tofu?" false)
       = (Chat.mkPanel [Chat.mkMessage Chat.user "How do I press tofu?";
                        Chat.mkMessage Chat.model reply] "" false, []).
Proof.
  destruct (handleSend_adds_one_exchange Chat.echo "key-1"
              (Chat.mkPanel [] "How do I press tofu?" false)) as [Hstarted _];
    [discriminate | discriminate |].
  destruct (Hstarted eq_refl) as (reply & Hreply & Hsend & _).
  exists reply. split; [exact Hreply | exact Hsend].
Defined.

Lemma key_and_flag_sample :
  AppContext.loadApiKey
    (AppContext.localStorage (AppContext.setApiKey (Some "") AppContext.verifiedState))
  = None
  /\ AppContext.loadVerifiedHuman
       (AppContext.sessionStorage (AppContext.setApiKey (Some "") AppContext.verifiedState))
     = false.
Proof.
  destruct (key_and_flag_survive_reload (Some "") true AppContext.verifiedState)
    as (Hkey & Hflag & _).
  split; [exact Hkey | apply Hflag; reflexivity].
Defined.

Lemma findRecipesInBigQuery_sample :
  "[]" = AppContext.sampleStringify (JArr [])
  \/ exists (embedding : list Z) (rows : list json),
       Fulfilled (Some [1%Z; 0%Z]) = Fulfilled (Some embedding)
       /\ Rejected (Error "Quota exceeded") = Fulfilled rows
       /\ "[]" = AppContext.sampleStringify (JArr rows).
Proof.
  destruct (findRecipesInBigQuery_fails_only_with_embedder (list Z)
              (fun _ => Fulfilled (Some [1%Z; 0%Z]))
              (fun _ => Rejected (Error "Quota exceeded"))
              AppContext.sampleStringify (RecipeFinder.mkInput "Indian" None))
    as [_ Hreturned].
  apply (Hreturned "[]"). reflexivity.
Defined.
